(** * Beaver Transformer: embeddings, attention and the decoder stack

    A shallow embedding of [beaver/model/embeddings.py] and
    [beaver/model/transformer.py].

    Conventions of the embedding.
    - Python integers are [Z]; tensor sizes and indices are [nat].
    - A tensor is its shape together with its element function; elements
      outside the shape are never read.  Tensors are typed by rank
      ([T2], [T3], [T4]), as the code fixes the rank of every tensor.
    - Floating-point numbers are idealised as real numbers ([R]): the
      development is about the algorithm, not about rounding.  Where a
      property would depend on rounding (an exponential that underflows to
      zero), it is stated as a bound that the rounded value satisfies too.
    - Integer tensors hold [Z].  A tensor of dtype [bool] is one whose
      entries are all 0 ([False]) or 1 ([True]); a tensor with another
      entry has another dtype.
    - Python exceptions are the constructors of [Py.exn]; a function that
      can raise returns a [Py.Result].
    - [nn.Dropout] draws from torch's global random generator.  The stream
      of uniform samples still to be drawn is threaded explicitly through
      every [forward] (the monad [Torch.M]). *)

From Stdlib Require Import Reals ZArith List Lia Lra Bool Arith PeanoNat.
Import ListNotations.

Set Implicit Arguments.

(* ================================================================== *)
(** ** Python: exceptions, integer division, slices *)
(* ================================================================== *)

Module Py.

Inductive exn : Type :=
| ZeroDivisionError
| ValueError
| TypeError
| IndexError
| AttributeError
| AssertionError
| RuntimeError.

Inductive Result (A : Type) : Type :=
| Ok (a : A)
| Raise (e : exn).

Arguments Ok {A} a.
Arguments Raise {A} e.

Definition bind {A B : Type} (r : Result A) (k : A -> Result B) : Result B :=
  match r with
  | Ok a => k a
  | Raise e => Raise e
  end.

(** [a // b] on Python integers: the floor of the quotient. *)
Definition floordiv (a b : Z) : Result Z :=
  if (b =? 0)%Z then Raise ZeroDivisionError else Ok (a / b)%Z.

(** One bound of a slice [s[i:j]] over a sequence of [len] items: a negative
    bound counts from the end, and every bound is clamped to [0..len]. *)
Definition slice_bound (len i : Z) : Z :=
  if (i <? 0)%Z then Z.max 0 (i + len) else Z.min i len.

(** First index and number of items of [s[start:stop]]. *)
Definition slice_start (len start : Z) : nat := Z.to_nat (slice_bound len start).

Definition slice_len (len start stop : Z) : nat :=
  Z.to_nat (slice_bound len stop - slice_bound len start).

(** [math.sqrt] of an integer. *)
Definition math_sqrt (x : Z) : Result R :=
  if (x <? 0)%Z then Raise ValueError else Ok (sqrt (IZR x)).

(** [base ** e] for an integer base and a float exponent.  A negative base
    with a fractional exponent gives a complex number, which no tensor
    operation of this program accepts. *)
Definition pow (base : Z) (e : R) : Result R :=
  if (0 <? base)%Z then Ok (Rpower (IZR base) e)
  else if (base =? 0)%Z then
    if Rlt_dec e 0 then Raise ZeroDivisionError
    else if Req_dec_T e 0 then Ok 1%R else Ok 0%R
  else Raise TypeError.

(** [l[i]] on a Python list. *)
Definition getitem {A : Type} (l : list A) (i : nat) : Result A :=
  match nth_error l i with
  | Some a => Ok a
  | None => Raise IndexError
  end.

(** [[f(i) for i in range(n)]] for a fallible [f]. *)
Fixpoint collect {A : Type} (f : nat -> Result A) (start n : nat)
  : Result (list A) :=
  match n with
  | O => Ok nil
  | S k => bind (f start) (fun a =>
           bind (collect f (S start) k) (fun rest => Ok (a :: rest)))
  end.

End Py.

Export Py.

(* ================================================================== *)
(** ** torch: tensors and the operations the model uses *)
(* ================================================================== *)

Module Torch.

Import Py.

(** *** The random source and the computation monad *)

(** The uniform samples in [0,1) that the global generator will produce. *)
Definition rng : Type := nat -> R.

Definition advance (n : nat) (g : rng) : rng := fun i => g (i + n)%nat.

Definition M (A : Type) : Type := rng -> Result (A * rng).

Definition ret {A : Type} (a : A) : M A := fun g => Ok (a, g).

Definition mbind {A B : Type} (m : M A) (k : A -> M B) : M B :=
  fun g => match m g with
           | Ok (a, g') => k a g'
           | Raise e => Raise e
           end.

Definition lift {A : Type} (r : Result A) : M A :=
  fun g => match r with
           | Ok a => Ok (a, g)
           | Raise e => Raise e
           end.

Declare Scope torch_scope.
Delimit Scope torch_scope with torch.

Notation "x <- m ;; k" := (mbind m (fun x => k))
  (at level 61, m at next level, right associativity) : torch_scope.
Notation "' p <- m ;; k" := (mbind m (fun x => let p := x in k))
  (at level 61, p pattern, m at next level, right associativity) : torch_scope.
Notation "x <~ r ;; k" := (mbind (lift r) (fun x => k))
  (at level 61, r at next level, right associativity) : torch_scope.
Notation "' p <~ r ;; k" := (mbind (lift r) (fun x => let p := x in k))
  (at level 61, p pattern, r at next level, right associativity) : torch_scope.

(** *** Tensors of rank 2, 3 and 4 *)

Record T2 (A : Type) : Type := mkT2 {
  rows : nat;
  cols : nat;
  at2 : nat -> nat -> A
}.

Record T3 (A : Type) : Type := mkT3 {
  dim0 : nat;
  dim1 : nat;
  dim2 : nat;
  at3 : nat -> nat -> nat -> A
}.

Record T4 (A : Type) : Type := mkT4 {
  size0 : nat;
  size1 : nat;
  size2 : nat;
  size3 : nat;
  at4 : nat -> nat -> nat -> nat -> A
}.

Definition shape2 {A} (t : T2 A) : nat * nat := (rows t, cols t).
Definition shape3 {A} (t : T3 A) : nat * nat * nat := (dim0 t, dim1 t, dim2 t).
Definition shape4 {A} (t : T4 A) : nat * nat * nat * nat :=
  (size0 t, size1 t, size2 t, size3 t).

(** Finite sums and bounded universal checks over an index range. *)
Fixpoint sum_n (n : nat) (f : nat -> R) : R :=
  match n with
  | O => 0%R
  | S k => (sum_n k f + f k)%R
  end.

Fixpoint all_below (n : nat) (p : nat -> bool) : bool :=
  match n with
  | O => true
  | S k => all_below k p && p k
  end.

(** *** Broadcasting *)

(** The common size of two aligned dimensions. *)
Definition broadcast_dim (a b : nat) : Result nat :=
  if (a =? b)%nat then Ok a
  else if (a =? 1)%nat then Ok b
  else if (b =? 1)%nat then Ok a
  else Raise RuntimeError.

(** The index read from a dimension of size [n] for result index [i]. *)
Definition bidx (n i : nat) : nat := if (n =? 1)%nat then 0%nat else i.

(** [expand]: a dimension of size [have] can be shown as size [want]. *)
Definition expandable (have want : nat) : bool :=
  (have =? want)%nat || (have =? 1)%nat.

(** [x + y] for a rank-3 [x] and a rank-2 [y] (aligned on the right). *)
Definition add3_2 (x : T3 R) (y : T2 R) : Result (T3 R) :=
  bind (broadcast_dim (dim1 x) (rows y)) (fun l =>
  bind (broadcast_dim (dim2 x) (cols y)) (fun c =>
  Ok (mkT3 (dim0 x) l c (fun b i j =>
        (at3 x b (bidx (dim1 x) i) (bidx (dim2 x) j)
         + at2 y (bidx (rows y) i) (bidx (cols y) j))%R)))).

(** [x + y] for two rank-3 tensors. *)
Definition add3 (x y : T3 R) : Result (T3 R) :=
  bind (broadcast_dim (dim0 x) (dim0 y)) (fun b =>
  bind (broadcast_dim (dim1 x) (dim1 y)) (fun l =>
  bind (broadcast_dim (dim2 x) (dim2 y)) (fun c =>
  Ok (mkT3 b l c (fun i j k =>
        (at3 x (bidx (dim0 x) i) (bidx (dim1 x) j) (bidx (dim2 x) k)
         + at3 y (bidx (dim0 y) i) (bidx (dim1 y) j) (bidx (dim2 y) k))%R))))).

(** Addition of unsigned 8-bit values (dtype [uint8]). *)
Definition byte_add (a b : Z) : Z := ((a + b) mod 256)%Z.

(** [x + y] for a rank-3 and a rank-2 byte tensor. *)
Definition byte_add3_2 (x : T3 Z) (y : T2 Z) : Result (T3 Z) :=
  bind (broadcast_dim (dim1 x) (rows y)) (fun l =>
  bind (broadcast_dim (dim2 x) (cols y)) (fun c =>
  Ok (mkT3 (dim0 x) l c (fun b i j =>
        byte_add (at3 x b (bidx (dim1 x) i) (bidx (dim2 x) j))
                 (at2 y (bidx (rows y) i) (bidx (cols y) j)))))).

(** [torch.gt(x, 0)]; [True] is 1 and [False] is 0. *)
Definition gt0 (x : T3 Z) : T3 Z :=
  mkT3 (dim0 x) (dim1 x) (dim2 x)
       (fun b i j => if (0 <? at3 x b i j)%Z then 1%Z else 0%Z).

(** [x * s] for a Python float [s]. *)
Definition scale3 (x : T3 R) (s : R) : T3 R :=
  mkT3 (dim0 x) (dim1 x) (dim2 x) (fun b i j => (at3 x b i j * s)%R).

Definition scale4 (x : T4 R) (s : R) : T4 R :=
  mkT4 (size0 x) (size1 x) (size2 x) (size3 x)
       (fun b h i j => (at4 x b h i j * s)%R).

(** *** Indexing, slicing, joining *)

(** [t[start:stop]] on the first axis of a rank-2 tensor. *)
Definition slice_rows {A} (t : T2 A) (start stop : Z) : T2 A :=
  let len := Z.of_nat (rows t) in
  mkT2 (slice_len len start stop) (cols t)
       (fun i j => at2 t (slice_start len start + i) j).

(** [t[:n, :n]]. *)
Definition top_left {A} (t : T2 A) (n : nat) : T2 A :=
  mkT2 (Nat.min n (rows t)) (Nat.min n (cols t)) (at2 t).

(** [t.unsqueeze(1).repeat(1, n, 1)] for a rank-2 [t]. *)
Definition unsqueeze1_repeat {A} (t : T2 A) (n : nat) : T3 A :=
  mkT3 (rows t) n (cols t) (fun b _ j => at2 t b j).

(** [t[:, i]] for a rank-4 [t]. *)
Definition select1 {A} (t : T4 A) (i : nat) : Result (T3 A) :=
  if (i <? size1 t)%nat
  then Ok (mkT3 (size0 t) (size2 t) (size3 t) (fun b l c => at4 t b i l c))
  else Raise IndexError.

(** [torch.cat((a, b), dim=1)]. *)
Definition cat1 (a b : T3 R) : Result (T3 R) :=
  if ((dim0 a =? dim0 b) && (dim2 a =? dim2 b))%nat
  then Ok (mkT3 (dim0 a) (dim1 a + dim1 b) (dim2 a)
                (fun i l c => if (l <? dim1 a)%nat then at3 a i l c
                              else at3 b i (l - dim1 a) c))
  else Raise RuntimeError.

(** [torch.stack(ts, dim=1)]. *)
Definition stack1 (ts : list (T3 R)) : Result (T4 R) :=
  match ts with
  | [] => Raise RuntimeError
  | t0 :: rest =>
      if forallb (fun t => (dim0 t =? dim0 t0) && (dim1 t =? dim1 t0)
                           && (dim2 t =? dim2 t0))%nat rest
      then Ok (mkT4 (dim0 t0) (length ts) (dim1 t0) (dim2 t0)
                    (fun b i l c => at3 (nth i ts t0) b l c))
      else Raise RuntimeError
  end.

(** [torch.triu(torch.ones(n, n), diagonal=1).byte()]. *)
Definition triu_ones (n : nat) : T2 Z :=
  mkT2 n n (fun i j => if (i <? j)%nat then 1%Z else 0%Z).

(** *** Views, transposition and products *)

(** [torch.chunk(t, n, dim=-1)]: pieces of [ceil(D / n)] columns, the last
    one possibly shorter; fewer than [n] pieces when they run out. *)
Definition chunk (n : nat) (t : T3 R) : list (T3 R) :=
  let D := dim2 t in
  let split_size := ((D + n - 1) / n)%nat in
  if (split_size =? 0)%nat
  then repeat (mkT3 (dim0 t) (dim1 t) 0 (at3 t)) n
  else
    let num := Nat.max ((D + split_size - 1) / split_size) 1 in
    map (fun i =>
           mkT3 (dim0 t) (dim1 t)
                (if (i <? num - 1)%nat then split_size
                 else D - split_size * (num - 1))%nat
                (fun b l c => at3 t b l (i * split_size + c)%nat))
        (seq 0 num).

(** [x.view(x.size(0), -1, h, d)].  The inferred size must exist and be
    unique.  A tensor that owns its storage ([contiguous]) is regrouped in
    row-major order; a piece cut out of a wider tensor by [chunk] can only
    be viewed when the new trailing sizes tile its feature axis exactly. *)
Definition view_heads (contiguous : bool) (h d : Z) (x : T3 R)
  : Result (T4 R) :=
  if ((h <? 0) || (d <? 0))%Z then Raise RuntimeError
  else
    let hn := Z.to_nat h in
    let dn := Z.to_nat d in
    let numel := (dim1 x * dim2 x)%nat in      (* per batch entry *)
    let known := (hn * dn)%nat in
    if ((dim0 x =? 0) || (known =? 0))%nat then Raise RuntimeError
    else if negb (numel mod known =? 0)%nat then Raise RuntimeError
    else if contiguous || (numel =? 0)%nat || (known =? dim2 x)%nat
            || (dn =? dim2 x)%nat || (dim1 x =? 1)%nat
    then Ok (mkT4 (dim0 x) (numel / known) hn dn
                  (fun b n j c =>
                     let i := ((n * hn + j) * dn + c)%nat in
                     at3 x b (i / dim2 x) (i mod dim2 x)))
    else Raise RuntimeError.

(** [x.transpose(1, 2)] and [x.transpose(2, 3)]. *)
Definition transpose12 {A} (x : T4 A) : T4 A :=
  mkT4 (size0 x) (size2 x) (size1 x) (size3 x)
       (fun b i j c => at4 x b j i c).

Definition transpose23 {A} (x : T4 A) : T4 A :=
  mkT4 (size0 x) (size1 x) (size3 x) (size2 x)
       (fun b h i j => at4 x b h j i).

(** [x.contiguous().view(x.size(0), -1, width)]. *)
Definition view_merge (width : Z) (x : T4 R) : Result (T3 R) :=
  if (width <? 0)%Z then Raise RuntimeError
  else
    let w := Z.to_nat width in
    let numel := (size1 x * size2 x * size3 x)%nat in
    if ((size0 x =? 0) || (w =? 0))%nat then Raise RuntimeError
    else if negb (numel mod w =? 0)%nat then Raise RuntimeError
    else Ok (mkT3 (size0 x) (numel / w) w
                  (fun b n c =>
                     let i := (n * w + c)%nat in
                     at4 x b (i / (size2 x * size3 x))
                         ((i / size3 x) mod size2 x) (i mod size3 x))).

(** [torch.matmul(a, b)] on rank-4 tensors: a matrix product over the last
    two axes, the leading two broadcast. *)
Definition matmul4 (a b : T4 R) : Result (T4 R) :=
  if negb (size3 a =? size2 b)%nat then Raise RuntimeError
  else
    bind (broadcast_dim (size0 a) (size0 b)) (fun n0 =>
    bind (broadcast_dim (size1 a) (size1 b)) (fun n1 =>
    Ok (mkT4 n0 n1 (size2 a) (size3 b)
             (fun i j r c =>
                sum_n (size3 a) (fun k =>
                  (at4 a (bidx (size0 a) i) (bidx (size1 a) j) r k
                   * at4 b (bidx (size0 b) i) (bidx (size1 b) j) k c)%R))))).

(** [mask.unsqueeze(1).expand_as(scores)]. *)
Definition unsqueeze1_expand_as (mask : T3 Z) (scores : T4 R)
  : Result (T4 Z) :=
  if expandable (dim0 mask) (size0 scores)
     && expandable (dim1 mask) (size2 scores)
     && expandable (dim2 mask) (size3 scores)
  then Ok (mkT4 (size0 scores) (size1 scores) (size2 scores) (size3 scores)
                (fun b _ q k =>
                   at3 mask (bidx (dim0 mask) b) (bidx (dim1 mask) q)
                       (bidx (dim2 mask) k)))
  else Raise RuntimeError.

(** The values of dtype [bool]. *)
Definition is_bool (v : Z) : bool := ((v =? 0) || (v =? 1))%Z.

(** [mask.dtype == torch.bool]. *)
Definition is_bool4 (mask : T4 Z) : bool :=
  all_below (size0 mask) (fun b =>
  all_below (size1 mask) (fun h =>
  all_below (size2 mask) (fun q =>
  all_below (size3 mask) (fun k => is_bool (at4 mask b h q k))))).

(** [scores.masked_fill(mask, value)], for a mask of the shape of
    [scores].  Only a boolean mask is accepted; its [True] entries select
    the elements that are replaced. *)
Definition masked_fill (scores : T4 R) (mask : T4 Z) (value : R)
  : Result (T4 R) :=
  if is_bool4 mask
  then Ok (mkT4 (size0 scores) (size1 scores) (size2 scores) (size3 scores)
                (fun b h q k =>
                   if (at4 mask b h q k =? 0)%Z then at4 scores b h q k
                   else value))
  else Raise RuntimeError.

(** [nn.Softmax(dim=-1)], over the reals: every weight is positive, however
    small.  In floating point the exponential of a score far below the
    largest one of its row rounds to zero. *)
Definition softmax (x : T4 R) : T4 R :=
  mkT4 (size0 x) (size1 x) (size2 x) (size3 x)
       (fun b h q k =>
          (exp (at4 x b h q k)
           / sum_n (size3 x) (fun j => exp (at4 x b h q j)))%R).

(** [nn.ReLU]. *)
Definition relu (x : T3 R) : T3 R :=
  mkT3 (dim0 x) (dim1 x) (dim2 x) (fun b i j => Rmax 0 (at3 x b i j)).

End Torch.

(* ================================================================== *)
(** ** torch.nn: the library modules the model is built from *)
(* ================================================================== *)

Module nn.

Import Py Torch.
Local Open Scope torch_scope.

(** [nn.Linear]: [y = x W^T + b] on the last axis. *)
Module Linear.

Record t : Type := mk {
  in_features : nat;
  out_features : nat;
  weight : nat -> nat -> R;      (* out_features x in_features *)
  bias : nat -> R
}.

(** [nn.Linear(i, o)]; [w] and [b] are the values its weight and bias
    start with.  A negative size is refused by the allocator; a layer with
    an empty side is built. *)
Definition init (i o : Z) (w : nat -> nat -> R) (b : nat -> R) : Result t :=
  if ((i <? 0) || (o <? 0))%Z then Raise RuntimeError
  else Ok (mk (Z.to_nat i) (Z.to_nat o) w b).

Definition forward (self : t) (x : T3 R) : Result (T3 R) :=
  if (dim2 x =? in_features self)%nat
  then Ok (mkT3 (dim0 x) (dim1 x) (out_features self)
                (fun b i o =>
                   (sum_n (in_features self)
                          (fun k => at3 x b i k * weight self o k)
                    + bias self o)%R))
  else Raise RuntimeError.

End Linear.

(** [torch.nn.init]: the initialisers the model applies to its linear
    layers. *)
Module init.

(** [nn.init.xavier_uniform_(l.weight)], whose draw is [w].  The bound of
    the draw is [sqrt(3) * sqrt(2 / (fan_in + fan_out))]: a weight with
    neither rows nor columns makes the division fail. *)
Definition xavier_uniform_ (l : Linear.t) (w : nat -> nat -> R)
  : Result Linear.t :=
  if (Linear.in_features l + Linear.out_features l =? 0)%nat
  then Raise ZeroDivisionError
  else Ok (Linear.mk (Linear.in_features l) (Linear.out_features l) w
                     (Linear.bias l)).

(** [nn.init.constant_(l.bias, c)]. *)
Definition constant_ (l : Linear.t) (c : R) : Linear.t :=
  Linear.mk (Linear.in_features l) (Linear.out_features l) (Linear.weight l)
            (fun _ => c).

End init.

(** [nn.Dropout]: the identity in evaluation mode; in training mode every
    element is zeroed when its uniform draw falls below [p] and divided by
    [1 - p] otherwise.  One draw is consumed per element, in row-major
    order. *)
Module Dropout.

Record t : Type := mk {
  p : R;
  training : bool
}.

Definition init (prob : R) : Result t :=
  if Rlt_dec prob 0 then Raise ValueError
  else if Rlt_dec 1 prob then Raise ValueError
  else Ok (mk prob true).

Definition eval (self : t) : t := mk (p self) false.

Definition drop (self : t) (u x : R) : R :=
  if Rlt_dec u (p self) then 0%R else (x / (1 - p self))%R.

Definition forward3 (self : t) (x : T3 R) : M (T3 R) :=
  fun g =>
    if training self
    then Ok (mkT3 (dim0 x) (dim1 x) (dim2 x)
                  (fun b i j =>
                     drop self (g ((b * dim1 x + i) * dim2 x + j)%nat)
                          (at3 x b i j)),
             advance (dim0 x * dim1 x * dim2 x) g)
    else Ok (x, g).

Definition forward4 (self : t) (x : T4 R) : M (T4 R) :=
  fun g =>
    if training self
    then Ok (mkT4 (size0 x) (size1 x) (size2 x) (size3 x)
                  (fun b h i j =>
                     drop self
                          (g (((b * size1 x + h) * size2 x + i) * size3 x + j)%nat)
                          (at4 x b h i j)),
             advance (size0 x * size1 x * size2 x * size3 x) g)
    else Ok (x, g).

End Dropout.

(** [nn.LayerNorm(hidden_size)]: normalisation of the last axis with the
    biased variance, then the learned scale and shift. *)
Module LayerNorm.

Record t : Type := mk {
  normalized_shape : nat;
  weight : nat -> R;
  bias : nat -> R;
  eps : R
}.

Definition init (hidden_size : Z) : Result t :=
  if (hidden_size <? 0)%Z then Raise RuntimeError
  else Ok (mk (Z.to_nat hidden_size) (fun _ => 1%R) (fun _ => 0%R) (/ 10 ^ 5)%R).

Definition mean (n : nat) (v : nat -> R) : R := (sum_n n v / INR n)%R.

Definition var (n : nat) (v : nat -> R) : R :=
  mean n (fun k => ((v k - mean n v) * (v k - mean n v))%R).

Definition forward (self : t) (x : T3 R) : Result (T3 R) :=
  let n := normalized_shape self in
  if (dim2 x =? n)%nat
  then Ok (mkT3 (dim0 x) (dim1 x) (dim2 x)
                (fun b i j =>
                   let v := at3 x b i in
                   ((v j - mean n v) / sqrt (var n v + eps self)
                    * weight self j + bias self j)%R))
  else Raise RuntimeError.

End LayerNorm.

(** [nn.Embedding]: a table of [num_embeddings] rows looked up by token id. *)
Module Embedding.

Record t : Type := mk {
  weight : T2 R;                 (* num_embeddings x embedding_dim *)
  padding_idx : option Z
}.

(** The constructor's checks on [padding_idx] and on the table sizes; a
    negative [padding_idx] is stored counted from the end. *)
Definition init (num_embeddings embedding_dim : Z) (padding_idx : option Z)
    (w : nat -> nat -> R) : Result t :=
  let table := mkT2 (Z.to_nat num_embeddings) (Z.to_nat embedding_dim) w in
  let sizes_ok := ((0 <=? num_embeddings) && (0 <=? embedding_dim))%Z in
  match padding_idx with
  | None => if sizes_ok then Ok (mk table None) else Raise RuntimeError
  | Some i =>
      if ((0 <? i) && negb (i <? num_embeddings))%Z then Raise AssertionError
      else if ((i <? 0) && (i <? - num_embeddings))%Z then Raise AssertionError
      else if negb sizes_ok then Raise RuntimeError
      else Ok (mk table (Some (if (i <? 0)%Z then num_embeddings + i else i)%Z))
  end.

Definition in_vocab (self : t) (id : Z) : bool :=
  ((0 <=? id) && (id <? Z.of_nat (rows (weight self))))%Z.

Definition forward (self : t) (x : T2 Z) : Result (T3 R) :=
  if all_below (rows x) (fun b =>
       all_below (cols x) (fun l => in_vocab self (at2 x b l)))
  then Ok (mkT3 (rows x) (cols x) (cols (weight self))
                (fun b l c => at2 (weight self) (Z.to_nat (at2 x b l)) c))
  else Raise IndexError.

End Embedding.

End nn.

(* ================================================================== *)
(** ** beaver/model/embeddings.py *)
(* ================================================================== *)

Import Torch.
Local Open Scope torch_scope.

(** [div_term[i]] of [positional_encoding_1], for [half = embedding_dim // 2]:
    [exp(arange(0, half)[i] * -(log(1.e4) / (half - 1)))]. *)
Definition div_term_1 (half : Z) (i : nat) : R :=
  exp (INR i * - (ln 10000 / IZR (half - 1))).

(** [positional_encoding_1(embedding_dim, max_len)].  [torch.arange] refuses
    a negative end; [log(1.e4) / ((embedding_dim // 2) - 1)] divides by
    [half - 1]; the table is the sines followed by the cosines. *)
Definition positional_encoding_1 (embedding_dim max_len : Z) : Result (T2 R) :=
  let half := (embedding_dim / 2)%Z in
  if ((max_len <? 0) || (half <? 0))%Z then Raise RuntimeError
  else if (half - 1 =? 0)%Z then Raise ZeroDivisionError
  else
    let n := Z.to_nat half in
    Ok (mkT2 (Z.to_nat max_len) (n + n)
             (fun p c =>
                if (c <? n)%nat
                then sin (INR p * div_term_1 half c)
                else cos (INR p * div_term_1 half (c - n)))).

(** [div_term[i]] of [positional_encoding_2]:
    [exp(arange(0, dim, 2)[i] * -(log(10000.0) / dim))]. *)
Definition div_term (dim : Z) (i : nat) : R :=
  exp (INR (2 * i) * - (ln 10000 / IZR dim)).

(** [positional_encoding_2(dim, max_len)].  [torch.zeros] refuses a negative
    size; [log(10000.0) / dim] divides by [dim]; the sines fill the even
    columns; the cosines, of which there are as many as sines, are assigned
    to the odd columns, which an odd [dim] above 1 has one fewer of. *)
Definition positional_encoding_2 (dim max_len : Z) : Result (T2 R) :=
  if ((max_len <? 0) || (dim <? 0))%Z then Raise RuntimeError
  else if (dim =? 0)%Z then Raise ZeroDivisionError
  else
    let evens := Z.to_nat ((dim + 1) / 2) in
    let odds := Z.to_nat (dim / 2) in
    if expandable evens odds
    then Ok (mkT2 (Z.to_nat max_len) (Z.to_nat dim)
                  (fun p c =>
                     if Nat.even c
                     then sin (INR p * div_term dim (c / 2))
                     else cos (INR p * div_term dim (c / 2))))
    else Raise RuntimeError.

(** The default of the [max_len] parameter. *)
Definition default_max_len : Z := 5000.

Module Embedding.

Record t : Type := mk {
  word_padding_idx : option Z;
  embedding_dim : Z;
  embedding : nn.Embedding.t;
  pe : T2 R;
  dropout : nn.Dropout.t
}.

Definition padding_idx (self : t) : option Z := word_padding_idx self.

(** [self.embedding.weight[self.padding_idx]]: the rows selected by the
    index ([None] selects the whole table). *)
Definition padding_rows (num_embeddings : nat) (idx : option Z)
  : Result (nat -> bool) :=
  match idx with
  | None => Ok (fun _ => true)
  | Some i =>
      let n := Z.of_nat num_embeddings in
      if ((i <? - n) || (n <=? i))%Z then Raise IndexError
      else Ok (fun r => (r =? Z.to_nat (if (i <? 0)%Z then i + n else i))%nat)
  end.

(** [reset_parameters]: [normal] is the draw of [nn.init.normal_]; the rows
    of the padding index are then set to zero. *)
Definition reset_parameters (self : t) (normal : nat -> nat -> R) : Result t :=
  let w := nn.Embedding.weight (embedding self) in
  bind (padding_rows (rows w) (padding_idx self)) (fun is_pad =>
  Ok (mk (word_padding_idx self) (embedding_dim self)
         (nn.Embedding.mk
            (mkT2 (rows w) (cols w)
                  (fun r c => if is_pad r then 0%R else normal r c))
            (nn.Embedding.padding_idx (embedding self)))
         (pe self) (dropout self))).

(** [Embedding(embedding_dim, vocab_size, padding_idx, dropout)]. *)
Definition init (embedding_dim vocab_size : Z) (padding_idx : option Z)
    (dropout : R) (normal : nat -> nat -> R) : Result t :=
  bind (positional_encoding_2 embedding_dim default_max_len) (fun pe =>
  bind (nn.Embedding.init vocab_size embedding_dim padding_idx normal) (fun emb =>
  bind (nn.Dropout.init dropout) (fun drop =>
  reset_parameters (mk padding_idx embedding_dim emb pe drop) normal))).

Definition eval (self : t) : t :=
  mk (word_padding_idx self) (embedding_dim self) (embedding self) (pe self)
     (nn.Dropout.eval (dropout self)).

(** [forward(x, timestep)]. *)
Definition forward (self : t) (x : T2 Z) (timestep : Z) : M (T3 R) :=
  looked <~ nn.Embedding.forward (embedding self) x ;;
  s <~ math_sqrt (embedding_dim self) ;;
  let positions :=
    slice_rows (pe self) timestep (timestep + Z.of_nat (cols x)) in
  embedding <~ add3_2 (scale3 looked s) positions ;;
  s' <~ Py.pow (embedding_dim self) (/ 2) ;;
  let embedding := scale3 embedding s' in
  nn.Dropout.forward3 (dropout self) embedding.

End Embedding.

(* ================================================================== *)
(** ** beaver/model/transformer.py *)
(* ================================================================== *)

Module FeedForward.

Record t : Type := mk {
  linear_in : nn.Linear.t;
  linear_out : nn.Linear.t;
  dropout : nn.Dropout.t
}.

(** The draws of [xavier_uniform_] for the two weights. *)
Record draws : Type := mkDraws {
  w_in : nat -> nat -> R;
  w_out : nat -> nat -> R
}.

Definition reset_parameters (self : t) (w : draws) : Result t :=
  bind (nn.init.xavier_uniform_ (linear_in self) (w_in w)) (fun l_in =>
  bind (nn.init.xavier_uniform_ (linear_out self) (w_out w)) (fun l_out =>
  Ok (mk (nn.init.constant_ l_in 0) (nn.init.constant_ l_out 0)
         (dropout self)))).

(** [FeedForward(hidden_size, inner_size, dropout)].  What the constructors
    of the linear layers draw themselves is replaced by [reset_parameters]
    before the instance is returned; the layers start with the values that
    replace it. *)
Definition init (hidden_size inner_size : Z) (dropout : R) (w : draws)
  : Result t :=
  bind (nn.Linear.init hidden_size inner_size (w_in w) (fun _ => 0%R))
       (fun l_in =>
  bind (nn.Linear.init inner_size hidden_size (w_out w) (fun _ => 0%R))
       (fun l_out =>
  bind (nn.Dropout.init dropout) (fun drop =>
  reset_parameters (mk l_in l_out drop) w))).

Definition eval (self : t) : t :=
  mk (linear_in self) (linear_out self) (nn.Dropout.eval (dropout self)).

Definition forward (self : t) (x : T3 R) : M (T3 R) :=
  y <~ nn.Linear.forward (linear_in self) x ;;
  let y := relu y in
  y <- nn.Dropout.forward3 (dropout self) y ;;
  y <~ nn.Linear.forward (linear_out self) y ;;
  ret y.

End FeedForward.

Module MultiHeadedAttention.

Record t : Type := mk {
  dim_per_head : Z;
  head_count : Z;
  linear_q : nn.Linear.t;
  linear_kv : nn.Linear.t;
  linear_qkv : nn.Linear.t;
  dropout : nn.Dropout.t;
  final_linear : nn.Linear.t
}.

Record draws : Type := mkDraws {
  w_q : nat -> nat -> R;
  w_kv : nat -> nat -> R;
  w_qkv : nat -> nat -> R;
  w_final : nat -> nat -> R
}.

Definition reset_parameters (self : t) (w : draws) : Result t :=
  bind (nn.init.xavier_uniform_ (linear_q self) (w_q w)) (fun l_q =>
  bind (nn.init.xavier_uniform_ (linear_kv self) (w_kv w)) (fun l_kv =>
  bind (nn.init.xavier_uniform_ (linear_qkv self) (w_qkv w)) (fun l_qkv =>
  bind (nn.init.xavier_uniform_ (final_linear self) (w_final w))
       (fun l_final =>
  Ok (mk (dim_per_head self) (head_count self)
         (nn.init.constant_ l_q 0) (nn.init.constant_ l_kv 0)
         (nn.init.constant_ l_qkv 0) (dropout self)
         (nn.init.constant_ l_final 0)))))).

(** [MultiHeadedAttention(head_count, model_dim, dropout)].  The linear
    layers start with the values that [reset_parameters] then gives them. *)
Definition init (head_count model_dim : Z) (dropout : R) (w : draws)
  : Result t :=
  bind (floordiv model_dim head_count) (fun dim_per_head =>
  bind (nn.Linear.init model_dim model_dim (w_q w) (fun _ => 0%R))
       (fun l_q =>
  bind (nn.Linear.init model_dim (model_dim * 2) (w_kv w) (fun _ => 0%R))
       (fun l_kv =>
  bind (nn.Linear.init model_dim (model_dim * 3) (w_qkv w) (fun _ => 0%R))
       (fun l_qkv =>
  bind (nn.Dropout.init dropout) (fun drop =>
  bind (nn.Linear.init model_dim model_dim (w_final w) (fun _ => 0%R))
       (fun l_final =>
  reset_parameters
    (mk dim_per_head head_count l_q l_kv l_qkv drop l_final) w)))))).

Definition eval (self : t) : t :=
  mk (dim_per_head self) (head_count self) (linear_q self) (linear_kv self)
     (linear_qkv self) (nn.Dropout.eval (dropout self)) (final_linear self).

(** [split_head]: B x L x D => B x h x L x d. *)
Definition split_head (self : t) (contiguous : bool) (x : T3 R)
  : Result (T4 R) :=
  bind (view_heads contiguous (head_count self) (dim_per_head self) x)
       (fun y => Ok (transpose12 y)).

(** [combine_head]: B x h x L x d => B x L x D. *)
Definition combine_head (self : t) (x : T4 R) : Result (T3 R) :=
  view_merge (head_count self * dim_per_head self) (transpose12 x).

(** The value that replaces a masked score. *)
Definition sentinel : R := (- 10 ^ 20)%R.

(** Lines 159-163: the projections.  The boolean tells whether [q] owns its
    storage (it is the output of [linear_q]) or is a piece of a fused
    projection. *)
Definition project (self : t) (query : T3 R) (memory : option (T3 R))
  : Result (T3 R * T3 R * T3 R * bool) :=
  match memory with
  | None =>
      bind (nn.Linear.forward (linear_qkv self) query) (fun y =>
      match chunk 3 y with
      | [q; k; v] => Ok (q, k, v, false)
      | _ => Raise ValueError
      end)
  | Some memory =>
      bind (nn.Linear.forward (linear_q self) query) (fun q =>
      bind (nn.Linear.forward (linear_kv self) memory) (fun y =>
      match chunk 2 y with
      | [k; v] => Ok (q, k, v, true)
      | _ => Raise ValueError
      end))
  end.

(** Lines 170-175: the scaled scores of the split [q] and [k], with the
    masked entries replaced by the sentinel. *)
Definition masked_scores (self : t) (q k : T4 R) (mask : option (T3 Z))
  : Result (T4 R) :=
  bind (Py.pow (dim_per_head self) (- / 2)) (fun s =>
  let q := scale4 q s in
  bind (matmul4 q (transpose23 k)) (fun scores =>
  bind match mask with
       | None => Raise AttributeError
       | Some mask => unsqueeze1_expand_as mask scores
       end (fun mask =>
  masked_fill scores mask sentinel))).

(** Lines 170-179, before [combine_head]: the context vectors per head. *)
Definition contexts (self : t) (q k v : T4 R) (mask : option (T3 Z))
  : M (T4 R) :=
  (* 2) Calculate and scale scores. *)
  scores <~ masked_scores self q k mask ;;
  (* 3) Apply attention dropout and compute context vectors. *)
  weights <- nn.Dropout.forward4 (dropout self) (softmax scores) ;;
  lift (matmul4 weights v).

(** Lines 165-181: attention over the projected [q], [k], [v]. *)
Definition attend (self : t) (q k v : T3 R) (q_contiguous : bool)
    (mask : option (T3 Z)) : M (T3 R) :=
  (* 1) Project q, k, v. *)
  q <~ split_head self q_contiguous q ;;
  k <~ split_head self false k ;;
  v <~ split_head self false v ;;
  context <- contexts self q k v mask ;;
  context <~ combine_head self context ;;
  lift (nn.Linear.forward (final_linear self) context).

Definition forward (self : t) (query : T3 R) (memory : option (T3 R))
    (mask : option (T3 Z)) : M (T3 R) :=
  '(q, k, v, q_contiguous) <~ project self query memory ;;
  attend self q k v q_contiguous mask.

End MultiHeadedAttention.

Module EncoderLayer.

Record t : Type := mk {
  self_attn : MultiHeadedAttention.t;
  feed_forward : FeedForward.t;
  dropout : nn.Dropout.t;
  norm : list nn.LayerNorm.t
}.

Record draws : Type := mkDraws {
  self_attn_draws : MultiHeadedAttention.draws;
  feed_forward_draws : FeedForward.draws
}.

Definition init (hidden_size : Z) (dropout : R) (head_count ff_size : Z)
    (w : draws) : Result t :=
  bind (MultiHeadedAttention.init head_count hidden_size dropout
          (self_attn_draws w)) (fun attn =>
  bind (FeedForward.init hidden_size ff_size dropout (feed_forward_draws w))
       (fun ff =>
  bind (nn.Dropout.init dropout) (fun drop =>
  bind (collect (fun _ => nn.LayerNorm.init hidden_size) 0 2) (fun norms =>
  Ok (mk attn ff drop norms))))).

Definition forward (self : t) (x : T3 R) (mask : T3 Z) : M (T3 R) :=
  (* self attention *)
  y <- MultiHeadedAttention.forward (self_attn self) x None (Some mask) ;;
  n0 <~ getitem (norm self) 0 ;;
  y <- nn.Dropout.forward3 (dropout self) y ;;
  x <~ add3 x y ;;
  x <~ nn.LayerNorm.forward n0 x ;;
  (* feed forward *)
  y <- FeedForward.forward (feed_forward self) x ;;
  n1 <~ getitem (norm self) 1 ;;
  y <- nn.Dropout.forward3 (dropout self) y ;;
  x <~ add3 x y ;;
  x <~ nn.LayerNorm.forward n1 x ;;
  ret x.

End EncoderLayer.

Module Encoder.

Record t : Type := mk {
  embedding : Embedding.t;
  layers : list EncoderLayer.t
}.

Definition init (num_layers num_heads hidden_size : Z) (dropout : R)
    (ff_size : Z) (embedding : Embedding.t) (w : nat -> EncoderLayer.draws)
  : Result t :=
  bind (collect (fun i => EncoderLayer.init hidden_size dropout num_heads
                            ff_size (w i))
                0 (Z.to_nat num_layers)) (fun ls =>
  Ok (mk embedding ls)).

Fixpoint run (ls : list EncoderLayer.t) (output : T3 R) (src_mask : T3 Z)
  : M (T3 R) :=
  match ls with
  | [] => ret output
  | layer :: rest =>
      output <- EncoderLayer.forward layer output src_mask ;;
      run rest output src_mask
  end.

Definition forward (self : t) (src : T2 Z) (src_pad : T2 Z) : M (T3 R) :=
  let src_mask := unsqueeze1_repeat src_pad (cols src) in
  output <- Embedding.forward (embedding self) src 0 ;;
  run (layers self) output src_mask.

End Encoder.

Module DecoderLayer.

Record t : Type := mk {
  self_attn : MultiHeadedAttention.t;
  src_attn : MultiHeadedAttention.t;
  feed_forward : FeedForward.t;
  norm : list nn.LayerNorm.t;
  dropout : nn.Dropout.t
}.

Record draws : Type := mkDraws {
  self_attn_draws : MultiHeadedAttention.draws;
  src_attn_draws : MultiHeadedAttention.draws;
  feed_forward_draws : FeedForward.draws
}.

Definition init (hidden_size : Z) (dropout : R) (head_count ff_size : Z)
    (w : draws) : Result t :=
  bind (MultiHeadedAttention.init head_count hidden_size dropout
          (self_attn_draws w)) (fun self_attn =>
  bind (MultiHeadedAttention.init head_count hidden_size dropout
          (src_attn_draws w)) (fun src_attn =>
  bind (FeedForward.init hidden_size ff_size dropout (feed_forward_draws w))
       (fun ff =>
  bind (collect (fun _ => nn.LayerNorm.init hidden_size) 0 3) (fun norms =>
  bind (nn.Dropout.init dropout) (fun drop =>
  Ok (mk self_attn src_attn ff norms drop)))))).

Definition eval (self : t) : t :=
  mk (MultiHeadedAttention.eval (self_attn self))
     (MultiHeadedAttention.eval (src_attn self))
     (FeedForward.eval (feed_forward self))
     (norm self)
     (nn.Dropout.eval (dropout self)).

(** [x = self.norm[i](x + self.dropout(y))]. *)
Definition add_norm (self : t) (i : nat) (x y : T3 R) : M (T3 R) :=
  n <~ getitem (norm self) i ;;
  y <- nn.Dropout.forward3 (dropout self) y ;;
  s <~ add3 x y ;;
  lift (nn.LayerNorm.forward n s).

Definition forward (self : t) (x enc_out : T3 R) (src_mask : T3 Z)
    (tgt_mask : option (T3 Z)) (previous : option (T3 R))
  : M (T3 R * T3 R) :=
  all_input <~ match previous with
               | None => Ok x
               | Some previous => cat1 previous x
               end ;;
  (* self attention *)
  y <- MultiHeadedAttention.forward (self_attn self) x (Some all_input)
         tgt_mask ;;
  x <- add_norm self 0 x y ;;
  (* encoder decoder attention *)
  y <- MultiHeadedAttention.forward (src_attn self) x (Some enc_out)
         (Some src_mask) ;;
  x <- add_norm self 1 x y ;;
  (* feed forward *)
  y <- FeedForward.forward (feed_forward self) x ;;
  x <- add_norm self 2 x y ;;
  ret (x, all_input).

End DecoderLayer.

Module Decoder.

Record t : Type := mk {
  embedding : Embedding.t;
  layers : list DecoderLayer.t;
  upper_triangle : T2 Z
}.

Definition init (num_layers num_heads hidden_size : Z) (dropout : R)
    (ff_size : Z) (embedding : Embedding.t) (w : nat -> DecoderLayer.draws)
  : Result t :=
  bind (collect (fun i => DecoderLayer.init hidden_size dropout num_heads
                            ff_size (w i))
                0 (Z.to_nat num_layers)) (fun ls =>
  Ok (mk embedding ls (triu_ones 1000))).

Definition eval (self : t) : t :=
  mk (Embedding.eval (embedding self)) (map DecoderLayer.eval (layers self))
     (upper_triangle self).

(** Lines 107-111: the self-attention mask of a target of [tgt_len] tokens.
    [tgt mask: 0 if not upper and not pad, 1 or 2 otherwise]. *)
Definition self_attention_mask (self : t) (tgt_len : nat) (tgt_pad : T2 Z)
  : Result (T3 Z) :=
  let tgt_mask := unsqueeze1_repeat tgt_pad tgt_len in
  let upper_triangle := top_left (upper_triangle self) tgt_len in
  bind (byte_add3_2 tgt_mask upper_triangle) (fun summed =>
  Ok (gt0 summed)).

(** Lines 113-118: the loop over [enumerate(self.layers)], from layer [i]
    on. *)
Fixpoint run (ls : list DecoderLayer.t) (i : nat) (output enc_out : T3 R)
    (src_mask : T3 Z) (tgt_mask : option (T3 Z)) (previous : option (T4 R))
  : M (T3 R * list (T3 R)) :=
  match ls with
  | [] => ret (output, [])
  | layer :: rest =>
      prev_layer <~ match previous with
                    | None => Ok None
                    | Some previous =>
                        bind (select1 previous i) (fun p => Ok (Some p))
                    end ;;
      let tgt_mask := match previous with
                      | None => tgt_mask
                      | Some _ => None
                      end in
      '(output, all_input) <-
         DecoderLayer.forward layer output enc_out src_mask tgt_mask
                              prev_layer ;;
      '(output, saved_inputs) <-
         run rest (S i) output enc_out src_mask tgt_mask previous ;;
      ret (output, all_input :: saved_inputs)
  end.

Definition forward (self : t) (tgt : T2 Z) (enc_out : T3 R)
    (src_pad tgt_pad : T2 Z) (previous : option (T4 R)) (timestep : Z)
  : M (T3 R * T4 R) :=
  output <- Embedding.forward (embedding self) tgt timestep ;;
  let tgt_len := cols tgt in
  let src_mask := unsqueeze1_repeat src_pad tgt_len in
  tgt_mask <~ self_attention_mask self tgt_len tgt_pad ;;
  '(output, saved_inputs) <-
     run (layers self) 0 output enc_out src_mask (Some tgt_mask) previous ;;
  stacked <~ stack1 saved_inputs ;;
  ret (output, stacked).

End Decoder.

(* ================================================================== *)
(** ** Well-formed instances and inputs *)
(* ================================================================== *)

(** Two tensors are the same when they have the same shape and the same
    elements inside it. *)
Definition same3 {A} (x y : T3 A) : Prop :=
  shape3 x = shape3 y /\
  forall b i j, (b < dim0 x)%nat -> (i < dim1 x)%nat -> (j < dim2 x)%nat ->
                at3 x b i j = at3 y b i j.

(** All entries of a rank-2 integer tensor satisfy [P]. *)
Definition entries2 (P : Z -> Prop) (x : T2 Z) : Prop :=
  forall b l, (b < rows x)%nat -> (l < cols x)%nat -> P (at2 x b l).

(** All entries of a rank-3 integer tensor satisfy [P]. *)
Definition entries3 (P : Z -> Prop) (x : T3 Z) : Prop :=
  forall b i j, (b < dim0 x)%nat -> (i < dim1 x)%nat -> (j < dim2 x)%nat ->
                P (at3 x b i j).

(** The entries of a boolean tensor: [False] and [True]. *)
Definition boolean (v : Z) : Prop := v = 0%Z \/ v = 1%Z.

Module EmbeddingInv.

(** What [Embedding.init] establishes and [forward] relies on. *)
Record wf (e : Embedding.t) : Prop := mkWf {
  dim_pos : (0 < Embedding.embedding_dim e)%Z;
  pe_rows : Z.of_nat (rows (Embedding.pe e)) = default_max_len;
  pe_cols : cols (Embedding.pe e) = Z.to_nat (Embedding.embedding_dim e);
  weight_cols : cols (nn.Embedding.weight (Embedding.embedding e))
                = Z.to_nat (Embedding.embedding_dim e)
}.

(** The token ids of [x] are rows of the embedding table. *)
Definition ids_in_vocab (e : Embedding.t) (x : T2 Z) : Prop :=
  entries2 (fun id => nn.Embedding.in_vocab (Embedding.embedding e) id = true) x.

End EmbeddingInv.

(** Shape invariants of the transformer modules for model size [D]: what
    the constructors establish when [head_count] divides the model size. *)
Module Inv.

Definition linear_dims (l : nn.Linear.t) (i o : nat) : Prop :=
  nn.Linear.in_features l = i /\ nn.Linear.out_features l = o.

Record attention (D : nat) (a : MultiHeadedAttention.t) : Prop := mkAttention {
  heads_pos : (0 < MultiHeadedAttention.head_count a)%Z;
  dim_per_head_pos : (0 < MultiHeadedAttention.dim_per_head a)%Z;
  heads_tile : (Z.to_nat (MultiHeadedAttention.head_count a)
                * Z.to_nat (MultiHeadedAttention.dim_per_head a))%nat = D;
  q_dims : linear_dims (MultiHeadedAttention.linear_q a) D D;
  kv_dims : linear_dims (MultiHeadedAttention.linear_kv a) D (2 * D);
  qkv_dims : linear_dims (MultiHeadedAttention.linear_qkv a) D (3 * D);
  final_dims : linear_dims (MultiHeadedAttention.final_linear a) D D
}.

Record feed_forward (D : nat) (ff : FeedForward.t) : Prop := mkFeedForward {
  in_dims : nn.Linear.in_features (FeedForward.linear_in ff) = D;
  inner_dims : nn.Linear.out_features (FeedForward.linear_in ff)
               = nn.Linear.in_features (FeedForward.linear_out ff);
  out_dims : nn.Linear.out_features (FeedForward.linear_out ff) = D
}.

Record decoder_layer (D : nat) (layer : DecoderLayer.t) : Prop := mkLayer {
  self_attn_wf : attention D (DecoderLayer.self_attn layer);
  src_attn_wf : attention D (DecoderLayer.src_attn layer);
  feed_forward_wf : feed_forward D (DecoderLayer.feed_forward layer);
  norm_count : length (DecoderLayer.norm layer) = 3%nat;
  norm_dims : Forall (fun n => nn.LayerNorm.normalized_shape n = D)
                     (DecoderLayer.norm layer)
}.

(** The model size of a decoder is the size of its embedding. *)
Definition model_dim (dec : Decoder.t) : nat :=
  Z.to_nat (Embedding.embedding_dim (Decoder.embedding dec)).

Record decoder (dec : Decoder.t) : Prop := mkDecoder {
  embedding_wf : EmbeddingInv.wf (Decoder.embedding dec);
  has_layers : Decoder.layers dec <> [];
  layers_wf : Forall (decoder_layer (model_dim dec)) (Decoder.layers dec);
  triangle : Decoder.upper_triangle dec = triu_ones 1000
}.

(** [xs] lists, layer by layer, the input that each layer of [ls] receives
    in full-sequence mode when the first one receives [x] with the generator
    in state [g]; [out] is the output of the last layer. *)
Inductive layer_inputs (enc_out : T3 R) (src_mask tgt_mask : T3 Z)
  : list DecoderLayer.t -> T3 R -> rng -> list (T3 R) -> T3 R -> rng -> Prop :=
| inputs_nil : forall x g,
    layer_inputs enc_out src_mask tgt_mask [] x g [] x g
| inputs_cons : forall layer rest x g y all_input g1 xs out g2,
    DecoderLayer.forward layer x enc_out src_mask (Some tgt_mask) None g
    = Ok (y, all_input, g1) ->
    layer_inputs enc_out src_mask tgt_mask rest y g1 xs out g2 ->
    layer_inputs enc_out src_mask tgt_mask (layer :: rest) x g (x :: xs) out g2.

End Inv.

(** A table of zeros, standing for one draw of an initialiser. *)
Definition zeros : nat -> nat -> R := fun _ _ => 0%R.

(** A token-id or padding tensor filled with one value. *)
Definition full2 (r c : nat) (v : Z) : T2 Z := mkT2 r c (fun _ _ => v).

(** A single-head attention over one-dimensional vectors whose output
    projection is the identity, with one query and one key, the key masked. *)
Module Masked.

Definition attention : MultiHeadedAttention.t :=
  MultiHeadedAttention.mk 1 1
    (nn.Linear.mk 1 1 zeros (fun _ => 0%R))
    (nn.Linear.mk 1 2 zeros (fun _ => 0%R))
    (nn.Linear.mk 1 3 zeros (fun _ => 0%R))
    (nn.Dropout.mk 0 false)
    (nn.Linear.mk 1 1 (fun _ _ => 1%R) (fun _ => 0%R)).



(** Split tensors for one query and two keys, of which key 1 is masked;
    [values a] holds [a] as the value of key 1 and 0 as that of key 0. *)
Definition query4 : T4 R := mkT4 1 1 1 1 (fun _ _ _ _ => 0%R).
Definition keys4 : T4 R := mkT4 1 1 2 1 (fun _ _ _ _ => 0%R).
Definition values4 (a : R) : T4 R :=
  mkT4 1 1 2 1 (fun _ _ n _ => if (n =? 1)%nat then a else 0%R).
Definition key1_masked : T3 Z :=
  mkT3 1 1 2 (fun _ _ k => if (k =? 1)%nat then 1%Z else 0%Z).


End Masked.

(** The stream of draws that is zero throughout. *)
Definition rng0 : rng := fun _ => 0%R.

(** Replacing the fused query/key/value projection of the self-attention of
    every decoder layer: layer [i] receives [f i]. *)
Module SelfQkv.

Definition set_attention (l : nn.Linear.t) (a : MultiHeadedAttention.t)
  : MultiHeadedAttention.t :=
  MultiHeadedAttention.mk
    (MultiHeadedAttention.dim_per_head a) (MultiHeadedAttention.head_count a)
    (MultiHeadedAttention.linear_q a) (MultiHeadedAttention.linear_kv a)
    l
    (MultiHeadedAttention.dropout a) (MultiHeadedAttention.final_linear a).

Definition set_layer (l : nn.Linear.t) (layer : DecoderLayer.t)
  : DecoderLayer.t :=
  DecoderLayer.mk
    (set_attention l (DecoderLayer.self_attn layer))
    (DecoderLayer.src_attn layer) (DecoderLayer.feed_forward layer)
    (DecoderLayer.norm layer) (DecoderLayer.dropout layer).

Fixpoint set_layers (f : nat -> nn.Linear.t) (i : nat)
    (ls : list DecoderLayer.t) : list DecoderLayer.t :=
  match ls with
  | [] => []
  | layer :: rest => set_layer (f i) layer :: set_layers f (S i) rest
  end.

Definition set_decoder (f : nat -> nn.Linear.t) (dec : Decoder.t)
  : Decoder.t :=
  Decoder.mk (Decoder.embedding dec)
             (set_layers f 0 (Decoder.layers dec))
             (Decoder.upper_triangle dec).

End SelfQkv.

(** A small model in evaluation mode: hidden size 4, two heads, inner size
    8, one decoder layer, ten tokens, all drawn weights zero. *)
Module Demo.

Definition pe : T2 R :=
  mkT2 (Z.to_nat default_max_len) 4
       (fun p c => if Nat.even c
                   then sin (INR p * div_term 4 (c / 2))
                   else cos (INR p * div_term 4 (c / 2))).

Definition no_dropout : nn.Dropout.t := nn.Dropout.mk 0 false.

Definition embedding : Embedding.t :=
  Embedding.mk (Some 0%Z) 4
               (nn.Embedding.mk (mkT2 10 4 zeros) (Some 0%Z))
               pe no_dropout.

Definition linear (i o : nat) : nn.Linear.t :=
  nn.Linear.mk i o zeros (fun _ => 0%R).

Definition attention : MultiHeadedAttention.t :=
  MultiHeadedAttention.mk 2 2 (linear 4 4) (linear 4 8) (linear 4 12)
                          no_dropout (linear 4 4).

Definition layer_norm : nn.LayerNorm.t :=
  nn.LayerNorm.mk 4 (fun _ => 1%R) (fun _ => 0%R) (/ 10 ^ 5)%R.

Definition feed_forward : FeedForward.t :=
  FeedForward.mk (linear 4 8) (linear 8 4) no_dropout.

Definition layer : DecoderLayer.t :=
  DecoderLayer.mk attention attention feed_forward
                  [layer_norm; layer_norm; layer_norm] no_dropout.

Definition decoder : Decoder.t :=
  Decoder.mk embedding [layer] (triu_ones 1000).

(** One source sentence of two tokens, already encoded. *)
Definition enc_out : T3 R := mkT3 1 2 4 (fun _ _ _ => 0%R).
Definition src_pad : T2 Z := full2 1 2 0.

Definition encoder_layer : EncoderLayer.t :=
  EncoderLayer.mk attention feed_forward no_dropout [layer_norm; layer_norm].

Definition encoder : Encoder.t := Encoder.mk embedding [encoder_layer].

(** A decoding history of two steps for one layer, and a mask for one new
    query over the three positions. *)
Definition history : T3 R := mkT3 1 2 4 (fun _ _ _ => 0%R).
Definition step : T3 R := mkT3 1 1 4 (fun _ _ _ => 1%R).
Definition step_mask : T3 Z := mkT3 1 1 3 (fun _ _ _ => 0%Z).
Definition step_src_mask : T3 Z := mkT3 1 1 2 (fun _ _ _ => 0%Z).

End Demo.

(** Shape invariants of the encoder, for model size [D]. *)
Module EncoderInv.

Record encoder_layer (D : nat) (layer : EncoderLayer.t) : Prop := mkLayer {
  self_attn_wf : Inv.attention D (EncoderLayer.self_attn layer);
  feed_forward_wf : Inv.feed_forward D (EncoderLayer.feed_forward layer);
  norm_count : length (EncoderLayer.norm layer) = 2%nat;
  norm_dims : Forall (fun n => nn.LayerNorm.normalized_shape n = D)
                     (EncoderLayer.norm layer)
}.

Definition model_dim (enc : Encoder.t) : nat :=
  Z.to_nat (Embedding.embedding_dim (Encoder.embedding enc)).

Record encoder (enc : Encoder.t) : Prop := mkEncoder {
  embedding_wf : EmbeddingInv.wf (Encoder.embedding enc);
  layers_wf : Forall (encoder_layer (model_dim enc)) (Encoder.layers enc)
}.

End EncoderInv.

(** Replacing the separate query projection and the fused key/value
    projection of the self-attention of every encoder layer: layer [i]
    receives [fq i] and [fkv i]. *)
Module SeparateProjections.

Definition set_attention (lq lkv : nn.Linear.t) (a : MultiHeadedAttention.t)
  : MultiHeadedAttention.t :=
  MultiHeadedAttention.mk
    (MultiHeadedAttention.dim_per_head a) (MultiHeadedAttention.head_count a)
    lq lkv
    (MultiHeadedAttention.linear_qkv a)
    (MultiHeadedAttention.dropout a) (MultiHeadedAttention.final_linear a).

Definition set_layer (lq lkv : nn.Linear.t) (layer : EncoderLayer.t)
  : EncoderLayer.t :=
  EncoderLayer.mk
    (set_attention lq lkv (EncoderLayer.self_attn layer))
    (EncoderLayer.feed_forward layer) (EncoderLayer.dropout layer)
    (EncoderLayer.norm layer).

Fixpoint set_layers (fq fkv : nat -> nn.Linear.t) (i : nat)
    (ls : list EncoderLayer.t) : list EncoderLayer.t :=
  match ls with
  | [] => []
  | layer :: rest =>
      set_layer (fq i) (fkv i) layer :: set_layers fq fkv (S i) rest
  end.

Definition set_encoder (fq fkv : nat -> nn.Linear.t) (enc : Encoder.t)
  : Encoder.t :=
  Encoder.mk (Encoder.embedding enc)
             (set_layers fq fkv 0 (Encoder.layers enc)).

End SeparateProjections.

(** A computation that draws nothing from the generator: its outcome does
    not depend on the generator, which it hands back untouched. *)
Definition draws_nothing {A : Type} (m : M A) : Prop :=
  exists r : Result A, forall g, m g = lift r g.

(** [x[:, l : l + 1]]: the tokens of position [l], as a batch of sequences of
    length one (what a generation loop feeds at step [l]). *)
Definition column (x : T2 Z) (l : nat) : T2 Z :=
  mkT2 (rows x) 1 (fun b _ => at2 x b l).

(* ================================================================== *)
(** * Properties *)
(* ================================================================== *)

Unset Implicit Arguments.
Local Open Scope R_scope.

(** ** Python and torch helpers *)

Lemma all_below_spec (n : nat) (p : nat -> bool) :
  all_below n p = true <-> forall i, (i < n)%nat -> p i = true.
Proof.
  induction n as [|n IH]; simpl.
  - split; [intros _ i Hi; lia | reflexivity].
  - rewrite andb_true_iff, IH. split.
    + intros [Hlt Hn] i Hi.
      destruct (Nat.eq_dec i n) as [->|Hne]; [assumption | apply Hlt; lia].
    + intros H. split; [intros i Hi; apply H; lia | apply H; lia].
Qed.

Lemma broadcast_dim_same (n : nat) : broadcast_dim n n = Ok n.
Proof. unfold broadcast_dim. now rewrite Nat.eqb_refl. Qed.

Lemma bidx_in_range (n i : nat) : (i < n)%nat -> bidx n i = i.
Proof.
  unfold bidx. intros Hi.
  destruct (Nat.eqb_spec n 1) as [->|_]; [lia | reflexivity].
Qed.

Lemma Dropout_init_ok (p : R) :
  0 <= p <= 1 -> nn.Dropout.init p = Ok (nn.Dropout.mk p true).
Proof.
  intros [H0 H1]. unfold nn.Dropout.init.
  destruct (Rlt_dec p 0) as [H|_]; [lra|].
  destruct (Rlt_dec 1 p) as [H|_]; [lra|].
  reflexivity.
Qed.

Lemma Dropout_forward3_shape (d : nn.Dropout.t) (x : T3 R) (g : rng) :
  exists y g', nn.Dropout.forward3 d x g = Ok (y, g') /\ shape3 y = shape3 x.
Proof.
  unfold nn.Dropout.forward3.
  destruct (nn.Dropout.training d); eexists; eexists; split; reflexivity.
Qed.

Lemma Dropout_forward4_shape (d : nn.Dropout.t) (x : T4 R) (g : rng) :
  exists y g', nn.Dropout.forward4 d x g = Ok (y, g') /\ shape4 y = shape4 x.
Proof.
  unfold nn.Dropout.forward4.
  destruct (nn.Dropout.training d); eexists; eexists; split; reflexivity.
Qed.

Lemma even_halves (dim : Z) :
  (0 < dim)%Z -> Z.even dim = true ->
  Z.to_nat ((dim + 1) / 2) = Z.to_nat (dim / 2).
Proof.
  intros Hpos Hev.
  apply Z.even_spec in Hev. destruct Hev as [k ->].
  f_equal.
  replace (2 * k + 1)%Z with (1 + k * 2)%Z by lia.
  rewrite Z.div_add by lia.
  replace (2 * k)%Z with (k * 2)%Z by lia.
  rewrite Z.div_mul by lia. reflexivity.
Qed.

(** ** The positional table *)

Lemma positional_encoding_2_ok (dim max_len : Z) :
  (0 < dim)%Z -> Z.even dim = true -> (0 <= max_len)%Z ->
  positional_encoding_2 dim max_len
  = Ok (mkT2 (Z.to_nat max_len) (Z.to_nat dim)
             (fun p c =>
                if Nat.even c
                then sin (INR p * div_term dim (c / 2))
                else cos (INR p * div_term dim (c / 2)))).
Proof.
  intros Hpos Hev Hlen. unfold positional_encoding_2.
  replace (max_len <? 0)%Z with false by (symmetry; apply Z.ltb_ge; lia).
  replace (dim <? 0)%Z with false by (symmetry; apply Z.ltb_ge; lia).
  replace (dim =? 0)%Z with false by (symmetry; apply Z.eqb_neq; lia).
  cbn [orb]. unfold expandable.
  rewrite (even_halves dim Hpos Hev), Nat.eqb_refl. reflexivity.
Qed.

Lemma positional_encoding_2_shape (dim max_len : Z) (pe : T2 R) :
  positional_encoding_2 dim max_len = Ok pe ->
  (0 < dim)%Z /\ rows pe = Z.to_nat max_len /\ cols pe = Z.to_nat dim.
Proof.
  unfold positional_encoding_2.
  destruct ((max_len <? 0)%Z || (dim <? 0)%Z) eqn:Hneg; [discriminate|].
  destruct (Z.eqb_spec dim 0) as [|Hnz]; [discriminate|].
  destruct (expandable _ _); [|discriminate].
  intros H; injection H as <-. cbn.
  apply orb_false_iff in Hneg. destruct Hneg as [_ Hd].
  apply Z.ltb_ge in Hd. repeat split; lia.
Qed.

Lemma div_term_power (dim : Z) (i : nat) (x : R) :
  x * div_term dim i = x / Rpower 10000 (INR (2 * i) / IZR dim).
Proof.
  unfold div_term, Rpower, Rdiv.
  rewrite <- exp_Ropp. f_equal. f_equal. ring.
Qed.

(** C2.  For an even positive [dim] and any table length, the generator
    returns a [max_len] x [dim] table whose row [p] holds
    [sin(p / 10000^(2i/dim))] in column [2i] and [cos(p / 10000^(2i/dim))]
    in column [2i+1]; the table is a function of [dim] and [max_len]
    alone. *)
Theorem positional_encoding_2_sinusoids (dim max_len : Z) :
  (0 < dim)%Z -> Z.even dim = true -> (0 <= max_len)%Z ->
  exists pe,
    positional_encoding_2 dim max_len = Ok pe /\
    shape2 pe = (Z.to_nat max_len, Z.to_nat dim) /\
    (forall p i, (p < rows pe)%nat -> (2 * i + 1 < cols pe)%nat ->
       at2 pe p (2 * i)
       = sin (INR p / Rpower 10000 (INR (2 * i) / IZR dim)) /\
       at2 pe p (2 * i + 1)
       = cos (INR p / Rpower 10000 (INR (2 * i) / IZR dim))) /\
    (forall pe', positional_encoding_2 dim max_len = Ok pe' -> pe' = pe).
Proof.
  intros Hpos Hev Hlen.
  eexists. split; [apply positional_encoding_2_ok; assumption|].
  split; [reflexivity|]. split.
  - intros p i _ _. cbn [at2].
    assert (He : Nat.even (2 * i) = true)
      by (apply Nat.even_spec; exists i; reflexivity).
    assert (Ho : Nat.even (2 * i + 1) = false).
    { rewrite Nat.add_1_r, Nat.even_succ, <- Nat.negb_even, He. reflexivity. }
    assert (Hh : (2 * i / 2 = i)%nat)
      by (rewrite Nat.mul_comm; apply Nat.div_mul; lia).
    assert (Hh' : ((2 * i + 1) / 2 = i)%nat).
    { replace (2 * i + 1)%nat with (1 + i * 2)%nat by lia.
      rewrite Nat.div_add by lia. reflexivity. }
    rewrite He, Ho, Hh, Hh', !div_term_power. split; reflexivity.
  - intros pe' H. rewrite positional_encoding_2_ok in H by assumption.
    now injection H as <-.
Qed.

Lemma positional_encoding_2_sinusoids_witness :
  exists pe,
    positional_encoding_2 4 6 = Ok pe /\
    shape2 pe = (6%nat, 4%nat) /\
    at2 pe 3 2 = sin (INR 3 / Rpower 10000 (INR 2 / IZR 4)) /\
    at2 pe 3 3 = cos (INR 3 / Rpower 10000 (INR 2 / IZR 4)).
Proof.
  destruct (positional_encoding_2_sinusoids 4 6) as (pe & H & Hs & Hv & _);
    [lia | reflexivity | lia |].
  exists pe. split; [exact H|]. split; [exact Hs|].
  injection Hs as Hr Hc.
  apply (Hv 3%nat 1%nat); [rewrite Hr | rewrite Hc]; cbn; lia.
Defined.

(** ** Construction of the embedding *)

Lemma bind_ok {A B : Type} (r : Result A) (k : A -> Result B) (b : B) :
  bind r k = Ok b -> exists a, r = Ok a /\ k a = Ok b.
Proof. destruct r as [a|e]; cbn; [eauto | discriminate]. Qed.

Ltac bind_inv H :=
  let a := fresh "a" in
  let Ha := fresh "H" a in
  apply bind_ok in H; destruct H as (a & Ha & H).

Tactic Notation "bind_split" hyp(H) "as" ident(a) ident(Ha) :=
  apply bind_ok in H; destruct H as (a & Ha & H).

Lemma nn_Embedding_init_shape (n d : Z) (pad : option Z) (w : nat -> nat -> R)
    (emb : nn.Embedding.t) :
  nn.Embedding.init n d pad w = Ok emb ->
  nn.Embedding.weight emb = mkT2 (Z.to_nat n) (Z.to_nat d) w.
Proof.
  unfold nn.Embedding.init. destruct pad as [i|].
  - repeat match goal with |- context [if ?c then _ else _] => destruct c end;
      try discriminate; intros H; injection H as <-; reflexivity.
  - destruct (_ && _)%bool; [|discriminate].
    intros H; injection H as <-; reflexivity.
Qed.

Lemma Embedding_init_wf (dim vocab : Z) (pad : option Z) (p : R)
    (normal : nat -> nat -> R) (e : Embedding.t) :
  Embedding.init dim vocab pad p normal = Ok e -> EmbeddingInv.wf e.
Proof.
  unfold Embedding.init. intros H.
  bind_inv H. bind_inv H. bind_inv H.
  unfold Embedding.reset_parameters in H. bind_inv H.
  injection H as <-.
  apply positional_encoding_2_shape in Ha. destruct Ha as (Hd & Hr & Hc).
  apply nn_Embedding_init_shape in Ha0.
  constructor; cbn; try assumption.
  - rewrite Hr. unfold default_max_len. reflexivity.
  - rewrite Ha0. reflexivity.
Qed.

Lemma Embedding_init_ok (dim vocab pad : Z) (p : R) (normal : nat -> nat -> R) :
  (0 < dim)%Z -> Z.even dim = true -> (0 <= pad < vocab)%Z -> 0 <= p <= 1 ->
  exists e, Embedding.init dim vocab (Some pad) p normal = Ok e.
Proof.
  intros Hd He Hp Hr. unfold Embedding.init.
  rewrite positional_encoding_2_ok by (assumption || (unfold default_max_len; lia)).
  cbn [bind]. unfold nn.Embedding.init.
  replace (pad <? vocab)%Z with true by (symmetry; apply Z.ltb_lt; lia).
  replace (pad <? 0)%Z with false by (symmetry; apply Z.ltb_ge; lia).
  replace (0 <=? vocab)%Z with true by (symmetry; apply Z.leb_le; lia).
  replace (0 <=? dim)%Z with true by (symmetry; apply Z.leb_le; lia).
  rewrite andb_false_r. cbn [negb andb bind].
  rewrite Dropout_init_ok by assumption. cbn [bind].
  unfold Embedding.reset_parameters, Embedding.padding_rows, Embedding.padding_idx.
  cbn [Embedding.word_padding_idx Embedding.embedding nn.Embedding.weight rows].
  replace (pad <? - Z.of_nat (Z.to_nat vocab))%Z with false
    by (symmetry; apply Z.ltb_ge; lia).
  replace (Z.of_nat (Z.to_nat vocab) <=? pad)%Z with false
    by (symmetry; apply Z.leb_gt; lia).
  cbn [orb bind]. eexists. reflexivity.
Qed.

(** C10.  Whatever its construction arguments, an [Embedding] instance holds
    a positional table of exactly 5000 rows: [init] has no table-length
    parameter and always builds the table with the default length. *)
Theorem Embedding_init_table_rows (embedding_dim vocab_size : Z)
    (padding_idx : option Z) (dropout : R) (normal : nat -> nat -> R)
    (e : Embedding.t) :
  Embedding.init embedding_dim vocab_size padding_idx dropout normal = Ok e ->
  Z.of_nat (rows (Embedding.pe e)) = 5000%Z.
Proof.
  intros H. apply Embedding_init_wf in H. exact (EmbeddingInv.pe_rows H).
Qed.

Lemma Embedding_init_table_rows_witness :
  exists e, Embedding.init 4 10 (Some 0%Z) 0 zeros = Ok e /\
            Z.of_nat (rows (Embedding.pe e)) = 5000%Z.
Proof.
  destruct (Embedding_init_ok 4 10 0 0 zeros) as [e He];
    [lia | reflexivity | lia | lra |].
  exists e. split; [exact He|].
  exact (Embedding_init_table_rows _ _ _ _ _ _ He).
Defined.

(** ** Construction of multi-head attention *)

Lemma Linear_init_ok (i o : Z) (w : nat -> nat -> R) (b : nat -> R) :
  (0 <= i)%Z -> (0 <= o)%Z ->
  nn.Linear.init i o w b = Ok (nn.Linear.mk (Z.to_nat i) (Z.to_nat o) w b).
Proof.
  intros Hi Ho. unfold nn.Linear.init.
  replace (i <? 0)%Z with false by (symmetry; apply Z.ltb_ge; lia).
  replace (o <? 0)%Z with false by (symmetry; apply Z.ltb_ge; lia).
  reflexivity.
Qed.

Lemma xavier_uniform_ok (l : nn.Linear.t) (w : nat -> nat -> R) :
  (0 < nn.Linear.in_features l)%nat ->
  nn.init.xavier_uniform_ l w
  = Ok (nn.Linear.mk (nn.Linear.in_features l) (nn.Linear.out_features l) w
                     (nn.Linear.bias l)).
Proof.
  intros Hi. unfold nn.init.xavier_uniform_.
  destruct (Nat.eqb_spec (nn.Linear.in_features l + nn.Linear.out_features l) 0);
    [lia | reflexivity].
Qed.

Lemma xavier_uniform_dims (l l' : nn.Linear.t) (w : nat -> nat -> R) :
  nn.init.xavier_uniform_ l w = Ok l' ->
  nn.Linear.in_features l' = nn.Linear.in_features l /\
  nn.Linear.out_features l' = nn.Linear.out_features l /\
  (0 < nn.Linear.in_features l + nn.Linear.out_features l)%nat.
Proof.
  unfold nn.init.xavier_uniform_.
  destruct (Nat.eqb_spec (nn.Linear.in_features l + nn.Linear.out_features l) 0);
    [discriminate|].
  intros H; injection H as <-. cbn. repeat split; lia.
Qed.

Lemma MultiHeadedAttention_init_ok (h D : Z) (p : R)
    (w : MultiHeadedAttention.draws) :
  h <> 0%Z -> (0 < D)%Z -> 0 <= p <= 1 ->
  MultiHeadedAttention.init h D p w
  = Ok (MultiHeadedAttention.mk (D / h) h
          (nn.Linear.mk (Z.to_nat D) (Z.to_nat D)
             (MultiHeadedAttention.w_q w) (fun _ => 0))
          (nn.Linear.mk (Z.to_nat D) (Z.to_nat (D * 2))
             (MultiHeadedAttention.w_kv w) (fun _ => 0))
          (nn.Linear.mk (Z.to_nat D) (Z.to_nat (D * 3))
             (MultiHeadedAttention.w_qkv w) (fun _ => 0))
          (nn.Dropout.mk p true)
          (nn.Linear.mk (Z.to_nat D) (Z.to_nat D)
             (MultiHeadedAttention.w_final w) (fun _ => 0))).
Proof.
  intros Hh HD Hp. unfold MultiHeadedAttention.init, floordiv.
  replace (h =? 0)%Z with false by (symmetry; apply Z.eqb_neq; lia).
  cbn [bind].
  rewrite !Linear_init_ok by lia. cbn [bind].
  rewrite Dropout_init_ok by assumption. cbn [bind].
  unfold MultiHeadedAttention.reset_parameters.
  cbn [MultiHeadedAttention.linear_q MultiHeadedAttention.linear_kv
       MultiHeadedAttention.linear_qkv MultiHeadedAttention.final_linear
       MultiHeadedAttention.dim_per_head MultiHeadedAttention.head_count
       MultiHeadedAttention.dropout].
  rewrite !xavier_uniform_ok by (cbn; lia).
  reflexivity.
Qed.

(** C6, as the claim states it, fails: with [model_dim = 8] and
    [head_count = 3] the constructor raises nothing and returns an instance
    with [dim_per_head = 2]. *)
Lemma MultiHeadedAttention_init_indivisible_succeeds :
  (8 mod 3 <> 0)%Z /\
  ~ (exists e, MultiHeadedAttention.init 3 8 0
                 (MultiHeadedAttention.mkDraws zeros zeros zeros zeros)
               = Raise e) /\
  exists m, MultiHeadedAttention.init 3 8 0
              (MultiHeadedAttention.mkDraws zeros zeros zeros zeros) = Ok m /\
            MultiHeadedAttention.dim_per_head m = 2%Z.
Proof.
  split; [discriminate|].
  rewrite MultiHeadedAttention_init_ok by (lia || lra).
  split.
  - intros [e He]. discriminate.
  - eexists. split; reflexivity.
Qed.

(** C6, amended.  Construction does not check divisibility: for a non-zero
    [head_count], a positive [model_dim] and a dropout rate in [0,1] it
    succeeds, with [dim_per_head] the floor of [model_dim / head_count], so
    that [head_count * dim_per_head = model_dim] exactly when [head_count]
    divides [model_dim]; the only failure it owes to [head_count] is the
    division by zero. *)
Theorem MultiHeadedAttention_init_floor (head_count model_dim : Z) (dropout : R)
    (w : MultiHeadedAttention.draws) :
  (0 < model_dim)%Z -> 0 <= dropout <= 1 ->
  (head_count = 0%Z ->
     MultiHeadedAttention.init head_count model_dim dropout w
     = Raise ZeroDivisionError) /\
  (head_count <> 0%Z ->
     exists m,
       MultiHeadedAttention.init head_count model_dim dropout w = Ok m /\
       MultiHeadedAttention.head_count m = head_count /\
       MultiHeadedAttention.dim_per_head m = (model_dim / head_count)%Z /\
       ((MultiHeadedAttention.head_count m
         * MultiHeadedAttention.dim_per_head m)%Z = model_dim
        <-> (model_dim mod head_count)%Z = 0%Z)).
Proof.
  intros HD Hp. split.
  - intros ->. reflexivity.
  - intros Hh. rewrite MultiHeadedAttention_init_ok by assumption.
    eexists. split; [reflexivity|]. cbn. repeat split; try reflexivity.
    + intros H. pose proof (Z.div_mod model_dim head_count Hh). lia.
    + intros H. pose proof (Z.div_mod model_dim head_count Hh). lia.
Qed.

Lemma MultiHeadedAttention_init_floor_witness :
  exists m,
    MultiHeadedAttention.init 3 8 0
      (MultiHeadedAttention.mkDraws zeros zeros zeros zeros) = Ok m /\
    MultiHeadedAttention.head_count m = 3%Z /\
    MultiHeadedAttention.dim_per_head m = 2%Z.
Proof.
  destruct (MultiHeadedAttention_init_floor 3 8 0
              (MultiHeadedAttention.mkDraws zeros zeros zeros zeros))
    as [_ H]; [lia | lra |].
  destruct H as (m & Hm & Hh & Hd & _); [discriminate|].
  exists m. repeat split; assumption.
Defined.

(** ** The decoder's self-attention mask *)

Local Open Scope Z_scope.

(** C4.  In full-sequence mode the self-attention mask of an [L]-token
    target (with [L] within the 1000 x 1000 triangle buffer and 0/1 padding
    flags) has shape batch x [L] x [L]; its entry at (query [q], key [k]) is
    the threshold [> 0] of the sum of the causal entry (1 exactly where
    [k > q]) and the padding flag of key [k], which is their logical OR.
    In particular, for [L = 4] and no padding, (query 1, key 2) is masked and
    (query 2, key 1) is not. *)
Theorem Decoder_self_attention_mask_is_or (dec : Decoder.t) (tgt_pad : T2 Z) :
  Decoder.upper_triangle dec = triu_ones 1000 ->
  (cols tgt_pad <= 1000)%nat ->
  entries2 (fun v => v = 0 \/ v = 1) tgt_pad ->
  exists m,
    Decoder.self_attention_mask dec (cols tgt_pad) tgt_pad = Ok m /\
    shape3 m = (rows tgt_pad, cols tgt_pad, cols tgt_pad) /\
    (forall b q k,
       (b < rows tgt_pad)%nat -> (q < cols tgt_pad)%nat ->
       (k < cols tgt_pad)%nat ->
       let causal := if (q <? k)%nat then 1 else 0 in
       let pad := at2 tgt_pad b k in
       at3 m b q k = (if 0 <? pad + causal then 1 else 0) /\
       (at3 m b q k = 1 <-> (causal = 1 \/ pad = 1)) /\
       (at3 m b q k = 0 <-> (causal = 0 /\ pad = 0))) /\
    (cols tgt_pad = 4%nat -> entries2 (fun v => v = 0) tgt_pad ->
     forall b, (b < rows tgt_pad)%nat ->
               at3 m b 1 2 = 1 /\ at3 m b 2 1 = 0).
Proof.
  intros Hut HL Hpad.
  unfold Decoder.self_attention_mask, byte_add3_2.
  rewrite Hut.
  cbn [unsqueeze1_repeat top_left triu_ones dim0 dim1 dim2 rows cols at2 at3].
  rewrite (Nat.min_l _ _ HL), broadcast_dim_same. cbn [bind].
  eexists. split; [reflexivity|]. split; [reflexivity|].
  assert (Hentry : forall b q k,
    (b < rows tgt_pad)%nat -> (q < cols tgt_pad)%nat ->
    (k < cols tgt_pad)%nat ->
    at3 (gt0 (mkT3 (rows tgt_pad) (cols tgt_pad) (cols tgt_pad)
           (fun b i j =>
              byte_add (at2 tgt_pad b (bidx (cols tgt_pad) j))
                (if (bidx (cols tgt_pad) i <? bidx (cols tgt_pad) j)%nat
                 then 1 else 0)))) b q k
    = (if 0 <? at2 tgt_pad b k + (if (q <? k)%nat then 1 else 0)
       then 1 else 0)).
  { intros b q k Hb Hq Hk. cbn [gt0 at3 dim0 dim1 dim2].
    rewrite !bidx_in_range by assumption.
    unfold byte_add.
    destruct (Hpad b k Hb Hk) as [-> | ->];
      destruct (q <? k)%nat; reflexivity. }
  split.
  - intros b q k Hb Hq Hk. rewrite (Hentry b q k Hb Hq Hk).
    destruct (Hpad b k Hb Hk) as [-> | ->];
      destruct (q <? k)%nat; cbn; repeat split; intros; try lia;
      try (left; reflexivity); try (right; reflexivity).
  - intros H4 Hnone b Hb.
    rewrite !Hentry by (rewrite ?H4; (assumption || lia)).
    rewrite !Hnone by (rewrite ?H4; (assumption || lia)).
    split; reflexivity.
Qed.

Local Close Scope Z_scope.

(** ** The unused fused projection of decoder self-attention *)

Lemma project_ignores_qkv (l : nn.Linear.t) (a : MultiHeadedAttention.t)
    (query memory : T3 R) :
  MultiHeadedAttention.project (SelfQkv.set_attention l a) query (Some memory)
  = MultiHeadedAttention.project a query (Some memory).
Proof. reflexivity. Qed.

Lemma attention_with_memory_ignores_qkv (l : nn.Linear.t)
    (a : MultiHeadedAttention.t) (query memory : T3 R) (mask : option (T3 Z)) :
  MultiHeadedAttention.forward (SelfQkv.set_attention l a) query (Some memory)
                               mask
  = MultiHeadedAttention.forward a query (Some memory) mask.
Proof. reflexivity. Qed.

Lemma DecoderLayer_forward_ignores_qkv (l : nn.Linear.t) (layer : DecoderLayer.t)
    (x enc_out : T3 R) (src_mask : T3 Z) (tgt_mask : option (T3 Z))
    (previous : option (T3 R)) :
  DecoderLayer.forward (SelfQkv.set_layer l layer) x enc_out src_mask tgt_mask
                       previous
  = DecoderLayer.forward layer x enc_out src_mask tgt_mask previous.
Proof. reflexivity. Qed.

Lemma Decoder_run_ignores_qkv (f : nat -> nn.Linear.t)
    (ls : list DecoderLayer.t) :
  forall (i : nat) (output enc_out : T3 R) (src_mask : T3 Z)
         (tgt_mask : option (T3 Z)) (previous : option (T4 R)),
    Decoder.run (SelfQkv.set_layers f i ls) i output enc_out src_mask tgt_mask
                previous
    = Decoder.run ls i output enc_out src_mask tgt_mask previous.
Proof.
  induction ls as [|layer rest IH]; intros i output enc_out src_mask tgt_mask
                                            previous.
  - reflexivity.
  - cbn [SelfQkv.set_layers Decoder.run].
    change (DecoderLayer.forward (SelfQkv.set_layer (f i) layer))
      with (DecoderLayer.forward layer).
    f_equal.
    apply FunctionalExtensionality.functional_extensionality.
    intros prev_layer. f_equal.
    apply FunctionalExtensionality.functional_extensionality.
    intros [output' all_input].
    rewrite IH. reflexivity.
Qed.

(** C9.  The self-attention of a decoder layer is called with the memory
    argument present ([Some all_input]), so it projects with [linear_q] and
    [linear_kv]; whatever weights the fused [linear_qkv] of the layers'
    self-attention holds, every result of the decoder (outputs, cache,
    random state, or the exception raised) is the same. *)
Theorem Decoder_forward_ignores_self_qkv (f : nat -> nn.Linear.t)
    (dec : Decoder.t) (tgt : T2 Z) (enc_out : T3 R) (src_pad tgt_pad : T2 Z)
    (previous : option (T4 R)) (timestep : Z) (g : rng) :
  Decoder.forward (SelfQkv.set_decoder f dec) tgt enc_out src_pad tgt_pad
                  previous timestep g
  = Decoder.forward dec tgt enc_out src_pad tgt_pad previous timestep g.
Proof.
  unfold Decoder.forward, SelfQkv.set_decoder, Decoder.self_attention_mask.
  cbn [Decoder.embedding Decoder.layers Decoder.upper_triangle].
  f_equal. f_equal.
  apply FunctionalExtensionality.functional_extensionality. intros output.
  f_equal.
  apply FunctionalExtensionality.functional_extensionality. intros tgt_mask.
  rewrite Decoder_run_ignores_qkv. reflexivity.
Qed.

(** ** The embedding's forward pass *)

Lemma nn_Embedding_forward_ok (emb : nn.Embedding.t) (x : T2 Z) :
  entries2 (fun id => nn.Embedding.in_vocab emb id = true) x ->
  nn.Embedding.forward emb x
  = Ok (mkT3 (rows x) (cols x) (cols (nn.Embedding.weight emb))
             (fun b l c => at2 (nn.Embedding.weight emb)
                               (Z.to_nat (at2 x b l)) c)).
Proof.
  intros Hids. unfold nn.Embedding.forward.
  replace (all_below _ _) with true; [reflexivity|].
  symmetry. apply all_below_spec. intros b Hb.
  apply all_below_spec. intros l Hl. apply Hids; assumption.
Qed.

(** The value the embedding hands to dropout when the positional slice has
    [n] rows that broadcast against the [cols x] positions of the input. *)
Lemma Embedding_forward_unfold (e : Embedding.t) (x : T2 Z) (t : Z) (g : rng) :
  EmbeddingInv.wf e -> EmbeddingInv.ids_in_vocab e x ->
  let d := Z.to_nat (Embedding.embedding_dim e) in
  let s := sqrt (IZR (Embedding.embedding_dim e)) in
  let positions :=
    slice_rows (Embedding.pe e) t (t + Z.of_nat (cols x)) in
  Embedding.forward e x t g
  = match broadcast_dim (cols x) (rows positions) with
    | Ok n =>
        nn.Dropout.forward3 (Embedding.dropout e)
          (mkT3 (rows x) n d
             (fun b l c =>
                (at2 (nn.Embedding.weight (Embedding.embedding e))
                     (Z.to_nat (at2 x b (bidx (cols x) l))) (bidx d c) * s
                 + at2 positions (bidx (rows positions) l) (bidx d c)) * s))
          g
    | Raise er => Raise er
    end.
Proof.
  intros Hwf Hids d s positions.
  destruct Hwf as [Hpos Hrows Hcols Hw].
  unfold Embedding.forward, mbind, lift.
  rewrite (nn_Embedding_forward_ok _ _ Hids).
  unfold math_sqrt.
  replace (Embedding.embedding_dim e <? 0)%Z with false
    by (symmetry; apply Z.ltb_ge; lia).
  fold positions.
  assert (Hpc : cols positions = d) by (subst positions; exact Hcols).
  clearbody positions.
  unfold add3_2.
  cbn [scale3 dim0 dim1 dim2 at3].
  destruct (broadcast_dim (cols x) (rows positions)) as [n|er] eqn:Hn;
    cbn [bind]; [|reflexivity].
  rewrite Hw, Hpc. fold d. rewrite broadcast_dim_same. cbn [bind].
  unfold Py.pow.
  replace (0 <? Embedding.embedding_dim e)%Z with true
    by (symmetry; apply Z.ltb_lt; lia).
  rewrite Rpower_sqrt by (apply IZR_lt; assumption).
  reflexivity.
Qed.

Lemma slice_len_nonneg_start (len t n : Z) :
  (0 <= t)%Z -> (0 <= n)%Z -> (0 <= len)%Z ->
  Z.of_nat (slice_len len t (t + n)) = (Z.min (t + n) len - Z.min t len)%Z
  /\ slice_start len t = Z.to_nat (Z.min t len).
Proof.
  intros Ht Hn Hlen. unfold slice_len, slice_start, slice_bound.
  replace (t <? 0)%Z with false by (symmetry; apply Z.ltb_ge; lia).
  replace (t + n <? 0)%Z with false by (symmetry; apply Z.ltb_ge; lia).
  split; [lia | reflexivity].
Qed.

(** C5.  Within the table's capacity, [forward(x, timestep)] is dropout
    applied to [(E[x] * sqrt(d) + pe[timestep : timestep + L]) * sqrt(d)]:
    the scale [sqrt(embedding_dim)] is applied at lookup and again after the
    positional slice is added. *)
Theorem Embedding_forward_double_scale (e : Embedding.t) (x : T2 Z) (t : Z)
    (g : rng) :
  EmbeddingInv.wf e -> EmbeddingInv.ids_in_vocab e x ->
  (0 <= t)%Z -> (t + Z.of_nat (cols x) <= default_max_len)%Z ->
  let d := Z.to_nat (Embedding.embedding_dim e) in
  let s := sqrt (IZR (Embedding.embedding_dim e)) in
  let E := nn.Embedding.weight (Embedding.embedding e) in
  exists v,
    same3 v (mkT3 (rows x) (cols x) d
               (fun b l c =>
                  (at2 E (Z.to_nat (at2 x b l)) c * s
                   + at2 (Embedding.pe e) (Z.to_nat t + l) c) * s)) /\
    Embedding.forward e x t g
    = nn.Dropout.forward3 (Embedding.dropout e) v g.
Proof.
  intros Hwf Hids Ht Hcap d s E.
  rewrite (Embedding_forward_unfold e x t g Hwf Hids).
  destruct (slice_len_nonneg_start (Z.of_nat (rows (Embedding.pe e))) t
              (Z.of_nat (cols x))) as [Hlen Hstart]; try lia.
  rewrite (EmbeddingInv.pe_rows Hwf) in Hlen, Hstart.
  assert (Hrows : rows (slice_rows (Embedding.pe e) t (t + Z.of_nat (cols x)))
                  = cols x).
  { cbn [slice_rows rows]. rewrite (EmbeddingInv.pe_rows Hwf). lia. }
  rewrite Hrows, broadcast_dim_same.
  eexists. split; [|reflexivity].
  split; [reflexivity|].
  cbn [dim0 dim1 dim2 at3]. intros b l c Hb Hl Hc.
  rewrite !bidx_in_range by assumption.
  cbn [slice_rows at2]. rewrite (EmbeddingInv.pe_rows Hwf), Hstart.
  rewrite Z.min_l by lia. reflexivity.
Qed.

Lemma Demo_embedding_wf : EmbeddingInv.wf Demo.embedding.
Proof. constructor; cbn; (lia || reflexivity). Qed.

Lemma Demo_ids_in_vocab (r c : nat) (id : Z) :
  (0 <= id < 10)%Z -> EmbeddingInv.ids_in_vocab Demo.embedding (full2 r c id).
Proof.
  intros Hid b l _ _. cbn. unfold nn.Embedding.in_vocab. cbn.
  apply andb_true_iff. split; [apply Z.leb_le | apply Z.ltb_lt]; lia.
Qed.

Lemma Embedding_forward_double_scale_witness :
  exists v,
    same3 v (mkT3 1 3 4
               (fun b l c =>
                  (at2 (mkT2 10 4 zeros) (Z.to_nat 1) c * sqrt (IZR 4)
                   + at2 Demo.pe (Z.to_nat 2 + l) c) * sqrt (IZR 4))) /\
    Embedding.forward Demo.embedding (full2 1 3 1) 2 rng0
    = nn.Dropout.forward3 Demo.no_dropout v rng0.
Proof.
  apply (Embedding_forward_double_scale Demo.embedding (full2 1 3 1) 2 rng0).
  - exact Demo_embedding_wf.
  - apply Demo_ids_in_vocab. lia.
  - lia.
  - unfold default_max_len. cbn. lia.
Defined.

(** The outcome of [forward] for a non-negative [timestep]: the positional
    slice has [n'] rows, the part of [timestep .. timestep + L) that lies
    inside the table; the call succeeds exactly when [n'] broadcasts against
    the [L] positions of the input. *)
Lemma Embedding_forward_outcome (e : Embedding.t) (x : T2 Z) (t : Z) (g : rng) :
  EmbeddingInv.wf e -> EmbeddingInv.ids_in_vocab e x -> (0 <= t)%Z ->
  let L := cols x in
  let n' := slice_len default_max_len t (t + Z.of_nat L) in
  Z.of_nat n' = (Z.min (t + Z.of_nat L) default_max_len
                 - Z.min t default_max_len)%Z /\
  match broadcast_dim L n' with
  | Ok n => exists y g', Embedding.forward e x t g = Ok (y, g') /\
                         shape3 y
                         = (rows x, n, Z.to_nat (Embedding.embedding_dim e))
  | Raise er => Embedding.forward e x t g = Raise er
  end.
Proof.
  intros Hwf Hids Ht L n'.
  destruct (slice_len_nonneg_start default_max_len t (Z.of_nat L))
    as [Hlen _]; try (unfold default_max_len; lia).
  split; [exact Hlen|].
  rewrite (Embedding_forward_unfold e x t g Hwf Hids).
  cbn [slice_rows rows]. rewrite (EmbeddingInv.pe_rows Hwf).
  fold L. fold n'.
  destruct (broadcast_dim L n') as [n|er]; [|reflexivity].
  match goal with
  | |- context [nn.Dropout.forward3 ?d ?v g] =>
      destruct (Dropout_forward3_shape d v g) as (y & g' & Hy & Hs)
  end.
  exists y, g'. split; [exact Hy | exact Hs].
Qed.

(** C7, as the claim states it, fails: on a constructed embedding, a call
    with [timestep = 4999] and two tokens reaches past the 5000 rows of the
    table and still returns a value. *)
Lemma Embedding_forward_past_capacity_succeeds :
  exists e,
    Embedding.init 4 10 (Some 0%Z) 0 zeros = Ok e /\
    (Z.of_nat (rows (Embedding.pe e))
     < 4999 + Z.of_nat (cols (full2 1 2 1)))%Z /\
    (forall er, Embedding.forward e (full2 1 2 1) 4999 rng0 <> Raise er) /\
    exists y g', Embedding.forward e (full2 1 2 1) 4999 rng0 = Ok (y, g').
Proof.
  destruct (Embedding_init_ok 4 10 0 0 zeros) as [e He];
    [lia | reflexivity | lia | lra |].
  exists e. split; [exact He|].
  pose proof (Embedding_init_wf _ _ _ _ _ _ He) as Hwf.
  assert (Hvocab : rows (nn.Embedding.weight (Embedding.embedding e)) = 10%nat).
  { unfold Embedding.init in He. bind_inv He. bind_inv He. bind_inv He.
    unfold Embedding.reset_parameters in He. bind_inv He.
    injection He as <-. cbn.
    apply nn_Embedding_init_shape in Ha0. rewrite Ha0. reflexivity. }
  assert (Hids : EmbeddingInv.ids_in_vocab e (full2 1 2 1)).
  { intros b l _ _. cbn. unfold nn.Embedding.in_vocab. rewrite Hvocab.
    reflexivity. }
  destruct (Embedding_forward_outcome e (full2 1 2 1) 4999 rng0 Hwf Hids)
    as [_ Hout]; [lia|].
  change (broadcast_dim _ _) with (@Ok nat 2%nat) in Hout.
  destruct Hout as (y & g' & Hy & _).
  split; [rewrite (EmbeddingInv.pe_rows Hwf); unfold default_max_len; cbn; lia|].
  split; [intros er; rewrite Hy; discriminate|].
  exists y, g'. exact Hy.
Qed.

(** C7, amended.  No position-overflow error exists.  For a non-negative
    [timestep] and in-vocabulary ids, a call with
    [timestep + L <= 5000] succeeds with a batch x [L] x dim result.  Past
    that bound the positional slice is silently cut to the [n'] rows left in
    the table, fewer than [L] for a non-empty input: when one row is left it
    is added to every position and the call succeeds; when [L <= 1] the call
    succeeds with an empty result; in every other case the addition fails
    with a [RuntimeError]. *)
Theorem Embedding_forward_capacity (e : Embedding.t) (x : T2 Z) (t : Z)
    (g : rng) :
  EmbeddingInv.wf e -> EmbeddingInv.ids_in_vocab e x -> (0 <= t)%Z ->
  let L := cols x in
  let d := Z.to_nat (Embedding.embedding_dim e) in
  let n' := slice_len default_max_len t (t + Z.of_nat L) in
  ((t + Z.of_nat L <= default_max_len)%Z ->
     exists y g', Embedding.forward e x t g = Ok (y, g') /\
                  shape3 y = (rows x, L, d)) /\
  ((default_max_len < t + Z.of_nat L)%Z ->
     (n' <= L)%nat /\ ((0 < L)%nat -> (n' < L)%nat) /\
     (n' = 1%nat ->
        exists y g', Embedding.forward e x t g = Ok (y, g') /\
                     shape3 y = (rows x, L, d)) /\
     ((L <= 1)%nat ->
        exists y g', Embedding.forward e x t g = Ok (y, g') /\
                     shape3 y = (rows x, 0%nat, d)) /\
     (n' <> 1%nat -> (1 < L)%nat ->
        Embedding.forward e x t g = Raise RuntimeError)).
Proof.
  intros Hwf Hids Ht L d n'.
  destruct (Embedding_forward_outcome e x t g Hwf Hids Ht) as [Hn' Hout].
  fold L in Hn', Hout. fold n' in Hn', Hout. fold d in Hout.
  clearbody n' L d. unfold default_max_len in *.
  split; [intros Hcap | intros Hover].
  - assert (Heq : n' = L) by lia.
    rewrite Heq, broadcast_dim_same in Hout. exact Hout.
  - split; [lia|]. split; [lia|].
    unfold broadcast_dim in Hout.
    split; [|split].
    + intros H1.
      destruct (Nat.eqb_spec L n') as [|_]; [lia|].
      destruct (Nat.eqb_spec L 1) as [|_]; [lia|].
      rewrite H1 in Hout. exact Hout.
    + intros H1. assert (H0 : n' = 0%nat) by lia. rewrite H0 in Hout.
      destruct (Nat.eqb_spec L 0) as [->|HL0]; [exact Hout|].
      destruct (Nat.eqb_spec L 1) as [_|]; [exact Hout|lia].
    + intros Hn1 HL1.
      destruct (Nat.eqb_spec L n') as [|_]; [lia|].
      destruct (Nat.eqb_spec L 1) as [|_]; [lia|].
      destruct (Nat.eqb_spec n' 1) as [|_]; [contradiction|].
      exact Hout.
Qed.

Lemma Embedding_forward_capacity_witness :
  (exists y g', Embedding.forward Demo.embedding (full2 1 2 1) 3 rng0
                = Ok (y, g') /\
                shape3 y = (1%nat, 2%nat, 4%nat)) /\
  Embedding.forward Demo.embedding (full2 1 3 1) 4998 rng0
  = Raise RuntimeError.
Proof.
  split.
  - destruct (Embedding_forward_capacity Demo.embedding (full2 1 2 1) 3 rng0)
      as [Hin _];
      [exact Demo_embedding_wf | apply Demo_ids_in_vocab; lia | lia |].
    apply Hin. unfold default_max_len. cbn. lia.
  - destruct (Embedding_forward_capacity Demo.embedding (full2 1 3 1) 4998 rng0)
      as [_ Hout];
      [exact Demo_embedding_wf | apply Demo_ids_in_vocab; lia | lia |].
    destruct Hout as (_ & _ & _ & _ & Hraise).
    + unfold default_max_len. cbn. lia.
    + apply Hraise; cbn; lia.
Defined.

Lemma Decoder_self_attention_mask_is_or_witness :
  exists m,
    Decoder.self_attention_mask Demo.decoder 4 (full2 1 4 0) = Ok m /\
    at3 m 0 1 2 = 1%Z /\ at3 m 0 2 1 = 0%Z.
Proof.
  destruct (Decoder_self_attention_mask_is_or Demo.decoder (full2 1 4 0))
    as (m & Hm & _ & _ & H4).
  - reflexivity.
  - cbn. lia.
  - intros b l _ _. left. reflexivity.
  - exists m. split; [exact Hm|].
    apply H4; [reflexivity | intros b l _ _; reflexivity | cbn; lia].
Defined.

(** ** Incremental decoding *)

Lemma masked_scores_without_mask (a : MultiHeadedAttention.t) (q k : T4 R)
    (s : T4 R) :
  MultiHeadedAttention.masked_scores a q k None <> Ok s.
Proof.
  unfold MultiHeadedAttention.masked_scores.
  destruct (Py.pow _ _); cbn [bind]; [|discriminate].
  destruct (matmul4 _ _); cbn [bind]; discriminate.
Qed.

Lemma attention_without_mask (a : MultiHeadedAttention.t) (query : T3 R)
    (memory : option (T3 R)) (g : rng) (r : T3 R * rng) :
  MultiHeadedAttention.forward a query memory None g <> Ok r.
Proof.
  unfold MultiHeadedAttention.forward, mbind, lift.
  destruct (MultiHeadedAttention.project a query memory)
    as [[[[q k] v] c]|]; [|discriminate].
  unfold MultiHeadedAttention.attend, mbind, lift.
  destruct (MultiHeadedAttention.split_head a c q); [|discriminate].
  destruct (MultiHeadedAttention.split_head a false k); [|discriminate].
  destruct (MultiHeadedAttention.split_head a false v); [|discriminate].
  unfold MultiHeadedAttention.contexts, mbind, lift.
  destruct (MultiHeadedAttention.masked_scores a _ _ None) eqn:Hs;
    [|discriminate].
  exfalso. exact (masked_scores_without_mask _ _ _ _ Hs).
Qed.

Lemma DecoderLayer_forward_without_mask (layer : DecoderLayer.t)
    (x enc_out : T3 R) (src_mask : T3 Z) (previous : option (T3 R)) (g : rng)
    (r : T3 R * T3 R * rng) :
  DecoderLayer.forward layer x enc_out src_mask None previous g <> Ok r.
Proof.
  unfold DecoderLayer.forward, mbind, lift.
  destruct (match previous with None => Ok x | Some p => cat1 p x end);
    [|discriminate].
  destruct (MultiHeadedAttention.forward _ _ _ None g) eqn:Ha; [|discriminate].
  exfalso. exact (attention_without_mask _ _ _ _ _ Ha).
Qed.

Lemma Decoder_run_with_cache (ls : list DecoderLayer.t) (i : nat)
    (output enc_out : T3 R) (src_mask : T3 Z) (tgt_mask : option (T3 Z))
    (cache : T4 R) (g : rng) (r : T3 R * list (T3 R) * rng) :
  Decoder.run ls i output enc_out src_mask tgt_mask (Some cache) g = Ok r ->
  ls = [] /\ snd (fst r) = [].
Proof.
  destruct ls as [|layer rest]; cbn [Decoder.run].
  - unfold ret. intros H; injection H as <-. split; reflexivity.
  - unfold mbind, lift.
    destruct (bind (select1 cache i) _); [|discriminate].
    destruct (DecoderLayer.forward _ _ _ _ None _ g) eqn:Hl; [|discriminate].
    exfalso. exact (DecoderLayer_forward_without_mask _ _ _ _ _ _ _ Hl).
Qed.

(** Whatever the decoder and its inputs, a call that is given a cache does
    not return. *)
Lemma Decoder_forward_with_cache_raises (dec : Decoder.t) (tgt : T2 Z)
    (enc_out : T3 R) (src_pad tgt_pad : T2 Z) (cache : T4 R) (timestep : Z)
    (g : rng) :
  exists er,
    Decoder.forward dec tgt enc_out src_pad tgt_pad (Some cache) timestep g
    = Raise er.
Proof.
  unfold Decoder.forward, mbind, lift.
  destruct (Embedding.forward _ _ _ g) as [[output g1]|er]; [|eauto].
  destruct (Decoder.self_attention_mask _ _ _) as [m|er]; [|eauto].
  destruct (Decoder.run _ _ _ _ _ _ (Some cache) g1) as [[[o s] g2]|er] eqn:Hr;
    [|eauto].
  apply Decoder_run_with_cache in Hr. destruct Hr as [_ Hs].
  cbn in Hs. subst s. cbn. eauto.
Qed.

Lemma Demo_second_step_any (cache : T4 R) (g : rng) :
  shape4 cache = (1, 1, 1, 4)%nat ->
  Decoder.forward Demo.decoder (full2 1 1 1) Demo.enc_out Demo.src_pad
                  (full2 1 1 0) (Some cache) 1 g
  = Raise AttributeError.
Proof.
  destruct cache as [s0 s1 s2 s3 f]. unfold shape4. cbn [size0 size1 size2 size3].
  intros H. injection H as -> -> -> ->.
  reflexivity.
Qed.

(** ** Shapes through the decoder in full-sequence mode *)

Lemma mbind_ok {A B : Type} (m : M A) (k : A -> M B) (g : rng) (a : A)
    (g1 : rng) :
  m g = Ok (a, g1) -> mbind m k g = k a g1.
Proof. intros H. unfold mbind. rewrite H. reflexivity. Qed.

Lemma mbind_lift_ok {A B : Type} (r : Result A) (k : A -> M B) (g : rng)
    (a : A) :
  r = Ok a -> mbind (lift r) k g = k a g.
Proof. intros ->. reflexivity. Qed.

Ltac shapes :=
  repeat match goal with
         | H : shape3 _ = (_, _, _) |- _ =>
             unfold shape3 in H; injection H as ? ? ?
         | H : shape4 _ = (_, _, _, _) |- _ =>
             unfold shape4 in H; injection H as ? ? ? ?
         | H : Inv.linear_dims _ _ _ |- _ => destruct H as [? ?]
         end.

Lemma Linear_forward_shape (l : nn.Linear.t) (x : T3 R) :
  dim2 x = nn.Linear.in_features l ->
  exists y, nn.Linear.forward l x = Ok y /\
            shape3 y = (dim0 x, dim1 x, nn.Linear.out_features l).
Proof.
  intros H. unfold nn.Linear.forward. rewrite H, Nat.eqb_refl.
  eexists. split; reflexivity.
Qed.

Lemma chunk2_shape (y : T3 R) (D : nat) :
  (0 < D)%nat -> dim2 y = (2 * D)%nat ->
  exists k v, chunk 2 y = [k; v] /\
              shape3 k = (dim0 y, dim1 y, D) /\
              shape3 v = (dim0 y, dim1 y, D).
Proof.
  intros HD Hy. unfold chunk. rewrite Hy.
  assert (Hs : ((2 * D + 2 - 1) / 2 = D)%nat).
  { symmetry. apply (Nat.div_unique _ 2 D 1); lia. }
  rewrite Hs.
  destruct (Nat.eqb_spec D 0) as [|_]; [lia|].
  assert (Hn : ((2 * D + D - 1) / D = 2)%nat).
  { symmetry. apply (Nat.div_unique _ D 2 (D - 1)); lia. }
  rewrite Hn. cbn [Nat.max seq map Nat.sub Nat.ltb Nat.leb].
  eexists. eexists. split; [reflexivity|].
  unfold shape3. cbn [dim0 dim1 dim2].
  split; f_equal; lia.
Qed.

Lemma view_heads_shape (c : bool) (h d : Z) (x : T3 R) (B L : nat) :
  (0 < h)%Z -> (0 < d)%Z -> (0 < B)%nat ->
  shape3 x = (B, L, (Z.to_nat h * Z.to_nat d)%nat) ->
  exists y, view_heads c h d x = Ok y /\
            shape4 y = (B, L, Z.to_nat h, Z.to_nat d).
Proof.
  intros Hh Hd HB Hx. shapes. unfold view_heads.
  replace (h <? 0)%Z with false by (symmetry; apply Z.ltb_ge; lia).
  replace (d <? 0)%Z with false by (symmetry; apply Z.ltb_ge; lia).
  cbn [orb].
  set (hn := Z.to_nat h) in *. set (dn := Z.to_nat d) in *.
  assert (Hk : (0 < hn * dn)%nat) by (subst hn dn; nia).
  destruct (Nat.eqb_spec (dim0 x) 0) as [|_]; [lia|].
  destruct (Nat.eqb_spec (hn * dn) 0) as [|_]; [lia|].
  cbn [orb].
  replace (dim1 x * dim2 x)%nat with (L * (hn * dn))%nat by congruence.
  rewrite Nat.Div0.mod_mul, Nat.eqb_refl. cbn [negb].
  replace (hn * dn =? dim2 x)%nat with true
    by (symmetry; apply Nat.eqb_eq; congruence).
  rewrite orb_true_r. cbn [orb].
  rewrite Nat.div_mul by lia.
  eexists. split; [reflexivity|]. unfold shape4. cbn. congruence.
Qed.

Lemma split_head_shape (a : MultiHeadedAttention.t) (c : bool) (x : T3 R)
    (B L D : nat) :
  Inv.attention D a -> (0 < B)%nat -> shape3 x = (B, L, D) ->
  exists y, MultiHeadedAttention.split_head a c x = Ok y /\
            shape4 y = (B, Z.to_nat (MultiHeadedAttention.head_count a), L,
                        Z.to_nat (MultiHeadedAttention.dim_per_head a)).
Proof.
  intros Hwf HB Hx. destruct Hwf as [Hh Hd Ht _ _ _ _].
  rewrite <- Ht in Hx.
  destruct (view_heads_shape c _ _ x B L Hh Hd HB Hx) as (y & Hy & Hs).
  unfold MultiHeadedAttention.split_head. rewrite Hy. cbn [bind].
  eexists. split; [reflexivity|]. shapes. unfold shape4. cbn. congruence.
Qed.

Lemma Py_pow_pos (base : Z) (e : R) :
  (0 < base)%Z -> Py.pow base e = Ok (Rpower (IZR base) e).
Proof.
  intros H. unfold Py.pow.
  replace (0 <? base)%Z with true by (symmetry; apply Z.ltb_lt; lia).
  reflexivity.
Qed.

Lemma matmul4_shape (a b : T4 R) (B H n k m : nat) :
  shape4 a = (B, H, n, k) -> shape4 b = (B, H, k, m) ->
  matmul4 a b
  = Ok (mkT4 B H n m
          (fun i j r c =>
             sum_n k (fun x =>
               at4 a (bidx B i) (bidx H j) r x
               * at4 b (bidx B i) (bidx H j) x c))).
Proof.
  intros Ha Hb. shapes. unfold matmul4. subst.
  replace (size3 a =? size2 b)%nat with true
    by (symmetry; apply Nat.eqb_eq; congruence).
  cbn [negb].
  replace (size0 b) with (size0 a) by congruence.
  replace (size1 b) with (size1 a) by congruence.
  rewrite !broadcast_dim_same. reflexivity.
Qed.

Lemma unsqueeze1_expand_as_shape (mask : T3 Z) (scores : T4 R)
    (B H n m : nat) :
  shape3 mask = (B, n, m) -> shape4 scores = (B, H, n, m) ->
  unsqueeze1_expand_as mask scores
  = Ok (mkT4 B H n m
          (fun b _ q k => at3 mask (bidx B b) (bidx n q) (bidx m k))).
Proof.
  intros Hm Hs. shapes. unfold unsqueeze1_expand_as, expandable. subst.
  replace (dim0 mask =? size0 scores)%nat with true
    by (symmetry; apply Nat.eqb_eq; congruence).
  replace (dim1 mask =? size2 scores)%nat with true
    by (symmetry; apply Nat.eqb_eq; congruence).
  replace (dim2 mask =? size3 scores)%nat with true
    by (symmetry; apply Nat.eqb_eq; congruence).
  cbn [orb andb].
  repeat match goal with
         | H : size0 scores = _ |- _ => rewrite H
         | H : size2 scores = _ |- _ => rewrite H
         | H : size3 scores = _ |- _ => rewrite H
         end.
  reflexivity.
Qed.

Lemma is_bool4_expanded (mask : T3 Z) (B H n m : nat) :
  shape3 mask = (B, n, m) -> entries3 boolean mask ->
  is_bool4 (mkT4 B H n m
              (fun b _ q k => at3 mask (bidx B b) (bidx n q) (bidx m k)))
  = true.
Proof.
  intros Hm Hbool. shapes. unfold is_bool4.
  cbn [size0 size1 size2 size3 at4].
  apply all_below_spec; intros b Hb. apply all_below_spec; intros h Hh.
  apply all_below_spec; intros q Hq. apply all_below_spec; intros k Hk.
  rewrite !bidx_in_range by assumption.
  destruct (Hbool b q k ltac:(lia) ltac:(lia) ltac:(lia)) as [-> | ->];
    reflexivity.
Qed.

Lemma masked_scores_shape (a : MultiHeadedAttention.t) (q k : T4 R)
    (mask : T3 Z) (B H Lq Lk d : nat) :
  (0 < MultiHeadedAttention.dim_per_head a)%Z ->
  shape4 q = (B, H, Lq, d) -> shape4 k = (B, H, Lk, d) ->
  shape3 mask = (B, Lq, Lk) -> entries3 boolean mask ->
  exists s, MultiHeadedAttention.masked_scores a q k (Some mask) = Ok s /\
            shape4 s = (B, H, Lq, Lk).
Proof.
  intros Hd Hq Hk Hm Hbool. unfold MultiHeadedAttention.masked_scores.
  rewrite (Py_pow_pos _ _ Hd). cbn [bind].
  rewrite (matmul4_shape _ _ B H Lq d Lk);
    [| shapes; unfold shape4; cbn; congruence
     | shapes; unfold shape4; cbn; congruence ].
  cbn [bind].
  rewrite (unsqueeze1_expand_as_shape _ _ B H Lq Lk Hm) by reflexivity.
  cbn [bind]. unfold masked_fill.
  rewrite (is_bool4_expanded mask B H Lq Lk Hm Hbool).
  eexists. split; reflexivity.
Qed.

Lemma contexts_shape (a : MultiHeadedAttention.t) (q k v : T4 R) (mask : T3 Z)
    (B H Lq Lk d : nat) (g : rng) :
  (0 < MultiHeadedAttention.dim_per_head a)%Z ->
  shape4 q = (B, H, Lq, d) -> shape4 k = (B, H, Lk, d) ->
  shape4 v = (B, H, Lk, d) -> shape3 mask = (B, Lq, Lk) ->
  entries3 boolean mask ->
  exists c g', MultiHeadedAttention.contexts a q k v (Some mask) g = Ok (c, g')
               /\ shape4 c = (B, H, Lq, d).
Proof.
  intros Hd Hq Hk Hv Hm Hbool. unfold MultiHeadedAttention.contexts.
  destruct (masked_scores_shape a q k mask B H Lq Lk d Hd Hq Hk Hm Hbool)
    as (s & Hs & Hss).
  rewrite (mbind_lift_ok _ _ _ _ Hs).
  destruct (Dropout_forward4_shape (MultiHeadedAttention.dropout a)
              (softmax s) g) as (w & g' & Hw & Hws).
  rewrite (mbind_ok _ _ _ _ _ Hw).
  assert (Hws' : shape4 w = (B, H, Lq, Lk)) by (rewrite Hws; exact Hss).
  unfold lift. rewrite (matmul4_shape _ _ B H Lq Lk d Hws' Hv).
  eexists. eexists. split; reflexivity.
Qed.

Lemma combine_head_shape (a : MultiHeadedAttention.t) (x : T4 R)
    (B L D : nat) :
  Inv.attention D a -> (0 < B)%nat ->
  shape4 x = (B, Z.to_nat (MultiHeadedAttention.head_count a), L,
              Z.to_nat (MultiHeadedAttention.dim_per_head a)) ->
  exists y, MultiHeadedAttention.combine_head a x = Ok y /\
            shape3 y = (B, L, D).
Proof.
  intros Hwf HB Hx. destruct Hwf as [Hh Hd Ht _ _ _ _]. shapes.
  unfold MultiHeadedAttention.combine_head, view_merge.
  set (h := MultiHeadedAttention.head_count a) in *.
  set (d := MultiHeadedAttention.dim_per_head a) in *.
  replace (h * d <? 0)%Z with false by (symmetry; apply Z.ltb_ge; nia).
  assert (Hw : Z.to_nat (h * d) = D) by (rewrite Z2Nat.inj_mul by lia; exact Ht).
  rewrite Hw.
  cbn [transpose12 size0 size1 size2 size3].
  assert (HD : (0 < D)%nat) by (subst D; nia).
  destruct (Nat.eqb_spec (size0 x) 0) as [|_]; [lia|].
  destruct (Nat.eqb_spec D 0) as [|_]; [lia|].
  cbn [orb].
  replace (size2 x * size1 x * size3 x)%nat with (L * D)%nat
    by (subst D L; rewrite <- Nat.mul_assoc; congruence).
  rewrite Nat.Div0.mod_mul, Nat.eqb_refl. cbn [negb].
  rewrite Nat.div_mul by lia.
  eexists. split; [reflexivity|]. unfold shape3. cbn. congruence.
Qed.

Lemma attend_shape (a : MultiHeadedAttention.t) (q k v : T3 R) (c : bool)
    (mask : T3 Z) (B Lq Lk D : nat) (g : rng) :
  Inv.attention D a -> (0 < B)%nat ->
  shape3 q = (B, Lq, D) -> shape3 k = (B, Lk, D) -> shape3 v = (B, Lk, D) ->
  shape3 mask = (B, Lq, Lk) -> entries3 boolean mask ->
  exists y g', MultiHeadedAttention.attend a q k v c (Some mask) g = Ok (y, g')
               /\ shape3 y = (B, Lq, D).
Proof.
  intros Hwf HB Hq Hk Hv Hm Hbool. unfold MultiHeadedAttention.attend.
  destruct (split_head_shape a c q B Lq D Hwf HB Hq) as (q4 & Hq4 & Hqs).
  destruct (split_head_shape a false k B Lk D Hwf HB Hk) as (k4 & Hk4 & Hks).
  destruct (split_head_shape a false v B Lk D Hwf HB Hv) as (v4 & Hv4 & Hvs).
  rewrite (mbind_lift_ok _ _ _ _ Hq4), (mbind_lift_ok _ _ _ _ Hk4),
    (mbind_lift_ok _ _ _ _ Hv4).
  destruct (contexts_shape a q4 k4 v4 mask _ _ _ _ _ g
              (Inv.dim_per_head_pos Hwf) Hqs Hks Hvs Hm Hbool)
    as (ctx & g' & Hc & Hcs).
  rewrite (mbind_ok _ _ _ _ _ Hc).
  destruct (combine_head_shape a ctx B Lq D Hwf HB Hcs) as (y & Hy & Hys).
  rewrite (mbind_lift_ok _ _ _ _ Hy).
  destruct (Linear_forward_shape (MultiHeadedAttention.final_linear a) y)
    as (z & Hz & Hzs).
  { destruct (Inv.final_dims Hwf) as [Hi _]. shapes. congruence. }
  unfold lift. rewrite Hz. exists z, g'. split; [reflexivity|].
  rewrite Hzs. destruct (Inv.final_dims Hwf) as [_ Ho]. shapes.
  unfold shape3. congruence.
Qed.

Lemma project_with_memory_shape (a : MultiHeadedAttention.t)
    (query memory : T3 R) (B Lq Lk D : nat) :
  Inv.attention D a -> (0 < D)%nat ->
  shape3 query = (B, Lq, D) -> shape3 memory = (B, Lk, D) ->
  exists q k v,
    MultiHeadedAttention.project a query (Some memory) = Ok (q, k, v, true) /\
    shape3 q = (B, Lq, D) /\ shape3 k = (B, Lk, D) /\ shape3 v = (B, Lk, D).
Proof.
  intros Hwf HD Hq Hm. unfold MultiHeadedAttention.project.
  destruct (Inv.q_dims Hwf) as [Hqi Hqo].
  destruct (Inv.kv_dims Hwf) as [Hki Hko].
  destruct (Linear_forward_shape (MultiHeadedAttention.linear_q a) query)
    as (q & Hq' & Hqs); [shapes; congruence|].
  destruct (Linear_forward_shape (MultiHeadedAttention.linear_kv a) memory)
    as (y & Hy & Hys); [shapes; congruence|].
  rewrite Hq', Hy. cbn [bind].
  destruct (chunk2_shape y D HD) as (k & v & Hkv & Hks & Hvs).
  { shapes. congruence. }
  rewrite Hkv. exists q, k, v. split; [reflexivity|].
  rewrite Hqs, Hks, Hvs. shapes. unfold shape3.
  repeat split; congruence.
Qed.

Lemma attention_with_memory_shape (a : MultiHeadedAttention.t)
    (query memory : T3 R) (mask : T3 Z) (B Lq Lk D : nat) (g : rng) :
  Inv.attention D a -> (0 < B)%nat ->
  shape3 query = (B, Lq, D) -> shape3 memory = (B, Lk, D) ->
  shape3 mask = (B, Lq, Lk) -> entries3 boolean mask ->
  exists y g',
    MultiHeadedAttention.forward a query (Some memory) (Some mask) g
    = Ok (y, g') /\
    shape3 y = (B, Lq, D).
Proof.
  intros Hwf HB Hq Hm Hmask Hbool.
  assert (HD : (0 < D)%nat).
  { destruct Hwf as [Hh Hd Ht _ _ _ _]. subst D. nia. }
  destruct (project_with_memory_shape a query memory B Lq Lk D Hwf HD Hq Hm)
    as (q & k & v & Hp & Hqs & Hks & Hvs).
  unfold MultiHeadedAttention.forward.
  rewrite (mbind_lift_ok _ _ _ _ Hp).
  exact (attend_shape a q k v true mask B Lq Lk D g Hwf HB Hqs Hks Hvs Hmask
           Hbool).
Qed.

Lemma add3_shape (x y : T3 R) (B L D : nat) :
  shape3 x = (B, L, D) -> shape3 y = (B, L, D) ->
  exists z, add3 x y = Ok z /\ shape3 z = (B, L, D).
Proof.
  intros Hx Hy. shapes. unfold add3.
  replace (dim0 y) with (dim0 x) by congruence.
  replace (dim1 y) with (dim1 x) by congruence.
  replace (dim2 y) with (dim2 x) by congruence.
  rewrite !broadcast_dim_same. cbn [bind].
  eexists. split; [reflexivity|]. unfold shape3. cbn. congruence.
Qed.

Lemma LayerNorm_forward_shape (n : nn.LayerNorm.t) (x : T3 R) :
  dim2 x = nn.LayerNorm.normalized_shape n ->
  exists y, nn.LayerNorm.forward n x = Ok y /\ shape3 y = shape3 x.
Proof.
  intros H. unfold nn.LayerNorm.forward. rewrite H, Nat.eqb_refl.
  eexists. split; [reflexivity|]. unfold shape3. cbn. congruence.
Qed.

Lemma getitem_norm (layer : DecoderLayer.t) (D i : nat) :
  Inv.decoder_layer D layer -> (i < 3)%nat ->
  exists n, getitem (DecoderLayer.norm layer) i = Ok n /\
            nn.LayerNorm.normalized_shape n = D.
Proof.
  intros Hwf Hi. unfold getitem.
  destruct (nth_error (DecoderLayer.norm layer) i) as [n|] eqn:Hn.
  - exists n. split; [reflexivity|].
    pose proof (Inv.norm_dims Hwf) as Hall.
    rewrite Forall_forall in Hall. apply Hall.
    eapply nth_error_In. exact Hn.
  - apply nth_error_None in Hn. rewrite (Inv.norm_count Hwf) in Hn. lia.
Qed.

Lemma add_norm_shape (layer : DecoderLayer.t) (i : nat) (x y : T3 R)
    (B L D : nat) (g : rng) :
  Inv.decoder_layer D layer -> (i < 3)%nat ->
  shape3 x = (B, L, D) -> shape3 y = (B, L, D) ->
  exists z g', DecoderLayer.add_norm layer i x y g = Ok (z, g') /\
               shape3 z = (B, L, D).
Proof.
  intros Hwf Hi Hx Hy. unfold DecoderLayer.add_norm.
  destruct (getitem_norm layer D i Hwf Hi) as (n & Hn & Hnd).
  rewrite (mbind_lift_ok _ _ _ _ Hn).
  destruct (Dropout_forward3_shape (DecoderLayer.dropout layer) y g)
    as (y' & g' & Hy' & Hys).
  rewrite (mbind_ok _ _ _ _ _ Hy').
  rewrite Hy in Hys.
  destruct (add3_shape x y' B L D Hx Hys) as (s & Hs & Hss).
  rewrite (mbind_lift_ok _ _ _ _ Hs).
  destruct (LayerNorm_forward_shape n s) as (z & Hz & Hzs).
  { shapes. congruence. }
  unfold lift. rewrite Hz. exists z, g'. split; [reflexivity|].
  rewrite Hzs. exact Hss.
Qed.

Lemma FeedForward_forward_shape (ff : FeedForward.t) (x : T3 R)
    (B L D : nat) (g : rng) :
  Inv.feed_forward D ff -> shape3 x = (B, L, D) ->
  exists y g', FeedForward.forward ff x g = Ok (y, g') /\
               shape3 y = (B, L, D).
Proof.
  intros [Hin Hmid Hout] Hx. unfold FeedForward.forward.
  destruct (Linear_forward_shape (FeedForward.linear_in ff) x)
    as (y1 & Hy1 & Hs1); [shapes; congruence|].
  rewrite (mbind_lift_ok _ _ _ _ Hy1).
  destruct (Dropout_forward3_shape (FeedForward.dropout ff) (relu y1) g)
    as (y2 & g' & Hy2 & Hs2).
  rewrite (mbind_ok _ _ _ _ _ Hy2).
  destruct (Linear_forward_shape (FeedForward.linear_out ff) y2)
    as (y3 & Hy3 & Hs3).
  { unfold shape3 in Hs2. cbn in Hs2. shapes. congruence. }
  rewrite (mbind_lift_ok _ _ _ _ Hy3).
  exists y3, g'. split; [reflexivity|].
  rewrite Hs3. unfold shape3 in Hs2. cbn in Hs2. shapes.
  unfold shape3. congruence.
Qed.

Lemma DecoderLayer_forward_shape (layer : DecoderLayer.t) (x enc_out : T3 R)
    (src_mask tgt_mask : T3 Z) (B L S D : nat) (g : rng) :
  Inv.decoder_layer D layer -> (0 < B)%nat ->
  shape3 x = (B, L, D) -> shape3 enc_out = (B, S, D) ->
  shape3 src_mask = (B, L, S) -> shape3 tgt_mask = (B, L, L) ->
  entries3 boolean src_mask -> entries3 boolean tgt_mask ->
  exists y g',
    DecoderLayer.forward layer x enc_out src_mask (Some tgt_mask) None g
    = Ok (y, x, g') /\
    shape3 y = (B, L, D).
Proof.
  intros Hwf HB Hx He Hsm Htm Hsb Htb. unfold DecoderLayer.forward.
  rewrite (mbind_lift_ok _ _ g x eq_refl).
  destruct (attention_with_memory_shape (DecoderLayer.self_attn layer)
              x x tgt_mask B L L D g (Inv.self_attn_wf Hwf) HB Hx Hx Htm Htb)
    as (y1 & g1 & Hy1 & Hs1).
  rewrite (mbind_ok _ _ _ _ _ Hy1).
  destruct (add_norm_shape layer 0 x y1 B L D g1 Hwf ltac:(lia) Hx Hs1)
    as (x1 & g2 & Hx1 & Hxs1).
  rewrite (mbind_ok _ _ _ _ _ Hx1).
  destruct (attention_with_memory_shape (DecoderLayer.src_attn layer)
              x1 enc_out src_mask B L S D g2 (Inv.src_attn_wf Hwf) HB Hxs1 He
              Hsm Hsb)
    as (y2 & g3 & Hy2 & Hs2).
  rewrite (mbind_ok _ _ _ _ _ Hy2).
  destruct (add_norm_shape layer 1 x1 y2 B L D g3 Hwf ltac:(lia) Hxs1 Hs2)
    as (x2 & g4 & Hx2 & Hxs2).
  rewrite (mbind_ok _ _ _ _ _ Hx2).
  destruct (FeedForward_forward_shape (DecoderLayer.feed_forward layer) x2
              B L D g4 (Inv.feed_forward_wf Hwf) Hxs2)
    as (y3 & g5 & Hy3 & Hs3).
  rewrite (mbind_ok _ _ _ _ _ Hy3).
  destruct (add_norm_shape layer 2 x2 y3 B L D g5 Hwf ltac:(lia) Hxs2 Hs3)
    as (x3 & g6 & Hx3 & Hxs3).
  rewrite (mbind_ok _ _ _ _ _ Hx3).
  exists x3, g6. split; [reflexivity | exact Hxs3].
Qed.

Lemma Decoder_run_full (enc_out : T3 R) (src_mask tgt_mask : T3 Z)
    (B L S D : nat) (ls : list DecoderLayer.t) :
  Forall (Inv.decoder_layer D) ls -> (0 < B)%nat ->
  shape3 enc_out = (B, S, D) ->
  shape3 src_mask = (B, L, S) -> shape3 tgt_mask = (B, L, L) ->
  entries3 boolean src_mask -> entries3 boolean tgt_mask ->
  forall (i : nat) (x : T3 R) (g : rng),
    shape3 x = (B, L, D) ->
    exists out saved g',
      Decoder.run ls i x enc_out src_mask (Some tgt_mask) None g
      = Ok (out, saved, g') /\
      shape3 out = (B, L, D) /\
      Forall (fun t => shape3 t = (B, L, D)) saved /\
      length saved = length ls /\
      Inv.layer_inputs enc_out src_mask tgt_mask ls x g saved out g'.
Proof.
  intros Hls HB He Hsm Htm Hsb Htb.
  induction Hls as [|layer rest Hlayer _ IH]; intros i x g Hx.
  - exists x, [], g. cbn. repeat split; try assumption; constructor.
  - cbn [Decoder.run].
    rewrite (mbind_lift_ok _ _ g None eq_refl).
    destruct (DecoderLayer_forward_shape layer x enc_out src_mask tgt_mask
                B L S D g Hlayer HB Hx He Hsm Htm Hsb Htb)
      as (y & g1 & Hy & Hys).
    rewrite (mbind_ok _ _ _ _ _ Hy).
    destruct (IH (Datatypes.S i) y g1 Hys) as (out & saved & g2 & Hr & Hos & Hall & Hlen
                                     & Hin).
    rewrite (mbind_ok _ _ _ _ _ Hr).
    exists out, (x :: saved), g2.
    split; [reflexivity|]. split; [exact Hos|].
    split; [constructor; assumption|].
    split; [cbn; congruence|].
    econstructor; eassumption.
Qed.

Lemma stack1_shape (ts : list (T3 R)) (B L D : nat) :
  ts <> [] -> Forall (fun t => shape3 t = (B, L, D)) ts ->
  exists st, stack1 ts = Ok st /\
             shape4 st = (B, length ts, L, D) /\
             forall i x, nth_error ts i = Some x ->
                         forall b l c, at4 st b i l c = at3 x b l c.
Proof.
  intros Hne Hall. destruct ts as [|t0 rest]; [contradiction|].
  unfold stack1.
  inversion Hall as [|? ? H0 Hrest]; subst.
  replace (forallb _ rest) with true.
  - eexists. split; [reflexivity|]. split.
    + unfold shape4. cbn [size0 size1 size2 size3]. shapes. congruence.
    + intros i x Hi b l c. cbn [at4].
      rewrite (nth_error_nth _ _ t0 Hi). reflexivity.
  - symmetry. apply forallb_forall. intros t Ht.
    rewrite Forall_forall in Hrest. specialize (Hrest t Ht). shapes.
    rewrite !andb_true_iff, !Nat.eqb_eq. repeat split; congruence.
Qed.

Lemma self_attention_mask_shape (dec : Decoder.t) (tgt_pad : T2 Z) (B L : nat) :
  Decoder.upper_triangle dec = triu_ones 1000 -> (L <= 1000)%nat ->
  shape2 tgt_pad = (B, L) ->
  exists m, Decoder.self_attention_mask dec L tgt_pad = Ok m /\
            shape3 m = (B, L, L) /\ entries3 boolean m.
Proof.
  intros Hut HL Hp. unfold shape2 in Hp. injection Hp as Hr Hc.
  unfold Decoder.self_attention_mask, byte_add3_2. rewrite Hut.
  cbn [unsqueeze1_repeat top_left triu_ones dim0 dim1 dim2 rows cols at2 at3].
  rewrite (Nat.min_l _ _ HL), Hc, !broadcast_dim_same. cbn [bind].
  eexists. split; [reflexivity|]. split; [unfold shape3; cbn; congruence|].
  intros b i j _ _ _. unfold boolean. cbn [gt0 at3].
  destruct (0 <? _)%Z; [right | left]; reflexivity.
Qed.

Lemma unsqueeze1_repeat_boolean (pad : T2 Z) (n : nat) :
  entries2 boolean pad -> entries3 boolean (unsqueeze1_repeat pad n).
Proof. intros H b i j Hb _ Hj. exact (H b j Hb Hj). Qed.

Lemma Embedding_forward_within (e : Embedding.t) (x : T2 Z) (t : Z) (g : rng) :
  EmbeddingInv.wf e -> EmbeddingInv.ids_in_vocab e x -> (0 <= t)%Z ->
  (t + Z.of_nat (cols x) <= default_max_len)%Z ->
  exists y g', Embedding.forward e x t g = Ok (y, g') /\
               shape3 y = (rows x, cols x,
                           Z.to_nat (Embedding.embedding_dim e)).
Proof.
  intros Hwf Hids Ht Hcap.
  destruct (Embedding_forward_outcome e x t g Hwf Hids Ht) as [Hn Hout].
  assert (Heq : slice_len default_max_len t (t + Z.of_nat (cols x)) = cols x)
    by (unfold default_max_len in *; lia).
  rewrite Heq, broadcast_dim_same in Hout. exact Hout.
Qed.

Lemma Decoder_forward_full_ok (dec : Decoder.t) (tgt : T2 Z) (enc_out : T3 R)
    (src_pad tgt_pad : T2 Z) (t : Z) (g : rng) (Ls : nat) :
  Inv.decoder dec ->
  (0 < rows tgt)%nat ->
  EmbeddingInv.ids_in_vocab (Decoder.embedding dec) tgt ->
  (cols tgt <= 1000)%nat ->
  (0 <= t)%Z -> (t + Z.of_nat (cols tgt) <= default_max_len)%Z ->
  shape3 enc_out = (rows tgt, Ls, Inv.model_dim dec) ->
  shape2 src_pad = (rows tgt, Ls) -> entries2 boolean src_pad ->
  shape2 tgt_pad = (rows tgt, cols tgt) ->
  exists out stacked g',
    Decoder.forward dec tgt enc_out src_pad tgt_pad None t g
    = Ok (out, stacked, g') /\
    shape3 out = (rows tgt, cols tgt, Inv.model_dim dec) /\
    shape4 stacked = (rows tgt, length (Decoder.layers dec), cols tgt,
                      Inv.model_dim dec) /\
    exists x0 g0 tgt_mask xs,
      Embedding.forward (Decoder.embedding dec) tgt t g = Ok (x0, g0) /\
      Decoder.self_attention_mask dec (cols tgt) tgt_pad = Ok tgt_mask /\
      Inv.layer_inputs enc_out (unsqueeze1_repeat src_pad (cols tgt)) tgt_mask
                       (Decoder.layers dec) x0 g0 xs out g' /\
      length xs = length (Decoder.layers dec) /\
      forall i x, nth_error xs i = Some x ->
                  shape3 x = (rows tgt, cols tgt, Inv.model_dim dec) /\
                  forall b l c, at4 stacked b i l c = at3 x b l c.
Proof.
  intros Hwf HB Hids HL Ht Hcap He Hsp Hsb Htp.
  destruct Hwf as [Hemb Hne Hlayers Htri].
  destruct (Embedding_forward_within _ tgt t g Hemb Hids Ht Hcap)
    as (x0 & g0 & Hx0 & Hx0s).
  fold (Inv.model_dim dec) in Hx0s.
  destruct (self_attention_mask_shape dec tgt_pad _ _ Htri HL Htp)
    as (tm & Htm & Htms & Htb).
  assert (Hsm : shape3 (unsqueeze1_repeat src_pad (cols tgt))
                = (rows tgt, cols tgt, Ls)).
  { unfold shape2 in Hsp. injection Hsp as Hr Hc.
    unfold shape3. cbn. congruence. }
  destruct (Decoder_run_full enc_out _ tm _ _ _ _ (Decoder.layers dec)
              Hlayers HB He Hsm Htms
              (unsqueeze1_repeat_boolean src_pad (cols tgt) Hsb) Htb
              0%nat x0 g0 Hx0s)
    as (out & saved & g1 & Hrun & Hos & Hall & Hlen & Hin).
  assert (Hsne : saved <> []).
  { intros ->. destruct (Decoder.layers dec); [contradiction | discriminate]. }
  destruct (stack1_shape saved _ _ _ Hsne Hall) as (st & Hst & Hsts & Hsta).
  unfold Decoder.forward.
  rewrite (mbind_ok _ _ _ _ _ Hx0), (mbind_lift_ok _ _ _ _ Htm),
    (mbind_ok _ _ _ _ _ Hrun), (mbind_lift_ok _ _ _ _ Hst).
  exists out, st, g1. split; [reflexivity|]. split; [exact Hos|].
  split; [rewrite Hsts, Hlen; reflexivity|].
  exists x0, g0, tm, saved. repeat split; try assumption.
  - rewrite Forall_forall in Hall. apply Hall. eapply nth_error_In. eassumption.
  - apply Hsta. assumption.
Qed.

(** C8.  In full-sequence mode (no cache) a well-formed decoder, given a
    non-empty batch of in-vocabulary targets of length at most 1000, an
    encoded source of matching batch size and boolean source padding flags,
    returns hidden states of shape (batch, length, model_dim) and a stack of
    shape (batch, num_layers, length, model_dim) whose entry [i] is the
    input that layer [i] received, which is what its self-attention attends
    over. *)
Theorem Decoder_forward_full_sequence_shapes (dec : Decoder.t) (tgt : T2 Z)
    (enc_out : T3 R) (src_pad tgt_pad : T2 Z) (t : Z) (g : rng) (Ls : nat) :
  Inv.decoder dec ->
  (0 < rows tgt)%nat ->
  EmbeddingInv.ids_in_vocab (Decoder.embedding dec) tgt ->
  (cols tgt <= 1000)%nat ->
  (0 <= t)%Z -> (t + Z.of_nat (cols tgt) <= default_max_len)%Z ->
  shape3 enc_out = (rows tgt, Ls, Inv.model_dim dec) ->
  shape2 src_pad = (rows tgt, Ls) -> entries2 boolean src_pad ->
  shape2 tgt_pad = (rows tgt, cols tgt) ->
  exists out stacked g',
    Decoder.forward dec tgt enc_out src_pad tgt_pad None t g
    = Ok (out, stacked, g') /\
    shape3 out = (rows tgt, cols tgt, Inv.model_dim dec) /\
    shape4 stacked = (rows tgt, length (Decoder.layers dec), cols tgt,
                      Inv.model_dim dec) /\
    exists x0 g0 tgt_mask xs,
      Embedding.forward (Decoder.embedding dec) tgt t g = Ok (x0, g0) /\
      Decoder.self_attention_mask dec (cols tgt) tgt_pad = Ok tgt_mask /\
      Inv.layer_inputs enc_out (unsqueeze1_repeat src_pad (cols tgt)) tgt_mask
                       (Decoder.layers dec) x0 g0 xs out g' /\
      length xs = length (Decoder.layers dec) /\
      forall i x, nth_error xs i = Some x ->
                  shape3 x = (rows tgt, cols tgt, Inv.model_dim dec) /\
                  forall b l c, at4 stacked b i l c = at3 x b l c.
Proof. exact (Decoder_forward_full_ok dec tgt enc_out src_pad tgt_pad t g Ls). Qed.

(** The demo model is well formed. *)
Lemma Demo_attention_wf : Inv.attention 4 Demo.attention.
Proof.
  constructor; cbn; try lia; try reflexivity; split; reflexivity.
Qed.

Lemma Demo_layer_wf : Inv.decoder_layer 4 Demo.layer.
Proof.
  constructor; cbn.
  - exact Demo_attention_wf.
  - exact Demo_attention_wf.
  - constructor; reflexivity.
  - reflexivity.
  - repeat constructor.
Qed.

Lemma Demo_decoder_wf : Inv.decoder Demo.decoder.
Proof.
  constructor; cbn.
  - exact Demo_embedding_wf.
  - discriminate.
  - constructor; [exact Demo_layer_wf | constructor].
  - reflexivity.
Qed.

Lemma Decoder_forward_full_sequence_shapes_witness :
  exists out stacked g',
    Decoder.forward Demo.decoder (full2 1 3 1) Demo.enc_out Demo.src_pad
                    (full2 1 3 0) None 0 rng0
    = Ok (out, stacked, g') /\
    shape3 out = (1, 3, 4)%nat /\ shape4 stacked = (1, 1, 3, 4)%nat.
Proof.
  destruct (Decoder_forward_full_sequence_shapes Demo.decoder (full2 1 3 1)
              Demo.enc_out Demo.src_pad (full2 1 3 0) 0 rng0 2)
    as (out & stacked & g' & H & Ho & Hs & _).
  - exact Demo_decoder_wf.
  - cbn. lia.
  - apply Demo_ids_in_vocab. lia.
  - cbn. lia.
  - lia.
  - unfold default_max_len. cbn. lia.
  - reflexivity.
  - reflexivity.
  - intros b l _ _. left. reflexivity.
  - reflexivity.
  - exists out, stacked, g'. repeat split; assumption.
Defined.

Lemma Demo_full_step (L : nat) (id : Z) :
  (L <= 1000)%nat -> (0 <= id < 10)%Z ->
  exists out stacked g1,
    Decoder.forward Demo.decoder (full2 1 L id) Demo.enc_out Demo.src_pad
                    (full2 1 L 0) None 0 rng0
    = Ok (out, stacked, g1) /\
    shape3 out = (1, L, 4)%nat /\ shape4 stacked = (1, 1, L, 4)%nat.
Proof.
  intros HL Hid.
  destruct (Decoder_forward_full_ok Demo.decoder (full2 1 L id) Demo.enc_out
              Demo.src_pad (full2 1 L 0) 0 rng0 2)
    as (out & stacked & g' & H & Ho & Hs & _);
    try reflexivity.
  - exact Demo_decoder_wf.
  - cbn. lia.
  - apply Demo_ids_in_vocab. exact Hid.
  - exact HL.
  - unfold default_max_len. cbn. lia.
  - intros b l _ _. left. reflexivity.
  - exists out, stacked, g'. repeat split; assumption.
Qed.

(** C1 fails on the code.  Incremental decoding cannot be run: the decoder
    passes [None] as the self-attention mask whenever a cache is supplied,
    and attention dereferences the mask.  Every call with a cache raises.
    In the demo model the full-sequence call over three tokens returns; the
    first incremental step (one token, no cache) returns a cache; the second
    step, fed that cache, raises [AttributeError], so the incremental run
    has no final-step hidden state to compare. *)
Theorem Decoder_incremental_step_raises :
  (forall dec tgt enc_out src_pad tgt_pad cache timestep g,
     exists er,
       Decoder.forward dec tgt enc_out src_pad tgt_pad (Some cache) timestep g
       = Raise er) /\
  (exists out stacked g1,
     Decoder.forward Demo.decoder (full2 1 3 1) Demo.enc_out Demo.src_pad
                     (full2 1 3 0) None 0 rng0
     = Ok (out, stacked, g1)) /\
  (exists out0 cache0 g1,
     Decoder.forward Demo.decoder (full2 1 1 1) Demo.enc_out Demo.src_pad
                     (full2 1 1 0) None 0 rng0
     = Ok (out0, cache0, g1) /\
     Decoder.forward Demo.decoder (full2 1 1 1) Demo.enc_out Demo.src_pad
                     (full2 1 1 0) (Some cache0) 1 g1
     = Raise AttributeError).
Proof.
  split; [exact Decoder_forward_with_cache_raises|]. split.
  - destruct (Demo_full_step 3 1) as (out & stacked & g1 & H & _); try lia.
    exists out, stacked, g1. exact H.
  - destruct (Demo_full_step 1 1) as (out0 & cache0 & g1 & H0 & _ & Hc);
      try lia.
    exists out0, cache0, g1. split; [exact H0|].
    apply Demo_second_step_any. exact Hc.
Qed.

(** ** Masked keys *)


Lemma sum_n_ext (n : nat) (f f' : nat -> R) :
  (forall u, (u < n)%nat -> f' u = f u) -> sum_n n f' = sum_n n f.
Proof.
  induction n as [|n IH]; intros Hsame; [reflexivity|].
  cbn [sum_n]. rewrite IH, (Hsame n) by (intros; try apply Hsame; lia).
  reflexivity.
Qed.


Lemma sum_n_term_le (n u : nat) (f : nat -> R) :
  (forall i, 0 < f i) -> (u < n)%nat -> f u <= sum_n n f.
Proof.
  intros Hpos. induction n as [|n IH]; intros Hu; [lia|].
  cbn [sum_n].
  assert (Hnonneg : forall m, 0 <= sum_n m f).
  { induction m as [|m IHm]; cbn [sum_n]; [lra|].
    pose proof (Hpos m). lra. }
  destruct (Nat.eq_dec u n) as [->|Hne].
  - pose proof (Hnonneg n). lra.
  - pose proof (IH ltac:(lia)). pose proof (Hpos n). lra.
Qed.

Lemma head_index (hn dn n c : nat) :
  (0 < hn)%nat -> (0 < dn)%nat -> (c < hn * dn)%nat ->
  let i := (n * (hn * dn) + c)%nat in
  (i / (hn * dn) = n /\ i mod (hn * dn) = c /\
   (i / dn) mod hn = c / dn /\ i mod dn = c mod dn)%nat.
Proof.
  intros Hh Hd Hc i. subst i.
  assert (Hq : (c / dn < hn)%nat)
    by (apply Nat.Div0.div_lt_upper_bound; lia).
  repeat split.
  - rewrite Nat.div_add_l by lia. rewrite (Nat.div_small c) by lia. lia.
  - rewrite Nat.add_comm, Nat.Div0.mod_add. apply Nat.mod_small. lia.
  - replace (n * (hn * dn))%nat with (n * hn * dn)%nat by lia.
    rewrite Nat.div_add_l by lia.
    rewrite Nat.add_comm, Nat.Div0.mod_add. apply Nat.mod_small. exact Hq.
  - replace (n * (hn * dn))%nat with (n * hn * dn)%nat by lia.
    rewrite Nat.add_comm, Nat.Div0.mod_add. reflexivity.
Qed.

Lemma view_heads_value (c : bool) (h d : Z) (x : T3 R) (B L : nat) :
  (0 < h)%Z -> (0 < d)%Z -> (0 < B)%nat ->
  shape3 x = (B, L, (Z.to_nat h * Z.to_nat d)%nat) ->
  view_heads c h d x
  = Ok (mkT4 B L (Z.to_nat h) (Z.to_nat d)
          (fun b n j k =>
             let i := ((n * Z.to_nat h + j) * Z.to_nat d + k)%nat in
             at3 x b (i / (Z.to_nat h * Z.to_nat d))
                     (i mod (Z.to_nat h * Z.to_nat d)))).
Proof.
  intros Hh Hd HB Hx. shapes. unfold view_heads.
  replace (h <? 0)%Z with false by (symmetry; apply Z.ltb_ge; lia).
  replace (d <? 0)%Z with false by (symmetry; apply Z.ltb_ge; lia).
  cbn [orb].
  set (hn := Z.to_nat h) in *. set (dn := Z.to_nat d) in *.
  assert (Hk : (0 < hn * dn)%nat) by (subst hn dn; nia).
  destruct (Nat.eqb_spec (dim0 x) 0) as [|_]; [lia|].
  destruct (Nat.eqb_spec (hn * dn) 0) as [|_]; [lia|].
  cbn [orb].
  replace (dim1 x * dim2 x)%nat with (L * (hn * dn))%nat by congruence.
  rewrite Nat.Div0.mod_mul, Nat.eqb_refl. cbn [negb].
  replace (hn * dn =? dim2 x)%nat with true
    by (symmetry; apply Nat.eqb_eq; congruence).
  rewrite orb_true_r. cbn [orb].
  rewrite Nat.div_mul by lia.
  replace (dim2 x) with (hn * dn)%nat by congruence.
  replace (dim0 x) with B by congruence.
  reflexivity.
Qed.

Lemma sum_n_scale (n : nat) (f : nat -> R) (c : R) :
  sum_n n (fun k => f k * c) = sum_n n f * c.
Proof.
  induction n as [|n IH]; cbn [sum_n]; [ring | rewrite IH; ring].
Qed.

Lemma sum_n_le (n : nat) (f f' : nat -> R) :
  (forall k, (k < n)%nat -> f k <= f' k) -> sum_n n f <= sum_n n f'.
Proof.
  induction n as [|n IH]; intros H; cbn [sum_n]; [lra|].
  pose proof (IH ltac:(intros k Hk; apply H; lia)).
  pose proof (H n ltac:(lia)). lra.
Qed.











(** ** The constructors establish the shape invariants *)

Lemma Linear_init_dims (i o : Z) (w : nat -> nat -> R) (b : nat -> R)
    (l : nn.Linear.t) :
  nn.Linear.init i o w b = Ok l ->
  Inv.linear_dims l (Z.to_nat i) (Z.to_nat o).
Proof.
  unfold nn.Linear.init.
  destruct ((i <? 0)%Z || (o <? 0)%Z); [discriminate|].
  intros H; injection H as <-. split; reflexivity.
Qed.

Lemma Linear_init_sizes (i o : Z) (w : nat -> nat -> R) (b : nat -> R)
    (l : nn.Linear.t) :
  nn.Linear.init i o w b = Ok l -> (0 <= i)%Z /\ (0 <= o)%Z.
Proof.
  unfold nn.Linear.init.
  destruct ((i <? 0)%Z || (o <? 0)%Z) eqn:Hneg; [discriminate|].
  intros _. apply orb_false_iff in Hneg. destruct Hneg as [Hi Ho].
  apply Z.ltb_ge in Hi, Ho. split; assumption.
Qed.

Lemma reset_linear_dims (l l' : nn.Linear.t) (w : nat -> nat -> R) (c : R)
    (i o : nat) :
  nn.init.xavier_uniform_ l w = Ok l' -> Inv.linear_dims l i o ->
  Inv.linear_dims (nn.init.constant_ l' c) i o.
Proof.
  intros H [Hi Ho]. destruct (xavier_uniform_dims _ _ _ H) as (Hi' & Ho' & _).
  split; cbn; congruence.
Qed.

(** What a successful construction of an attention instance fixes. *)
Lemma MultiHeadedAttention_init_parts (h D : Z) (p : R)
    (w : MultiHeadedAttention.draws) (a : MultiHeadedAttention.t) :
  MultiHeadedAttention.init h D p w = Ok a ->
  (0 < D)%Z /\ h <> 0%Z /\
  MultiHeadedAttention.head_count a = h /\
  MultiHeadedAttention.dim_per_head a = (D / h)%Z /\
  Inv.linear_dims (MultiHeadedAttention.linear_q a) (Z.to_nat D) (Z.to_nat D) /\
  Inv.linear_dims (MultiHeadedAttention.linear_kv a) (Z.to_nat D)
                  (Z.to_nat (D * 2)) /\
  Inv.linear_dims (MultiHeadedAttention.linear_qkv a) (Z.to_nat D)
                  (Z.to_nat (D * 3)) /\
  Inv.linear_dims (MultiHeadedAttention.final_linear a) (Z.to_nat D)
                  (Z.to_nat D).
Proof.
  intros H. unfold MultiHeadedAttention.init in H.
  bind_split H as dph Hdph. bind_split H as lq Hlq. bind_split H as lkv Hlkv.
  bind_split H as lqkv Hlqkv. bind_split H as drop Hdrop.
  bind_split H as lfinal Hlfinal.
  unfold MultiHeadedAttention.reset_parameters in H.
  cbn [MultiHeadedAttention.linear_q MultiHeadedAttention.linear_kv
       MultiHeadedAttention.linear_qkv MultiHeadedAttention.final_linear
       MultiHeadedAttention.dim_per_head MultiHeadedAttention.head_count
       MultiHeadedAttention.dropout] in H.
  bind_split H as xq Hxq. bind_split H as xkv Hxkv.
  bind_split H as xqkv Hxqkv. bind_split H as xfinal Hxfinal.
  injection H as <-.
  unfold floordiv in Hdph.
  destruct (Z.eqb_spec h 0) as [|Hh]; [discriminate|]. injection Hdph as <-.
  pose proof (Linear_init_dims _ _ _ _ _ Hlq) as Hdq.
  assert (HD : (0 < D)%Z).
  { destruct (Linear_init_sizes _ _ _ _ _ Hlq) as [H0 _].
    destruct (xavier_uniform_dims _ _ _ Hxq) as (_ & _ & Hfan).
    destruct Hdq as [Hi Ho]. lia. }
  cbn [MultiHeadedAttention.linear_q MultiHeadedAttention.linear_kv
       MultiHeadedAttention.linear_qkv MultiHeadedAttention.final_linear
       MultiHeadedAttention.dim_per_head MultiHeadedAttention.head_count].
  split; [exact HD|]. split; [exact Hh|].
  split; [reflexivity|]. split; [reflexivity|].
  split; [exact (reset_linear_dims _ _ _ _ _ _ Hxq Hdq)|].
  split;
    [exact (reset_linear_dims _ _ _ _ _ _ Hxkv
              (Linear_init_dims _ _ _ _ _ Hlkv))|].
  split;
    [exact (reset_linear_dims _ _ _ _ _ _ Hxqkv
              (Linear_init_dims _ _ _ _ _ Hlqkv))|].
  exact (reset_linear_dims _ _ _ _ _ _ Hxfinal
           (Linear_init_dims _ _ _ _ _ Hlfinal)).
Qed.

Lemma MultiHeadedAttention_init_wf (h D : Z) (p : R)
    (w : MultiHeadedAttention.draws) (a : MultiHeadedAttention.t) :
  (0 < h)%Z -> (0 < D)%Z -> (D mod h = 0)%Z ->
  MultiHeadedAttention.init h D p w = Ok a ->
  Inv.attention (Z.to_nat D) a.
Proof.
  intros Hh HD Hdiv H.
  destruct (MultiHeadedAttention_init_parts _ _ _ _ _ H)
    as (_ & _ & Hhc & Hdph & Hq & [Hkvi Hkvo] & [Hqkvi Hqkvo] & Hfinal).
  assert (Hexact : (h * (D / h) = D)%Z).
  { pose proof (Z.div_mod D h ltac:(lia)). lia. }
  assert (Hpos : (0 < D / h)%Z) by nia.
  constructor.
  - rewrite Hhc. exact Hh.
  - rewrite Hdph. exact Hpos.
  - rewrite Hhc, Hdph, <- Z2Nat.inj_mul by lia. rewrite Hexact. reflexivity.
  - exact Hq.
  - split; [exact Hkvi | lia].
  - split; [exact Hqkvi | lia].
  - exact Hfinal.
Qed.

Lemma FeedForward_init_wf (D inner : Z) (p : R) (w : FeedForward.draws)
    (ff : FeedForward.t) :
  FeedForward.init D inner p w = Ok ff -> Inv.feed_forward (Z.to_nat D) ff.
Proof.
  intros H. unfold FeedForward.init in H.
  bind_split H as l1 Hl1. bind_split H as l2 Hl2. bind_split H as drop Hdrop.
  unfold FeedForward.reset_parameters in H.
  cbn [FeedForward.linear_in FeedForward.linear_out FeedForward.dropout] in H.
  bind_split H as x1 Hx1. bind_split H as x2 Hx2.
  injection H as <-.
  destruct (reset_linear_dims _ _ _ 0 _ _ Hx1 (Linear_init_dims _ _ _ _ _ Hl1))
    as [Hi Ho].
  destruct (reset_linear_dims _ _ _ 0 _ _ Hx2 (Linear_init_dims _ _ _ _ _ Hl2))
    as [Hi' Ho'].
  constructor; cbn [FeedForward.linear_in FeedForward.linear_out]; congruence.
Qed.

Lemma collect_Forall {A : Type} (f : nat -> Result A) (P : A -> Prop) :
  (forall i a, f i = Ok a -> P a) ->
  forall n start l, collect f start n = Ok l -> Forall P l /\ length l = n.
Proof.
  intros Hf. induction n as [|n IH]; intros start l H; cbn in H.
  - injection H as <-. split; [constructor | reflexivity].
  - bind_split H as x Hx. bind_split H as rest Hrest. injection H as <-.
    destruct (IH _ _ Hrest) as [Hall Hlen].
    split; [constructor; [eapply Hf; eassumption | exact Hall] | cbn; congruence].
Qed.

Lemma LayerNorm_init_dims (D : Z) (n : nn.LayerNorm.t) :
  nn.LayerNorm.init D = Ok n -> nn.LayerNorm.normalized_shape n = Z.to_nat D.
Proof.
  unfold nn.LayerNorm.init. destruct (D <? 0)%Z; [discriminate|].
  intros H; injection H as <-. reflexivity.
Qed.

Lemma DecoderLayer_init_wf (D : Z) (p : R) (h ff_size : Z)
    (w : DecoderLayer.draws) (layer : DecoderLayer.t) :
  (0 < h)%Z -> (0 < D)%Z -> (D mod h = 0)%Z ->
  DecoderLayer.init D p h ff_size w = Ok layer ->
  Inv.decoder_layer (Z.to_nat D) layer.
Proof.
  intros Hh HD Hdiv H. unfold DecoderLayer.init in H.
  bind_split H as sa Hsa. bind_split H as ca Hca. bind_split H as ff Hff.
  bind_split H as norms Hnorms. bind_split H as drop Hdrop.
  injection H as <-.
  destruct (collect_Forall (fun _ => nn.LayerNorm.init D)
              (fun n => nn.LayerNorm.normalized_shape n = Z.to_nat D)
              (fun _ n Hn => LayerNorm_init_dims D n Hn) 3 0%nat _ Hnorms)
    as [Hall Hlen].
  constructor; cbn.
  - exact (MultiHeadedAttention_init_wf _ _ _ _ _ Hh HD Hdiv Hsa).
  - exact (MultiHeadedAttention_init_wf _ _ _ _ _ Hh HD Hdiv Hca).
  - exact (FeedForward_init_wf _ _ _ _ _ Hff).
  - exact Hlen.
  - exact Hall.
Qed.

(** A decoder built by [Decoder.init] with at least one layer, a head count
    that divides the hidden size, and an embedding of that size built by
    [Embedding.init], satisfies [Inv.decoder]. *)
Lemma Decoder_init_wf (num_layers num_heads hidden_size : Z) (p : R)
    (ff_size : Z) (e : Embedding.t) (w : nat -> DecoderLayer.draws)
    (dec : Decoder.t) :
  (0 < num_layers)%Z -> (0 < num_heads)%Z ->
  (hidden_size mod num_heads = 0)%Z ->
  EmbeddingInv.wf e -> Embedding.embedding_dim e = hidden_size ->
  Decoder.init num_layers num_heads hidden_size p ff_size e w = Ok dec ->
  Inv.decoder dec.
Proof.
  intros Hn Hh Hdiv He Hdim H. unfold Decoder.init in H.
  bind_split H as ls Hls. injection H as <-.
  assert (HD : (0 < hidden_size)%Z)
    by (rewrite <- Hdim; exact (EmbeddingInv.dim_pos He)).
  destruct (collect_Forall
              (fun i => DecoderLayer.init hidden_size p num_heads ff_size (w i))
              (Inv.decoder_layer (Z.to_nat hidden_size))
              (fun i l Hl => DecoderLayer_init_wf _ _ _ _ _ _ Hh HD Hdiv Hl)
              _ _ _ Hls) as [Hall Hlen].
  constructor; cbn.
  - exact He.
  - intros ->. cbn in Hlen. lia.
  - unfold Inv.model_dim. cbn. rewrite Hdim. exact Hall.
  - reflexivity.
Qed.

(* ================================================================== *)
(** * Further properties of the code *)
(* ================================================================== *)

(** ** The two generators of positional tables *)

(** X1.  For [embedding_dim >= 4], [positional_encoding_1] returns a table
    with [2 * (embedding_dim // 2)] columns, one fewer than [embedding_dim]
    when that is odd: the first half holds the sines and the second half
    the cosines of [p / 10000^(i / (half - 1))], so the last frequency is
    exactly [1/10000]. *)
Theorem positional_encoding_1_halves (embedding_dim max_len : Z) :
  (4 <= embedding_dim)%Z -> (0 <= max_len)%Z ->
  let half := Z.to_nat (embedding_dim / 2) in
  exists pe,
    positional_encoding_1 embedding_dim max_len = Ok pe /\
    shape2 pe = (Z.to_nat max_len, (2 * half)%nat) /\
    (Z.of_nat (cols pe) = embedding_dim <-> Z.even embedding_dim = true) /\
    (forall p i, (i < half)%nat ->
       at2 pe p i
       = sin (INR p / Rpower 10000 (INR i / INR (half - 1))) /\
       at2 pe p (half + i)
       = cos (INR p / Rpower 10000 (INR i / INR (half - 1)))) /\
    (forall p, at2 pe p (half - 1) = sin (INR p / 10000)).
Proof.
  intros Hdim Hlen half.
  assert (Hhalf : (2 <= embedding_dim / 2)%Z)
    by (apply Z.div_le_lower_bound; lia).
  unfold positional_encoding_1.
  replace (max_len <? 0)%Z with false by (symmetry; apply Z.ltb_ge; lia).
  replace (embedding_dim / 2 <? 0)%Z with false
    by (symmetry; apply Z.ltb_ge; lia).
  replace (embedding_dim / 2 - 1 =? 0)%Z with false
    by (symmetry; apply Z.eqb_neq; lia).
  cbn [orb]. fold half.
  assert (Hterm : forall x i,
            x * div_term_1 (embedding_dim / 2) i
            = x / Rpower 10000 (INR i / INR (half - 1))).
  { intros x i. unfold div_term_1, Rpower, Rdiv.
    rewrite <- exp_Ropp. f_equal. f_equal.
    replace (INR (half - 1)) with (IZR (embedding_dim / 2 - 1)).
    - ring.
    - unfold half. rewrite INR_IZR_INZ. f_equal. lia. }
  eexists. split; [reflexivity|].
  split; [unfold shape2; cbn; f_equal; lia|]. split; [|split].
  - cbn [cols]. pose proof (Z.div_mod embedding_dim 2 ltac:(lia)) as Hdm.
    pose proof (Zmod_even embedding_dim) as Hev.
    unfold half.
    destruct (Z.even embedding_dim); split; intros; (reflexivity || lia).
  - intros p i Hi. cbn [at2].
    destruct (Nat.ltb_spec i half) as [_|]; [|lia].
    destruct (Nat.ltb_spec (half + i) half) as [|_]; [lia|].
    replace (half + i - half)%nat with i by lia.
    rewrite !Hterm. split; reflexivity.
  - intros p. cbn [at2].
    assert (H2 : (2 <= half)%nat) by (unfold half; lia).
    destruct (Nat.ltb_spec (half - 1) half) as [_|]; [|lia].
    rewrite Hterm. f_equal. f_equal.
    unfold Rdiv. rewrite Rinv_r.
    + apply Rpower_1. lra.
    + apply not_0_INR. lia.
Qed.

Lemma positional_encoding_1_halves_witness :
  exists pe,
    positional_encoding_1 5 3 = Ok pe /\
    shape2 pe = (3%nat, 4%nat) /\
    at2 pe 2 1 = sin (INR 2 / 10000).
Proof.
  destruct (positional_encoding_1_halves 5 3) as (pe & H & Hs & _ & _ & Hlast);
    [lia | lia |].
  exists pe. split; [exact H|]. split; [exact Hs|]. exact (Hlast 2%nat).
Defined.

(** X2.  [positional_encoding_1] cannot build a table of embedding size 2 or
    3: the frequency step divides by [(embedding_dim // 2) - 1 = 0]. *)
Theorem positional_encoding_1_small_dim (embedding_dim max_len : Z) :
  (2 <= embedding_dim <= 3)%Z -> (0 <= max_len)%Z ->
  positional_encoding_1 embedding_dim max_len = Raise ZeroDivisionError.
Proof.
  intros Hdim Hlen. unfold positional_encoding_1.
  assert (Hhalf : (embedding_dim / 2 = 1)%Z).
  { symmetry. apply (Z.div_unique embedding_dim 2 1 (embedding_dim - 2)); lia. }
  rewrite Hhalf.
  replace (max_len <? 0)%Z with false by (symmetry; apply Z.ltb_ge; lia).
  reflexivity.
Qed.

Lemma positional_encoding_1_small_dim_witness :
  positional_encoding_1 3 5000 = Raise ZeroDivisionError.
Proof. apply positional_encoding_1_small_dim; lia. Defined.

Lemma positional_encoding_2_inv (dim max_len : Z) (pe : T2 R) :
  positional_encoding_2 dim max_len = Ok pe ->
  pe = mkT2 (Z.to_nat max_len) (Z.to_nat dim)
            (fun p c =>
               if Nat.even c
               then sin (INR p * div_term dim (c / 2))
               else cos (INR p * div_term dim (c / 2))).
Proof.
  unfold positional_encoding_2.
  destruct ((max_len <? 0)%Z || (dim <? 0)%Z); [discriminate|].
  destruct (dim =? 0)%Z; [discriminate|].
  destruct (expandable _ _); [|discriminate].
  intros H; injection H as <-. reflexivity.
Qed.

Lemma positional_encoding_2_bad_dim (dim max_len : Z) :
  (0 <= max_len)%Z ->
  (dim <= 0 \/ (3 <= dim /\ Z.odd dim = true))%Z ->
  positional_encoding_2 dim max_len
  = Raise (if (dim =? 0)%Z then ZeroDivisionError else RuntimeError).
Proof.
  intros Hlen Hdim. unfold positional_encoding_2.
  replace (max_len <? 0)%Z with false by (symmetry; apply Z.ltb_ge; lia).
  cbn [orb].
  destruct (Z.ltb_spec dim 0) as [Hneg|Hnonneg].
  - destruct (Z.eqb_spec dim 0); [lia | reflexivity].
  - destruct (Z.eqb_spec dim 0) as [|Hnz]; [reflexivity|].
    destruct Hdim as [|[H3 Hodd]]; [lia|].
    pose proof (Zmod_odd dim) as Hm. rewrite Hodd in Hm.
    pose proof (Z.div_mod dim 2 ltac:(lia)) as Hdm.
    assert (He : ((dim + 1) / 2 = dim / 2 + 1)%Z).
    { symmetry. apply (Z.div_unique (dim + 1) 2 (dim / 2 + 1) 0); lia. }
    unfold expandable. rewrite He.
    destruct (Nat.eqb_spec (Z.to_nat (dim / 2 + 1)) (Z.to_nat (dim / 2)));
      [lia|].
    destruct (Nat.eqb_spec (Z.to_nat (dim / 2 + 1)) 1); [lia|].
    reflexivity.
Qed.

(** X3.  An [Embedding] cannot be constructed with a non-positive
    [embedding_dim] or with an odd one above 1, whatever the other
    arguments: the positional table is built first, and its generator
    raises ([ZeroDivisionError] for 0, [RuntimeError] otherwise). *)
Theorem Embedding_init_rejects_dim (embedding_dim vocab_size : Z)
    (padding_idx : option Z) (dropout : R) (normal : nat -> nat -> R) :
  (embedding_dim <= 0 \/ (3 <= embedding_dim /\ Z.odd embedding_dim = true))%Z ->
  Embedding.init embedding_dim vocab_size padding_idx dropout normal
  = Raise (if (embedding_dim =? 0)%Z then ZeroDivisionError
           else RuntimeError).
Proof.
  intros Hdim. unfold Embedding.init.
  rewrite positional_encoding_2_bad_dim
    by (assumption || (unfold default_max_len; lia)).
  reflexivity.
Qed.

Lemma Embedding_init_rejects_dim_witness :
  Embedding.init 7 10 (Some 0%Z) 0 zeros = Raise RuntimeError /\
  Embedding.init 0 10 (Some 0%Z) 0 zeros = Raise ZeroDivisionError.
Proof.
  split.
  - apply (Embedding_init_rejects_dim 7 10 (Some 0%Z) 0 zeros).
    right. split; [lia | reflexivity].
  - apply (Embedding_init_rejects_dim 0 10 (Some 0%Z) 0 zeros).
    left. lia.
Defined.

(** X4.  Every entry of a table built by [positional_encoding_2] lies in
    [-1, 1], and the row of position 0 alternates 0 (even columns) and 1
    (odd columns). *)
Theorem positional_encoding_2_range (dim max_len : Z) (pe : T2 R) :
  positional_encoding_2 dim max_len = Ok pe ->
  forall p c,
    -1 <= at2 pe p c <= 1 /\
    at2 pe 0 c = (if Nat.even c then 0 else 1).
Proof.
  intros H p c. apply positional_encoding_2_inv in H. subst pe. cbn [at2].
  split.
  - destruct (Nat.even c); [apply SIN_bound | apply COS_bound].
  - cbn [INR]. rewrite Rmult_0_l.
    destruct (Nat.even c); [apply sin_0 | apply cos_0].
Qed.

Lemma positional_encoding_2_range_witness :
  exists pe, positional_encoding_2 4 6 = Ok pe /\
             -1 <= at2 pe 5 3 <= 1 /\ at2 pe 0 3 = 1.
Proof.
  eexists. split; [apply positional_encoding_2_ok; (lia || reflexivity)|].
  apply (positional_encoding_2_range 4 6).
  apply positional_encoding_2_ok; (lia || reflexivity).
Defined.

(** ** The embedding *)

Lemma nn_Embedding_forward_out_of_vocab (emb : nn.Embedding.t) (x : T2 Z)
    (b l : nat) :
  (b < rows x)%nat -> (l < cols x)%nat ->
  nn.Embedding.in_vocab emb (at2 x b l) = false ->
  nn.Embedding.forward emb x = Raise IndexError.
Proof.
  intros Hb Hl Hout. unfold nn.Embedding.forward.
  destruct (all_below (rows x) _) eqn:Hall; [|reflexivity].
  rewrite all_below_spec in Hall. specialize (Hall b Hb).
  rewrite all_below_spec in Hall. specialize (Hall l Hl).
  congruence.
Qed.

(** X5.  A token id outside the vocabulary makes the embedding raise
    [IndexError] before anything else is looked at; the encoder and the
    decoder, which embed their tokens first, raise it too, whatever their
    other arguments. *)
Theorem out_of_vocabulary_raises_IndexError (e : Embedding.t) (x : T2 Z)
    (b l : nat) :
  (b < rows x)%nat -> (l < cols x)%nat ->
  nn.Embedding.in_vocab (Embedding.embedding e) (at2 x b l) = false ->
  (forall t g, Embedding.forward e x t g = Raise IndexError) /\
  (forall enc src_pad g,
     Encoder.embedding enc = e ->
     Encoder.forward enc x src_pad g = Raise IndexError) /\
  (forall dec enc_out src_pad tgt_pad previous t g,
     Decoder.embedding dec = e ->
     Decoder.forward dec x enc_out src_pad tgt_pad previous t g
     = Raise IndexError).
Proof.
  intros Hb Hl Hout.
  assert (He : forall t g, Embedding.forward e x t g = Raise IndexError).
  { intros t g. unfold Embedding.forward, mbind, lift.
    rewrite (nn_Embedding_forward_out_of_vocab _ x b l Hb Hl Hout).
    reflexivity. }
  split; [exact He|]. split.
  - intros enc src_pad g <-. unfold Encoder.forward, mbind.
    rewrite He. reflexivity.
  - intros dec enc_out src_pad tgt_pad previous t g <-.
    unfold Decoder.forward, mbind. rewrite He. reflexivity.
Qed.

Lemma out_of_vocabulary_raises_IndexError_witness :
  Embedding.forward Demo.embedding (full2 1 2 10) 0 rng0 = Raise IndexError /\
  Decoder.forward Demo.decoder (full2 1 2 (-1)) Demo.enc_out Demo.src_pad
                  (full2 1 2 0) None 0 rng0
  = Raise IndexError.
Proof.
  split.
  - destruct (out_of_vocabulary_raises_IndexError Demo.embedding
                (full2 1 2 10) 0 0) as [H _];
      [cbn; lia | cbn; lia | reflexivity |].
    apply H.
  - destruct (out_of_vocabulary_raises_IndexError Demo.embedding
                (full2 1 2 (-1)) 0 0) as (_ & _ & H);
      [cbn; lia | cbn; lia | reflexivity |].
    apply H. reflexivity.
Defined.

(** X6.  A negative [timestep] is not rejected: when the whole range
    [timestep .. timestep + L) is negative and not below [-5000], the slice
    counts from the end of the table, and [forward] adds the rows
    [5000 + timestep + l] as positions. *)
Theorem Embedding_forward_negative_timestep (e : Embedding.t) (x : T2 Z)
    (t : Z) (g : rng) :
  EmbeddingInv.wf e -> EmbeddingInv.ids_in_vocab e x ->
  (- default_max_len <= t)%Z -> (t + Z.of_nat (cols x) < 0)%Z ->
  let d := Z.to_nat (Embedding.embedding_dim e) in
  let s := sqrt (IZR (Embedding.embedding_dim e)) in
  let E := nn.Embedding.weight (Embedding.embedding e) in
  exists v,
    same3 v (mkT3 (rows x) (cols x) d
               (fun b l c =>
                  (at2 E (Z.to_nat (at2 x b l)) c * s
                   + at2 (Embedding.pe e)
                         (Z.to_nat (default_max_len + t) + l) c) * s)) /\
    Embedding.forward e x t g
    = nn.Dropout.forward3 (Embedding.dropout e) v g.
Proof.
  intros Hwf Hids Hlow Hneg d s E.
  rewrite (Embedding_forward_unfold e x t g Hwf Hids).
  pose proof (EmbeddingInv.pe_rows Hwf) as Hrows.
  assert (Hstart : slice_start (Z.of_nat (rows (Embedding.pe e))) t
                   = Z.to_nat (default_max_len + t)).
  { unfold slice_start, slice_bound. rewrite Hrows.
    replace (t <? 0)%Z with true by (symmetry; apply Z.ltb_lt; lia).
    f_equal. unfold default_max_len in *. lia. }
  assert (Hlen : slice_len (Z.of_nat (rows (Embedding.pe e))) t
                           (t + Z.of_nat (cols x)) = cols x).
  { unfold slice_len, slice_bound. rewrite Hrows.
    replace (t <? 0)%Z with true by (symmetry; apply Z.ltb_lt; lia).
    replace (t + Z.of_nat (cols x) <? 0)%Z with true
      by (symmetry; apply Z.ltb_lt; lia).
    unfold default_max_len in *. lia. }
  cbn [slice_rows rows]. rewrite Hlen, broadcast_dim_same.
  eexists. split; [|reflexivity].
  split; [reflexivity|].
  cbn [dim0 dim1 dim2 at3]. intros b l c Hb Hl Hc.
  rewrite !bidx_in_range by assumption.
  cbn [slice_rows at2]. rewrite Hstart. reflexivity.
Qed.

Lemma Embedding_forward_negative_timestep_witness :
  exists v,
    same3 v (mkT3 1 2 4
               (fun b l c =>
                  (at2 (mkT2 10 4 zeros) (Z.to_nat 1) c * sqrt (IZR 4)
                   + at2 Demo.pe (Z.to_nat (default_max_len + -5) + l) c)
                  * sqrt (IZR 4))) /\
    Embedding.forward Demo.embedding (full2 1 2 1) (-5) rng0
    = nn.Dropout.forward3 Demo.no_dropout v rng0.
Proof.
  apply (Embedding_forward_negative_timestep Demo.embedding (full2 1 2 1)
           (-5) rng0).
  - exact Demo_embedding_wf.
  - apply Demo_ids_in_vocab. lia.
  - unfold default_max_len. lia.
  - cbn. lia.
Defined.

Lemma Embedding_init_inv (dim vocab : Z) (pad : option Z) (p : R)
    (normal : nat -> nat -> R) (e : Embedding.t) :
  Embedding.init dim vocab pad p normal = Ok e ->
  (0 <= vocab)%Z /\
  Embedding.embedding_dim e = dim /\
  exists is_pad,
    Embedding.padding_rows (Z.to_nat vocab) pad = Ok is_pad /\
    nn.Embedding.weight (Embedding.embedding e)
    = mkT2 (Z.to_nat vocab) (Z.to_nat dim)
           (fun r c => if is_pad r then 0 else normal r c).
Proof.
  unfold Embedding.init. intros H.
  bind_split H as pe Hpe. bind_split H as emb Hemb. bind_split H as drop Hdrop.
  unfold Embedding.reset_parameters in H. bind_split H as is_pad Hpad.
  injection H as <-.
  pose proof (nn_Embedding_init_shape _ _ _ _ _ Hemb) as Hw.
  unfold Embedding.padding_idx in Hpad.
  cbn [Embedding.word_padding_idx Embedding.embedding] in Hpad.
  rewrite Hw in Hpad. cbn [rows] in Hpad.
  split.
  - unfold nn.Embedding.init in Hemb.
    destruct pad as [i|];
      repeat match type of Hemb with
             | (if ?c then _ else _) = _ => destruct c eqn:?
             end; try discriminate.
    + rewrite negb_false_iff, andb_true_iff in *. lia.
    + rewrite andb_true_iff in *. lia.
  - split; [reflexivity|].
    exists is_pad. split; [exact Hpad|].
    cbn [Embedding.embedding nn.Embedding.weight]. rewrite Hw. reflexivity.
Qed.


(** X7.  After construction with a padding index [i], the index is within
    [-vocab_size, vocab_size), the row it designates (counted from the end
    when negative) is zero, and every other row holds the initialiser's
    draw. *)
Theorem Embedding_init_padding_row (dim vocab i : Z) (p : R)
    (normal : nat -> nat -> R) (e : Embedding.t) :
  Embedding.init dim vocab (Some i) p normal = Ok e ->
  let r := (if i <? 0 then i + vocab else i)%Z in
  let W := nn.Embedding.weight (Embedding.embedding e) in
  (0 <= r < vocab)%Z /\
  forall c,
    at2 W (Z.to_nat r) c = 0 /\
    forall r', r' <> Z.to_nat r -> at2 W r' c = normal r' c.
Proof.
  intros H r W. destruct (Embedding_init_inv _ _ _ _ _ _ H)
    as (Hvocab & _ & is_pad & Hpad & Hw).
  unfold Embedding.padding_rows in Hpad.
  rewrite Z2Nat.id in Hpad by exact Hvocab.
  destruct ((i <? - vocab)%Z || (vocab <=? i)%Z) eqn:Hrange; [discriminate|].
  injection Hpad as <-.
  apply orb_false_iff in Hrange. destruct Hrange as [Hlo Hhi].
  apply Z.ltb_ge in Hlo. apply Z.leb_gt in Hhi.
  split.
  - subst r. destruct (Z.ltb_spec i 0); lia.
  - intros c. subst W. rewrite Hw. cbn [at2]. fold r. split.
    + rewrite Nat.eqb_refl. reflexivity.
    + intros r' Hne.
      destruct (Nat.eqb_spec r' (Z.to_nat r)); [contradiction | reflexivity].
Qed.

Lemma Embedding_init_padding_row_witness :
  exists e,
    Embedding.init 4 10 (Some 0%Z) 0 (fun _ _ => 1) = Ok e /\
    at2 (nn.Embedding.weight (Embedding.embedding e)) 0 2 = 0 /\
    at2 (nn.Embedding.weight (Embedding.embedding e)) 3 2 = 1.
Proof.
  destruct (Embedding_init_ok 4 10 0 0 (fun _ _ => 1)) as [e He];
    [lia | reflexivity | lia | lra |].
  exists e. split; [exact He|].
  destruct (Embedding_init_padding_row 4 10 0 0 (fun _ _ => 1) e He)
    as [_ Hrows].
  destruct (Hrows 2%nat) as [H0 Hother].
  split; [exact H0|]. apply Hother. cbn. lia.
Defined.

(** X8.  After construction without a padding index ([None]), the whole
    embedding table is zero: [reset_parameters] indexes the weight with the
    padding index and zeroes what that selects, and [None] selects every
    row. *)
Theorem Embedding_init_without_padding_zeroes_table (dim vocab : Z) (p : R)
    (normal : nat -> nat -> R) (e : Embedding.t) :
  Embedding.init dim vocab None p normal = Ok e ->
  forall r c, at2 (nn.Embedding.weight (Embedding.embedding e)) r c = 0.
Proof.
  intros H r c. destruct (Embedding_init_inv _ _ _ _ _ _ H)
    as (_ & _ & is_pad & Hpad & Hw).
  cbn in Hpad. injection Hpad as <-. rewrite Hw. reflexivity.
Qed.

Lemma Embedding_init_none_ok (dim vocab : Z) (p : R)
    (normal : nat -> nat -> R) :
  (0 < dim)%Z -> Z.even dim = true -> (0 <= vocab)%Z -> 0 <= p <= 1 ->
  exists e, Embedding.init dim vocab None p normal = Ok e.
Proof.
  intros Hd He Hv Hp. unfold Embedding.init.
  rewrite positional_encoding_2_ok
    by (assumption || (unfold default_max_len; lia)).
  cbn [bind]. unfold nn.Embedding.init.
  replace (0 <=? vocab)%Z with true by (symmetry; apply Z.leb_le; lia).
  replace (0 <=? dim)%Z with true by (symmetry; apply Z.leb_le; lia).
  cbn [andb bind].
  rewrite Dropout_init_ok by assumption. cbn [bind].
  eexists. reflexivity.
Qed.

Lemma Embedding_init_without_padding_zeroes_table_witness :
  exists e,
    Embedding.init 4 10 None 0 (fun _ _ => 1) = Ok e /\
    at2 (nn.Embedding.weight (Embedding.embedding e)) 3 2 = 0.
Proof.
  destruct (Embedding_init_none_ok 4 10 0 (fun _ _ => 1)) as [e He];
    [lia | reflexivity | lia | lra |].
  exists e. split; [exact He|].
  exact (Embedding_init_without_padding_zeroes_table 4 10 0 _ e He 3%nat 2%nat).
Defined.




(** ** Multi-head attention *)

(** X10.  For an attention instance whose heads tile the model size,
    [split_head] gives head [j] of position [n] the columns
    [j * dim_per_head .. (j + 1) * dim_per_head) of the feature vector, and
    [combine_head] undoes [split_head]. *)
Theorem combine_head_split_head (a : MultiHeadedAttention.t) (c : bool)
    (x : T3 R) (B L D : nat) :
  Inv.attention D a -> (0 < B)%nat -> shape3 x = (B, L, D) ->
  let hn := Z.to_nat (MultiHeadedAttention.head_count a) in
  let dn := Z.to_nat (MultiHeadedAttention.dim_per_head a) in
  exists y z,
    MultiHeadedAttention.split_head a c x = Ok y /\
    shape4 y = (B, hn, L, dn) /\
    (forall b j n k, (j < hn)%nat -> (k < dn)%nat ->
       at4 y b j n k = at3 x b n (j * dn + k)) /\
    MultiHeadedAttention.combine_head a y = Ok z /\
    same3 z x.
Proof.
  intros Hwf HB Hx hn dn.
  destruct Hwf as [Hh Hd Ht _ _ _ _]. fold hn dn in Ht.
  assert (Hhn : (0 < hn)%nat) by (subst hn; lia).
  assert (Hdn : (0 < dn)%nat) by (subst dn; lia).
  assert (Hx' : shape3 x = (B, L, (hn * dn)%nat)) by (rewrite Ht; exact Hx).
  unfold MultiHeadedAttention.split_head.
  rewrite (view_heads_value c _ _ x B L Hh Hd HB Hx'). cbn [bind].
  fold hn dn.
  eexists. eexists. split; [reflexivity|]. split; [reflexivity|].
  split.
  - intros b j n k Hj Hk. cbn [transpose12 at4].
    assert (Hc : (j * dn + k < hn * dn)%nat) by nia.
    destruct (head_index hn dn n (j * dn + k) Hhn Hdn Hc) as (Hq & Hr & _ & _).
    replace ((n * hn + j) * dn + k)%nat with (n * (hn * dn) + (j * dn + k))%nat
      by lia.
    rewrite Hq, Hr. reflexivity.
  - unfold MultiHeadedAttention.combine_head, view_merge.
    replace (MultiHeadedAttention.head_count a
             * MultiHeadedAttention.dim_per_head a <? 0)%Z with false
      by (symmetry; apply Z.ltb_ge; nia).
    replace (Z.to_nat (MultiHeadedAttention.head_count a
                       * MultiHeadedAttention.dim_per_head a))
      with (hn * dn)%nat by (subst hn dn; rewrite Z2Nat.inj_mul; lia).
    cbn [transpose12 size0 size1 size2 size3 at4].
    destruct (Nat.eqb_spec B 0) as [|_]; [lia|].
    destruct (Nat.eqb_spec (hn * dn) 0) as [|_]; [nia|].
    cbn [orb].
    replace (L * hn * dn)%nat with (L * (hn * dn))%nat by lia.
    rewrite Nat.Div0.mod_mul, Nat.eqb_refl. cbn [negb].
    rewrite Nat.div_mul by nia.
    split; [reflexivity|].
    unfold same3. shapes. split; [unfold shape3; cbn; congruence|].
    cbn [dim0 dim1 dim2 at3]. intros b n k Hb Hn Hk.
    destruct (head_index hn dn n k Hhn Hdn Hk) as (Hq & Hr & Hj & Hm).
    cbv zeta in Hq, Hr, Hj, Hm. rewrite Hq, Hj, Hm.
    replace ((n * hn + k / dn) * dn + k mod dn)%nat
      with (n * (hn * dn) + k)%nat.
    + rewrite Hq, Hr. reflexivity.
    + pose proof (Nat.div_mod_eq k dn). nia.
Qed.

Lemma combine_head_split_head_witness :
  exists y z,
    MultiHeadedAttention.split_head Demo.attention true Demo.enc_out = Ok y /\
    shape4 y = (1, 2, 2, 2)%nat /\
    MultiHeadedAttention.combine_head Demo.attention y = Ok z /\
    same3 z Demo.enc_out.
Proof.
  destruct (combine_head_split_head Demo.attention true Demo.enc_out 1 2 4)
    as (y & z & Hy & Hs & _ & Hz & Hsame).
  - exact Demo_attention_wf.
  - lia.
  - reflexivity.
  - exists y, z. repeat split; assumption || apply Hsame.
Defined.

Lemma softmax_row (s : T4 R) (b h i : nat) :
  (0 < size3 s)%nat ->
  (forall k, 0 <= at4 (softmax s) b h i k) /\
  sum_n (size3 s) (fun k => at4 (softmax s) b h i k) = 1.
Proof.
  intros Hpos. cbn [softmax at4].
  assert (Hden : 0 < sum_n (size3 s) (fun j => exp (at4 s b h i j))).
  { eapply Rlt_le_trans; [apply (exp_pos (at4 s b h i 0))|].
    apply (sum_n_term_le (size3 s) 0 (fun j => exp (at4 s b h i j)));
      [intros j; apply exp_pos | exact Hpos]. }
  split.
  - intros k. left. apply Rdiv_lt_0_compat; [apply exp_pos | exact Hden].
  - unfold Rdiv.
    rewrite (sum_n_scale (size3 s) (fun k => exp (at4 s b h i k))).
    apply Rinv_r. lra.
Qed.

(** X11.  With dropout disabled, a boolean mask and at least one key, the
    attention weights of every query are non-negative and sum to one,
    whatever the mask holds, so every component of a context vector lies
    within any bounds that hold of that component over the value vectors of
    the same batch entry and head. *)
Theorem contexts_convex_combination (a : MultiHeadedAttention.t)
    (q k v : T4 R) (mask : T3 Z) (B H Lq Lk d : nat) (g : rng) :
  nn.Dropout.training (MultiHeadedAttention.dropout a) = false ->
  (0 < MultiHeadedAttention.dim_per_head a)%Z ->
  shape4 q = (B, H, Lq, d) -> shape4 k = (B, H, Lk, d) ->
  shape4 v = (B, H, Lk, d) -> shape3 mask = (B, Lq, Lk) ->
  entries3 boolean mask ->
  (0 < Lk)%nat ->
  exists s c,
    MultiHeadedAttention.masked_scores a q k (Some mask) = Ok s /\
    MultiHeadedAttention.contexts a q k v (Some mask) g = Ok (c, g) /\
    shape4 c = (B, H, Lq, d) /\
    forall b h i,
      (b < B)%nat -> (h < H)%nat -> (i < Lq)%nat ->
      (forall n, 0 <= at4 (softmax s) b h i n) /\
      sum_n Lk (fun n => at4 (softmax s) b h i n) = 1 /\
      forall x lo hi,
        (forall n, (n < Lk)%nat -> lo <= at4 v b h n x <= hi) ->
        lo <= at4 c b h i x <= hi.
Proof.
  intros Heval Hd Hq Hk Hv Hm Hbool HLk.
  destruct (masked_scores_shape a q k mask B H Lq Lk d Hd Hq Hk Hm Hbool)
    as (s & Hs & Hss).
  assert (Hw : shape4 (softmax s) = (B, H, Lq, Lk)) by exact Hss.
  assert (Hsize : size3 s = Lk) by (shapes; assumption).
  exists s. eexists. split; [exact Hs|]. split.
  { unfold MultiHeadedAttention.contexts.
    rewrite (mbind_lift_ok _ _ _ _ Hs).
    unfold mbind, nn.Dropout.forward4. rewrite Heval.
    unfold lift. rewrite (matmul4_shape _ _ B H Lq Lk d Hw Hv).
    reflexivity. }
  split; [reflexivity|].
  intros b h i Hb Hh Hi.
  destruct (softmax_row s b h i ltac:(lia)) as [Hpos Hsum].
  rewrite Hsize in Hsum.
  split; [exact Hpos|]. split; [exact Hsum|].
  intros x lo hi Hrange. cbn [at4]. rewrite !bidx_in_range by assumption.
  split.
  - replace lo with (sum_n Lk (fun n => at4 (softmax s) b h i n * lo))
      by (rewrite (sum_n_scale Lk (fun n => at4 (softmax s) b h i n) lo),
           Hsum; ring).
    apply sum_n_le. intros n Hn.
    apply Rmult_le_compat_l; [apply Hpos | apply Hrange; exact Hn].
  - replace hi with (sum_n Lk (fun n => at4 (softmax s) b h i n * hi))
      by (rewrite (sum_n_scale Lk (fun n => at4 (softmax s) b h i n) hi),
           Hsum; ring).
    apply sum_n_le. intros n Hn.
    apply Rmult_le_compat_l; [apply Hpos | apply Hrange; exact Hn].
Qed.

Lemma contexts_convex_combination_witness :
  exists s c,
    MultiHeadedAttention.masked_scores Masked.attention Masked.query4
      Masked.keys4 (Some Masked.key1_masked) = Ok s /\
    MultiHeadedAttention.contexts Masked.attention Masked.query4 Masked.keys4
      (Masked.values4 1) (Some Masked.key1_masked) rng0 = Ok (c, rng0) /\
    sum_n 2 (fun n => at4 (softmax s) 0 0 0 n) = 1 /\
    0 <= at4 c 0 0 0 0 <= 1.
Proof.
  destruct (contexts_convex_combination Masked.attention Masked.query4
              Masked.keys4 (Masked.values4 1) Masked.key1_masked
              1 1 1 2 1 rng0)
    as (s & c & Hs & Hc & _ & Hall);
    try reflexivity; try lia.
  - intros b i u _ _ _. unfold boolean. cbn.
    destruct (u =? 1)%nat; [right | left]; reflexivity.
  - exists s, c. destruct (Hall 0%nat 0%nat 0%nat) as (_ & Hsum & Hr);
      try lia.
    split; [exact Hs|]. split; [exact Hc|]. split; [exact Hsum|].
    apply Hr. intros n _. cbn. destruct (n =? 1)%nat; lra.
Defined.

Lemma Linear_forward_raises (l : nn.Linear.t) (x : T3 R) (er : exn) :
  nn.Linear.forward l x = Raise er -> er = RuntimeError.
Proof.
  unfold nn.Linear.forward. destruct (_ =? _)%nat; [discriminate|].
  intros H; injection H as <-. reflexivity.
Qed.

Lemma view_heads_raises (c : bool) (h d : Z) (x : T3 R) (er : exn) :
  view_heads c h d x = Raise er -> er = RuntimeError.
Proof.
  unfold view_heads.
  repeat match goal with
         | |- (if ?b then _ else _) = _ -> _ => destruct b
         end; intros H; try discriminate; injection H as <-; reflexivity.
Qed.

Lemma split_head_raises (a : MultiHeadedAttention.t) (c : bool) (x : T3 R)
    (er : exn) :
  MultiHeadedAttention.split_head a c x = Raise er -> er = RuntimeError.
Proof.
  unfold MultiHeadedAttention.split_head.
  destruct (view_heads _ _ _ _) eqn:Hv; cbn [bind]; [discriminate|].
  intros H; injection H as <-. exact (view_heads_raises _ _ _ _ _ Hv).
Qed.

Lemma view_heads_misaligned (h D : Z) (x : T3 R) :
  (0 < h)%Z -> (0 < D)%Z -> (D mod h <> 0)%Z ->
  dim2 x = Z.to_nat D -> (1 <= dim1 x)%nat ->
  view_heads false h (D / h) x = Raise RuntimeError.
Proof.
  intros Hh HD Hdiv Hx HL. unfold view_heads.
  pose proof (Z.div_mod D h ltac:(lia)) as Hdm.
  pose proof (Z.mod_pos_bound D h Hh) as Hb.
  assert (Hd0 : (0 <= D / h)%Z) by (apply Z.div_pos; lia).
  replace (h <? 0)%Z with false by (symmetry; apply Z.ltb_ge; lia).
  replace (D / h <? 0)%Z with false by (symmetry; apply Z.ltb_ge; lia).
  cbn [orb].
  set (hn := Z.to_nat h). set (dn := Z.to_nat (D / h)).
  assert (Hknown : (hn * dn)%nat = Z.to_nat (h * (D / h)))
    by (subst hn dn; rewrite Z2Nat.inj_mul; lia).
  assert (Hlow : (hn * dn < dim2 x)%nat) by lia.
  assert (Hhigh : (dim2 x < hn * dn + hn)%nat) by (subst hn; lia).
  assert (Hhn : (0 < hn)%nat) by (subst hn; lia).
  destruct (Nat.eqb_spec (dim0 x) 0) as [|_]; [reflexivity|].
  destruct (Nat.eqb_spec (hn * dn) 0) as [|Hk]; [reflexivity|].
  cbn [orb].
  destruct (Nat.eqb_spec ((dim1 x * dim2 x) mod (hn * dn)) 0) as [Hmod|];
    [|reflexivity].
  cbn [negb orb].
  destruct (Nat.eqb_spec (dim1 x * dim2 x) 0) as [|_]; [nia|].
  destruct (Nat.eqb_spec (hn * dn) (dim2 x)) as [|_]; [lia|].
  destruct (Nat.eqb_spec dn (dim2 x)) as [|_]; [nia|].
  destruct (Nat.eqb_spec (dim1 x) 1) as [H1|_]; [|reflexivity].
  exfalso. rewrite H1, Nat.mul_1_l in Hmod.
  apply Nat.Div0.div_exact in Hmod.
  assert (Hdn : (1 <= dn)%nat) by nia.
  destruct (dim2 x / (hn * dn))%nat as [|[|q]]; nia.
Qed.

Lemma MultiHeadedAttention_init_inv (h D : Z) (p : R)
    (w : MultiHeadedAttention.draws) (a : MultiHeadedAttention.t) :
  MultiHeadedAttention.init h D p w = Ok a ->
  (0 < D)%Z /\
  MultiHeadedAttention.head_count a = h /\
  MultiHeadedAttention.dim_per_head a = (D / h)%Z /\
  Inv.linear_dims (MultiHeadedAttention.linear_q a) (Z.to_nat D) (Z.to_nat D) /\
  Inv.linear_dims (MultiHeadedAttention.linear_kv a) (Z.to_nat D)
                  (2 * Z.to_nat D).
Proof.
  intros H.
  destruct (MultiHeadedAttention_init_parts _ _ _ _ _ H)
    as (HD & _ & Hhc & Hdph & Hq & [Hkvi Hkvo] & _).
  repeat split; try assumption; try apply Hq. lia.
Qed.

(** X12.  An attention instance constructed with a [head_count] that does not
    divide [model_dim] fails at its first use: attending over any memory of
    at least one position raises [RuntimeError], because the keys cannot be
    viewed as heads. *)
Theorem indivisible_attention_raises_on_use (h D : Z) (p : R)
    (w : MultiHeadedAttention.draws) (a : MultiHeadedAttention.t)
    (query memory : T3 R) (mask : option (T3 Z)) (g : rng) :
  (0 < h)%Z -> (D mod h <> 0)%Z ->
  MultiHeadedAttention.init h D p w = Ok a ->
  (1 <= dim1 memory)%nat ->
  MultiHeadedAttention.forward a query (Some memory) mask g
  = Raise RuntimeError.
Proof.
  intros Hh Hdiv Hinit HL.
  destruct (MultiHeadedAttention_init_inv _ _ _ _ _ Hinit)
    as (HD & Hhc & Hdph & [Hqi Hqo] & [Hki Hko]).
  unfold MultiHeadedAttention.forward, MultiHeadedAttention.project,
    mbind, lift.
  destruct (nn.Linear.forward (MultiHeadedAttention.linear_q a) query)
    as [q|er] eqn:Hq; cbn [bind];
    [| rewrite (Linear_forward_raises _ _ _ Hq); reflexivity].
  destruct (nn.Linear.forward (MultiHeadedAttention.linear_kv a) memory)
    as [y|er] eqn:Hy; cbn [bind];
    [| rewrite (Linear_forward_raises _ _ _ Hy); reflexivity].
  assert (Hys : shape3 y = (dim0 memory, dim1 memory, (2 * Z.to_nat D)%nat)).
  { unfold nn.Linear.forward in Hy. destruct (_ =? _)%nat; [|discriminate].
    injection Hy as <-. unfold shape3. cbn [dim0 dim1 dim2].
    rewrite Hko. reflexivity. }
  destruct (chunk2_shape y (Z.to_nat D) ltac:(lia)) as (k & v & Hkv & Hks & _);
    [shapes; assumption|].
  rewrite Hkv.
  unfold MultiHeadedAttention.attend, mbind, lift.
  destruct (MultiHeadedAttention.split_head a true q) as [q4|er] eqn:Hq4;
    [| rewrite (split_head_raises _ _ _ _ Hq4); reflexivity].
  unfold MultiHeadedAttention.split_head. rewrite Hhc, Hdph.
  rewrite (view_heads_misaligned h D k Hh HD Hdiv);
    [reflexivity | shapes; congruence | shapes; lia].
Qed.

Lemma indivisible_attention_raises_on_use_witness :
  exists a,
    MultiHeadedAttention.init 3 8 0
      (MultiHeadedAttention.mkDraws zeros zeros zeros zeros) = Ok a /\
    MultiHeadedAttention.forward a (mkT3 1 3 8 (fun _ _ _ => 0))
      (Some (mkT3 1 3 8 (fun _ _ _ => 0))) (Some (mkT3 1 3 3 (fun _ _ _ => 0%Z)))
      rng0
    = Raise RuntimeError.
Proof.
  eexists. split.
  - apply MultiHeadedAttention_init_ok; (lia || lra).
  - apply (indivisible_attention_raises_on_use 3 8 0
             (MultiHeadedAttention.mkDraws zeros zeros zeros zeros));
      try (cbn; lia).
    apply MultiHeadedAttention_init_ok; (lia || lra).
Defined.

(** ** The feed-forward block *)

(** X13.  With dropout disabled the feed-forward block acts on each
    position separately: the output row of a position is a function of the
    input row of that position alone, the same function for every position
    and batch entry. *)
Theorem FeedForward_position_wise (ff : FeedForward.t) (x x' y y' : T3 R)
    (g g' g1 g1' : rng) (b l b' l' : nat) :
  nn.Dropout.training (FeedForward.dropout ff) = false ->
  FeedForward.forward ff x g = Ok (y, g1) ->
  FeedForward.forward ff x' g' = Ok (y', g1') ->
  (forall i, (i < nn.Linear.in_features (FeedForward.linear_in ff))%nat ->
             at3 x b l i = at3 x' b' l' i) ->
  forall o, at3 y b l o = at3 y' b' l' o.
Proof.
  intros Heval Hy Hy' Hrow o.
  unfold FeedForward.forward, mbind, lift, ret, nn.Linear.forward,
    nn.Dropout.forward3 in Hy, Hy'.
  rewrite Heval in Hy, Hy'.
  cbn [relu dim0 dim1 dim2] in Hy, Hy'.
  destruct (dim2 x =? _)%nat; [|discriminate].
  destruct (dim2 x' =? _)%nat; [|discriminate].
  cbn [relu dim0 dim1 dim2] in Hy, Hy'.
  destruct (nn.Linear.out_features (FeedForward.linear_in ff)
            =? nn.Linear.in_features (FeedForward.linear_out ff))%nat;
    [|discriminate].
  injection Hy as <- _. injection Hy' as <- _.
  cbn [at3]. f_equal.
  apply sum_n_ext. intros k _. f_equal. f_equal. f_equal.
  apply sum_n_ext. intros i Hi. rewrite (Hrow i Hi). reflexivity.
Qed.

Lemma FeedForward_position_wise_witness :
  exists y y' g1 g1',
    FeedForward.forward Demo.feed_forward Demo.history rng0 = Ok (y, g1) /\
    FeedForward.forward Demo.feed_forward Demo.enc_out rng0 = Ok (y', g1') /\
    at3 y 0 1 2 = at3 y' 0 0 2.
Proof.
  pose proof (Inv.feed_forward_wf Demo_layer_wf) as Hwf.
  destruct (FeedForward_forward_shape Demo.feed_forward Demo.history 1 2 4
              rng0 Hwf eq_refl) as (y & g1 & Hy & _).
  destruct (FeedForward_forward_shape Demo.feed_forward Demo.enc_out 1 2 4
              rng0 Hwf eq_refl) as (y' & g1' & Hy' & _).
  exists y, y', g1, g1'. split; [exact Hy|]. split; [exact Hy'|].
  apply (FeedForward_position_wise Demo.feed_forward Demo.history
           Demo.enc_out y y' rng0 rng0 g1 g1' 0 1 0 0).
  - reflexivity.
  - exact Hy.
  - exact Hy'.
  - intros i _. reflexivity.
Defined.

(** ** The encoder *)

Lemma chunk3_shape (y : T3 R) (D : nat) :
  (0 < D)%nat -> dim2 y = (3 * D)%nat ->
  exists q k v, chunk 3 y = [q; k; v] /\
                shape3 q = (dim0 y, dim1 y, D) /\
                shape3 k = (dim0 y, dim1 y, D) /\
                shape3 v = (dim0 y, dim1 y, D).
Proof.
  intros HD Hy. unfold chunk. rewrite Hy.
  assert (Hs : ((3 * D + 3 - 1) / 3 = D)%nat).
  { symmetry. apply (Nat.div_unique _ 3 D 2); lia. }
  rewrite Hs.
  destruct (Nat.eqb_spec D 0) as [|_]; [lia|].
  assert (Hn : ((3 * D + D - 1) / D = 3)%nat).
  { symmetry. apply (Nat.div_unique _ D 3 (D - 1)); lia. }
  rewrite Hn. cbn [Nat.max seq map Nat.sub Nat.ltb Nat.leb].
  eexists. eexists. eexists. split; [reflexivity|].
  unfold shape3. cbn [dim0 dim1 dim2].
  repeat split; f_equal; lia.
Qed.

Lemma attention_fused_shape (a : MultiHeadedAttention.t) (x : T3 R)
    (mask : T3 Z) (B L D : nat) (g : rng) :
  Inv.attention D a -> (0 < B)%nat ->
  shape3 x = (B, L, D) -> shape3 mask = (B, L, L) ->
  entries3 boolean mask ->
  exists y g',
    MultiHeadedAttention.forward a x None (Some mask) g = Ok (y, g') /\
    shape3 y = (B, L, D).
Proof.
  intros Hwf HB Hx Hmask Hbool.
  assert (HD : (0 < D)%nat).
  { destruct Hwf as [Hh Hd Ht _ _ _ _]. subst D. nia. }
  destruct (Inv.qkv_dims Hwf) as [Hi Ho].
  destruct (Linear_forward_shape (MultiHeadedAttention.linear_qkv a) x)
    as (y & Hy & Hys); [shapes; congruence|].
  destruct (chunk3_shape y D HD) as (q & k & v & Hqkv & Hqs & Hks & Hvs).
  { shapes. congruence. }
  unfold MultiHeadedAttention.forward, MultiHeadedAttention.project.
  rewrite Hy. cbn [bind]. rewrite Hqkv.
  rewrite (mbind_lift_ok _ _ _ _ eq_refl).
  assert (Hdims : (dim0 y, dim1 y) = (B, L)) by (shapes; congruence).
  injection Hdims as H0 H1. rewrite H0, H1 in Hqs, Hks, Hvs.
  exact (attend_shape a q k v false mask B L L D g Hwf HB Hqs Hks Hvs Hmask
           Hbool).
Qed.

Lemma EncoderLayer_forward_shape (layer : EncoderLayer.t) (x : T3 R)
    (mask : T3 Z) (B L D : nat) (g : rng) :
  EncoderInv.encoder_layer D layer -> (0 < B)%nat ->
  shape3 x = (B, L, D) -> shape3 mask = (B, L, L) ->
  entries3 boolean mask ->
  exists y g', EncoderLayer.forward layer x mask g = Ok (y, g') /\
               shape3 y = (B, L, D).
Proof.
  intros [Hattn Hff Hcount Hdims] HB Hx Hm Hbool.
  assert (Hnorm : forall i, (i < 2)%nat ->
            exists n, getitem (EncoderLayer.norm layer) i = Ok n /\
                      nn.LayerNorm.normalized_shape n = D).
  { intros i Hi. unfold getitem.
    destruct (nth_error (EncoderLayer.norm layer) i) as [n|] eqn:Hn.
    - exists n. split; [reflexivity|].
      rewrite Forall_forall in Hdims. apply Hdims.
      eapply nth_error_In. exact Hn.
    - apply nth_error_None in Hn. lia. }
  assert (Hstep : forall (n : nn.LayerNorm.t) (x y : T3 R) (g : rng)
                         (k : T3 R -> M (T3 R)),
            nn.LayerNorm.normalized_shape n = D ->
            shape3 x = (B, L, D) -> shape3 y = (B, L, D) ->
            exists z g',
              shape3 z = (B, L, D) /\
              (y <- nn.Dropout.forward3 (EncoderLayer.dropout layer) y ;;
               x <~ add3 x y ;;
               x <~ nn.LayerNorm.forward n x ;;
               k x)%torch g
              = k z g').
  { intros n x0 y0 g0 k Hn Hx0 Hy0.
    destruct (Dropout_forward3_shape (EncoderLayer.dropout layer) y0 g0)
      as (y' & g' & Hy' & Hys).
    rewrite Hy0 in Hys.
    destruct (add3_shape x0 y' B L D Hx0 Hys) as (s & Hs & Hss).
    destruct (LayerNorm_forward_shape n s) as (z & Hz & Hzs);
      [shapes; congruence|].
    exists z, g'. split; [rewrite Hzs; exact Hss|].
    rewrite (mbind_ok _ _ _ _ _ Hy'), (mbind_lift_ok _ _ _ _ Hs),
      (mbind_lift_ok _ _ _ _ Hz). reflexivity. }
  unfold EncoderLayer.forward.
  destruct (attention_fused_shape (EncoderLayer.self_attn layer) x mask
              B L D g Hattn HB Hx Hm Hbool) as (y1 & g1 & Hy1 & Hs1).
  rewrite (mbind_ok _ _ _ _ _ Hy1).
  destruct (Hnorm 0%nat ltac:(lia)) as (n0 & Hn0 & Hd0).
  rewrite (mbind_lift_ok _ _ _ _ Hn0).
  destruct (Hstep n0 x y1 g1
              (fun x => y <- FeedForward.forward (EncoderLayer.feed_forward layer) x ;;
                        n1 <~ getitem (EncoderLayer.norm layer) 1 ;;
                        y <- nn.Dropout.forward3 (EncoderLayer.dropout layer) y ;;
                        x <~ add3 x y ;;
                        x <~ nn.LayerNorm.forward n1 x ;;
                        ret x)%torch Hd0 Hx Hs1)
    as (x1 & g2 & Hxs1 & Heq).
  rewrite Heq. cbv beta.
  destruct (FeedForward_forward_shape (EncoderLayer.feed_forward layer) x1
              B L D g2 Hff Hxs1) as (y2 & g3 & Hy2 & Hs2).
  rewrite (mbind_ok _ _ _ _ _ Hy2).
  destruct (Hnorm 1%nat ltac:(lia)) as (n1 & Hn1 & Hd1).
  rewrite (mbind_lift_ok _ _ _ _ Hn1).
  destruct (Hstep n1 x1 y2 g3 (fun x => ret x) Hd1 Hxs1 Hs2)
    as (x2 & g4 & Hxs2 & Heq2).
  rewrite Heq2. exists x2, g4. split; [reflexivity | exact Hxs2].
Qed.

Lemma Encoder_run_shape (mask : T3 Z) (B L D : nat)
    (ls : list EncoderLayer.t) :
  Forall (EncoderInv.encoder_layer D) ls -> (0 < B)%nat ->
  shape3 mask = (B, L, L) -> entries3 boolean mask ->
  forall (x : T3 R) (g : rng),
    shape3 x = (B, L, D) ->
    exists out g', Encoder.run ls x mask g = Ok (out, g') /\
                   shape3 out = (B, L, D).
Proof.
  intros Hls HB Hm Hbool.
  induction Hls as [|layer rest Hlayer _ IH]; intros x g Hx.
  - exists x, g. split; [reflexivity | exact Hx].
  - cbn [Encoder.run].
    destruct (EncoderLayer_forward_shape layer x mask B L D g Hlayer HB Hx Hm
                Hbool)
      as (y & g1 & Hy & Hys).
    rewrite (mbind_ok _ _ _ _ _ Hy). exact (IH y g1 Hys).
Qed.

(** X14.  A well-formed encoder, on a non-empty batch of in-vocabulary
    sources of at most 5000 tokens with boolean padding flags of the same
    shape, returns hidden states of shape (batch, length, model_dim),
    whatever its number of layers; without layers its output is the
    embedding of the source at time step 0. *)
Theorem Encoder_forward_shape (enc : Encoder.t) (src src_pad : T2 Z)
    (g : rng) :
  EncoderInv.encoder enc ->
  (0 < rows src)%nat ->
  EmbeddingInv.ids_in_vocab (Encoder.embedding enc) src ->
  (Z.of_nat (cols src) <= default_max_len)%Z ->
  shape2 src_pad = (rows src, cols src) -> entries2 boolean src_pad ->
  exists out g',
    Encoder.forward enc src src_pad g = Ok (out, g') /\
    shape3 out = (rows src, cols src, EncoderInv.model_dim enc) /\
    (Encoder.layers enc = [] ->
     Embedding.forward (Encoder.embedding enc) src 0 g = Ok (out, g')).
Proof.
  intros [Hemb Hlayers] HB Hids Hcap Hpad Hbool.
  destruct (Embedding_forward_within _ src 0 g Hemb Hids ltac:(lia)
              ltac:(lia)) as (x0 & g0 & Hx0 & Hx0s).
  fold (EncoderInv.model_dim enc) in Hx0s.
  assert (Hm : shape3 (unsqueeze1_repeat src_pad (cols src))
               = (rows src, cols src, cols src)).
  { unfold shape2 in Hpad. injection Hpad as Hr Hc.
    unfold shape3. cbn. congruence. }
  destruct (Encoder_run_shape _ _ _ _ (Encoder.layers enc) Hlayers HB Hm
              (unsqueeze1_repeat_boolean src_pad (cols src) Hbool)
              x0 g0 Hx0s) as (out & g1 & Hrun & Hos).
  unfold Encoder.forward. rewrite (mbind_ok _ _ _ _ _ Hx0).
  exists out, g1. split; [exact Hrun|]. split; [exact Hos|].
  intros Hnil. rewrite Hnil in Hrun. cbn in Hrun. unfold ret in Hrun.
  injection Hrun as <- <-. exact Hx0.
Qed.

Lemma Demo_encoder_wf : EncoderInv.encoder Demo.encoder.
Proof.
  constructor; cbn.
  - exact Demo_embedding_wf.
  - constructor; [|constructor].
    constructor; cbn.
    + exact Demo_attention_wf.
    + constructor; reflexivity.
    + reflexivity.
    + repeat constructor.
Qed.

Lemma Encoder_forward_shape_witness :
  exists out g',
    Encoder.forward Demo.encoder (full2 1 3 1) (full2 1 3 0) rng0
    = Ok (out, g') /\
    shape3 out = (1, 3, 4)%nat.
Proof.
  destruct (Encoder_forward_shape Demo.encoder (full2 1 3 1) (full2 1 3 0)
              rng0) as (out & g' & H & Hs & _).
  - exact Demo_encoder_wf.
  - cbn. lia.
  - apply Demo_ids_in_vocab. lia.
  - unfold default_max_len. cbn. lia.
  - reflexivity.
  - intros b l _ _. left. reflexivity.
  - exists out, g'. split; assumption.
Defined.

Lemma Encoder_run_ignores_separate (fq fkv : nat -> nn.Linear.t)
    (ls : list EncoderLayer.t) :
  forall (i : nat) (output : T3 R) (src_mask : T3 Z),
    Encoder.run (SeparateProjections.set_layers fq fkv i ls) output src_mask
    = Encoder.run ls output src_mask.
Proof.
  induction ls as [|layer rest IH]; intros i output src_mask.
  - reflexivity.
  - cbn [SeparateProjections.set_layers Encoder.run].
    change (EncoderLayer.forward
              (SeparateProjections.set_layer (fq i) (fkv i) layer))
      with (EncoderLayer.forward layer).
    f_equal.
    apply FunctionalExtensionality.functional_extensionality.
    intros output'. apply IH.
Qed.

(** X15.  The encoder calls its self-attention without a memory, so only the
    fused query/key/value projection is used: whatever weights the separate
    [linear_q] and [linear_kv] of the encoder layers hold, every result of
    the encoder is the same. *)
Theorem Encoder_forward_ignores_separate_projections
    (fq fkv : nat -> nn.Linear.t) (enc : Encoder.t) (src src_pad : T2 Z)
    (g : rng) :
  Encoder.forward (SeparateProjections.set_encoder fq fkv enc) src src_pad g
  = Encoder.forward enc src src_pad g.
Proof.
  unfold Encoder.forward, SeparateProjections.set_encoder.
  cbn [Encoder.embedding Encoder.layers].
  f_equal.
  apply FunctionalExtensionality.functional_extensionality. intros output.
  apply Encoder_run_ignores_separate.
Qed.

(** ** The decoder *)

Lemma broadcast_dim_raises (a b : nat) (er : exn) :
  broadcast_dim a b = Raise er -> er = RuntimeError.
Proof.
  unfold broadcast_dim.
  repeat match goal with
         | |- (if ?c then _ else _) = _ -> _ => destruct c
         end; intros H; try discriminate; injection H as <-; reflexivity.
Qed.

(** X16.  Targets longer than the 1000 x 1000 causal buffer cannot be
    decoded: for a decoder holding that buffer, in-vocabulary targets of more
    than 1000 tokens and a non-negative [timestep], [forward] raises
    [RuntimeError], whatever the padding flags, the cache and the source. *)
Theorem Decoder_forward_long_target_raises (dec : Decoder.t) (tgt : T2 Z)
    (enc_out : T3 R) (src_pad tgt_pad : T2 Z) (previous : option (T4 R))
    (t : Z) (g : rng) :
  EmbeddingInv.wf (Decoder.embedding dec) ->
  Decoder.upper_triangle dec = triu_ones 1000 ->
  EmbeddingInv.ids_in_vocab (Decoder.embedding dec) tgt ->
  (0 <= t)%Z -> (1000 < cols tgt)%nat ->
  Decoder.forward dec tgt enc_out src_pad tgt_pad previous t g
  = Raise RuntimeError.
Proof.
  intros Hwf Htri Hids Ht HL.
  destruct (Embedding_forward_outcome _ tgt t g Hwf Hids Ht) as [_ Hout].
  unfold Decoder.forward, mbind, lift.
  destruct (broadcast_dim (cols tgt) _) as [n|er] eqn:Hb.
  - destruct Hout as (y & g' & Hy & _). rewrite Hy.
    unfold Decoder.self_attention_mask, byte_add3_2. rewrite Htri.
    cbn [unsqueeze1_repeat top_left triu_ones dim0 dim1 dim2 rows cols].
    rewrite Nat.min_r by lia.
    unfold broadcast_dim at 1.
    destruct (Nat.eqb_spec (cols tgt) 1000) as [|_]; [lia|].
    destruct (Nat.eqb_spec (cols tgt) 1) as [|_]; [lia|].
    reflexivity.
  - rewrite Hout, (broadcast_dim_raises _ _ _ Hb). reflexivity.
Qed.

Lemma Decoder_forward_long_target_raises_witness :
  Decoder.forward Demo.decoder (full2 1 1001 1) Demo.enc_out Demo.src_pad
                  (full2 1 1001 0) None 0 rng0
  = Raise RuntimeError.
Proof.
  apply Decoder_forward_long_target_raises.
  - exact Demo_embedding_wf.
  - reflexivity.
  - apply Demo_ids_in_vocab. lia.
  - lia.
  - cbn. lia.
Defined.

(** X17.  The decoder's constructor accepts a layer count of zero or below
    and builds a decoder without layers, and that decoder never returns:
    every call of [forward] raises (stacking the empty list of saved inputs
    fails when nothing fails earlier). *)
Theorem Decoder_without_layers_never_returns (num_layers num_heads
    hidden_size : Z) (p : R) (ff_size : Z) (e : Embedding.t)
    (w : nat -> DecoderLayer.draws) :
  (num_layers <= 0)%Z ->
  exists dec,
    Decoder.init num_layers num_heads hidden_size p ff_size e w = Ok dec /\
    Decoder.layers dec = [] /\
    forall tgt enc_out src_pad tgt_pad previous t g,
      (exists er,
         Decoder.forward dec tgt enc_out src_pad tgt_pad previous t g
         = Raise er) /\
      (forall x0 g0 m,
         Embedding.forward e tgt t g = Ok (x0, g0) ->
         Decoder.self_attention_mask dec (cols tgt) tgt_pad = Ok m ->
         Decoder.forward dec tgt enc_out src_pad tgt_pad previous t g
         = Raise RuntimeError).
Proof.
  intros Hn. unfold Decoder.init.
  replace (Z.to_nat num_layers) with 0%nat by lia. cbn [collect bind].
  eexists. split; [reflexivity|]. split; [reflexivity|].
  intros tgt enc_out src_pad tgt_pad previous t g.
  unfold Decoder.forward, mbind, lift.
  cbn [Decoder.embedding Decoder.layers Decoder.run].
  split.
  - destruct (Embedding.forward e tgt t g) as [[x0 g0]|er]; [|eauto].
    destruct (Decoder.self_attention_mask _ _ _) as [m|er]; [|eauto].
    cbn. eauto.
  - intros x0 g0 m Hx Hm. rewrite Hx, Hm. reflexivity.
Qed.

Lemma Decoder_without_layers_never_returns_witness :
  exists dec,
    Decoder.init 0 2 4 0 8 Demo.embedding
      (fun _ => DecoderLayer.mkDraws
                  (MultiHeadedAttention.mkDraws zeros zeros zeros zeros)
                  (MultiHeadedAttention.mkDraws zeros zeros zeros zeros)
                  (FeedForward.mkDraws zeros zeros)) = Ok dec /\
    exists er,
      Decoder.forward dec (full2 1 3 1) Demo.enc_out Demo.src_pad
                      (full2 1 3 0) None 0 rng0 = Raise er.
Proof.
  destruct (Decoder_without_layers_never_returns 0 2 4 0 8 Demo.embedding
              (fun _ => DecoderLayer.mkDraws
                  (MultiHeadedAttention.mkDraws zeros zeros zeros zeros)
                  (MultiHeadedAttention.mkDraws zeros zeros zeros zeros)
                  (FeedForward.mkDraws zeros zeros)))
    as (dec & Hinit & _ & Hraise); [lia|].
  exists dec. split; [exact Hinit|].
  exact (proj1 (Hraise (full2 1 3 1) Demo.enc_out Demo.src_pad (full2 1 3 0)
                  None 0%Z rng0)).
Defined.

(** *** Evaluation mode *)

Lemma draws_nothing_lift {A : Type} (r : Result A) : draws_nothing (lift r).
Proof. exists r. reflexivity. Qed.

Lemma draws_nothing_ret {A : Type} (a : A) : draws_nothing (ret a).
Proof. exists (Ok a). reflexivity. Qed.

Lemma draws_nothing_bind {A B : Type} (m : M A) (k : A -> M B) :
  draws_nothing m -> (forall a, draws_nothing (k a)) ->
  draws_nothing (mbind m k).
Proof.
  intros [r Hr] Hk. destruct r as [a|er].
  - destruct (Hk a) as [r' Hr']. exists r'. intros g.
    unfold mbind. rewrite Hr. cbn. apply Hr'.
  - exists (Raise er). intros g. unfold mbind. rewrite Hr. reflexivity.
Qed.

Lemma draws_nothing_dropout3 (d : nn.Dropout.t) (x : T3 R) :
  draws_nothing (nn.Dropout.forward3 (nn.Dropout.eval d) x).
Proof. exists (Ok x). reflexivity. Qed.

Lemma draws_nothing_dropout4 (d : nn.Dropout.t) (x : T4 R) :
  draws_nothing (nn.Dropout.forward4 (nn.Dropout.eval d) x).
Proof. exists (Ok x). reflexivity. Qed.

Ltac no_draws :=
  repeat first
    [ apply draws_nothing_lift
    | apply draws_nothing_ret
    | apply draws_nothing_dropout3
    | apply draws_nothing_dropout4
    | apply draws_nothing_bind; [| intros ?]
    | match goal with
      | |- draws_nothing (let '(_, _) := ?p in _) => destruct p
      end ].

Lemma draws_nothing_attention (a : MultiHeadedAttention.t) (query : T3 R)
    (memory : option (T3 R)) (mask : option (T3 Z)) :
  draws_nothing
    (MultiHeadedAttention.forward (MultiHeadedAttention.eval a) query memory
                                  mask).
Proof.
  unfold MultiHeadedAttention.forward, MultiHeadedAttention.attend,
    MultiHeadedAttention.contexts.
  cbn [MultiHeadedAttention.eval MultiHeadedAttention.dropout].
  no_draws.
Qed.

Lemma draws_nothing_feed_forward (ff : FeedForward.t) (x : T3 R) :
  draws_nothing (FeedForward.forward (FeedForward.eval ff) x).
Proof.
  unfold FeedForward.forward. cbn [FeedForward.eval FeedForward.dropout].
  no_draws.
Qed.

Lemma draws_nothing_layer (layer : DecoderLayer.t) (x enc_out : T3 R)
    (src_mask : T3 Z) (tgt_mask : option (T3 Z)) (previous : option (T3 R)) :
  draws_nothing
    (DecoderLayer.forward (DecoderLayer.eval layer) x enc_out src_mask
                          tgt_mask previous).
Proof.
  unfold DecoderLayer.forward, DecoderLayer.add_norm.
  cbn [DecoderLayer.eval DecoderLayer.self_attn DecoderLayer.src_attn
       DecoderLayer.feed_forward DecoderLayer.norm DecoderLayer.dropout].
  repeat first
    [ apply draws_nothing_attention
    | apply draws_nothing_feed_forward
    | apply draws_nothing_lift
    | apply draws_nothing_ret
    | apply draws_nothing_dropout3
    | apply draws_nothing_bind; [| intros ?] ].
Qed.

Lemma draws_nothing_run (ls : list DecoderLayer.t) :
  forall (i : nat) (output enc_out : T3 R) (src_mask : T3 Z)
         (tgt_mask : option (T3 Z)) (previous : option (T4 R)),
    draws_nothing
      (Decoder.run (map DecoderLayer.eval ls) i output enc_out src_mask
                   tgt_mask previous).
Proof.
  induction ls as [|layer rest IH]; intros i output enc_out src_mask tgt_mask
                                            previous; cbn [map Decoder.run].
  - apply draws_nothing_ret.
  - apply draws_nothing_bind; [apply draws_nothing_lift | intros prev_layer].
    apply draws_nothing_bind; [apply draws_nothing_layer | intros [y a]].
    apply draws_nothing_bind; [apply IH | intros [y' s]].
    apply draws_nothing_ret.
Qed.

(** X18.  In evaluation mode the decoder draws nothing from the random
    generator: the outcome of [forward] (the value returned or the exception
    raised) is the same for every generator state, and the state is handed
    back untouched. *)
Theorem Decoder_eval_draws_nothing (dec : Decoder.t) (tgt : T2 Z)
    (enc_out : T3 R) (src_pad tgt_pad : T2 Z) (previous : option (T4 R))
    (t : Z) :
  exists r : Result (T3 R * T4 R),
    forall g,
      Decoder.forward (Decoder.eval dec) tgt enc_out src_pad tgt_pad previous
                      t g
      = match r with
        | Ok v => Ok (v, g)
        | Raise er => Raise er
        end.
Proof.
  assert (H : draws_nothing
                (Decoder.forward (Decoder.eval dec) tgt enc_out src_pad
                   tgt_pad previous t)).
  { unfold Decoder.forward, Embedding.forward.
    cbn [Decoder.eval Decoder.embedding Decoder.layers Embedding.eval
         Embedding.dropout Embedding.embedding Embedding.embedding_dim
         Embedding.pe].
    apply draws_nothing_bind; [no_draws | intros output].
    apply draws_nothing_bind; [apply draws_nothing_lift | intros tgt_mask].
    apply draws_nothing_bind; [apply draws_nothing_run | intros [y s]].
    no_draws. }
  exact H.
Qed.

(** *** A decoder layer with a cache *)

(** X19.  A decoder layer accepts a cache when it is given a mask: with a
    history of [P] positions and [L] new ones, a boolean self-attention mask
    of shape (batch, [L], [P + L]) and a boolean source mask, it returns an
    output of shape (batch, [L], model_dim) and the extended cache of
    [P + L] positions, which is the history followed by the new input. *)
Theorem DecoderLayer_forward_extends_cache (layer : DecoderLayer.t)
    (x enc_out previous : T3 R) (src_mask tgt_mask : T3 Z)
    (B L P Ls D : nat) (g : rng) :
  Inv.decoder_layer D layer -> (0 < B)%nat ->
  shape3 x = (B, L, D) -> shape3 previous = (B, P, D) ->
  shape3 enc_out = (B, Ls, D) ->
  shape3 src_mask = (B, L, Ls) -> shape3 tgt_mask = (B, L, (P + L)%nat) ->
  entries3 boolean src_mask -> entries3 boolean tgt_mask ->
  exists y all_input g',
    DecoderLayer.forward layer x enc_out src_mask (Some tgt_mask)
                         (Some previous) g
    = Ok (y, all_input, g') /\
    shape3 y = (B, L, D) /\
    shape3 all_input = (B, (P + L)%nat, D) /\
    (forall b l c, (l < P)%nat -> at3 all_input b l c = at3 previous b l c) /\
    (forall b l c, at3 all_input b (P + l) c = at3 x b l c).
Proof.
  intros Hwf HB Hx Hp He Hsm Htm Hsb Htb. unfold DecoderLayer.forward.
  assert (Hcat : cat1 previous x
                 = Ok (mkT3 B (P + L) D
                         (fun i l c => if (l <? P)%nat then at3 previous i l c
                                       else at3 x i (l - P) c))).
  { unfold cat1. shapes.
    replace (dim0 previous =? dim0 x)%nat with true
      by (symmetry; apply Nat.eqb_eq; congruence).
    replace (dim2 previous =? dim2 x)%nat with true
      by (symmetry; apply Nat.eqb_eq; congruence).
    cbn [andb]. subst.
    replace (dim0 previous) with (dim0 x) by congruence.
    replace (dim2 previous) with (dim2 x) by congruence.
    reflexivity. }
  rewrite (mbind_lift_ok _ _ g _ Hcat).
  set (all_input := mkT3 B (P + L) D _).
  assert (Ha : shape3 all_input = (B, (P + L)%nat, D)) by reflexivity.
  destruct (attention_with_memory_shape (DecoderLayer.self_attn layer)
              x all_input tgt_mask B L (P + L) D g (Inv.self_attn_wf Hwf)
              HB Hx Ha Htm Htb)
    as (y1 & g1 & Hy1 & Hs1).
  rewrite (mbind_ok _ _ _ _ _ Hy1).
  destruct (add_norm_shape layer 0 x y1 B L D g1 Hwf ltac:(lia) Hx Hs1)
    as (x1 & g2 & Hx1 & Hxs1).
  rewrite (mbind_ok _ _ _ _ _ Hx1).
  destruct (attention_with_memory_shape (DecoderLayer.src_attn layer)
              x1 enc_out src_mask B L Ls D g2 (Inv.src_attn_wf Hwf) HB Hxs1 He
              Hsm Hsb)
    as (y2 & g3 & Hy2 & Hs2).
  rewrite (mbind_ok _ _ _ _ _ Hy2).
  destruct (add_norm_shape layer 1 x1 y2 B L D g3 Hwf ltac:(lia) Hxs1 Hs2)
    as (x2 & g4 & Hx2 & Hxs2).
  rewrite (mbind_ok _ _ _ _ _ Hx2).
  destruct (FeedForward_forward_shape (DecoderLayer.feed_forward layer) x2
              B L D g4 (Inv.feed_forward_wf Hwf) Hxs2)
    as (y3 & g5 & Hy3 & Hs3).
  rewrite (mbind_ok _ _ _ _ _ Hy3).
  destruct (add_norm_shape layer 2 x2 y3 B L D g5 Hwf ltac:(lia) Hxs2 Hs3)
    as (x3 & g6 & Hx3 & Hxs3).
  rewrite (mbind_ok _ _ _ _ _ Hx3).
  exists x3, all_input, g6. split; [reflexivity|]. split; [exact Hxs3|].
  split; [exact Ha|]. split.
  - intros b l c Hl. subst all_input. cbn [at3].
    destruct (Nat.ltb_spec l P); [reflexivity | lia].
  - intros b l c. subst all_input. cbn [at3].
    destruct (Nat.ltb_spec (P + l) P); [lia|].
    replace (P + l - P)%nat with l by lia. reflexivity.
Qed.

Lemma DecoderLayer_forward_extends_cache_witness :
  exists y all_input g',
    DecoderLayer.forward Demo.layer Demo.step Demo.enc_out Demo.step_src_mask
                         (Some Demo.step_mask) (Some Demo.history) rng0
    = Ok (y, all_input, g') /\
    shape3 y = (1, 1, 4)%nat /\
    shape3 all_input = (1, 3, 4)%nat /\
    at3 all_input 0 2 1 = 1.
Proof.
  destruct (DecoderLayer_forward_extends_cache Demo.layer Demo.step
              Demo.enc_out Demo.history Demo.step_src_mask Demo.step_mask
              1 1 2 2 4 rng0)
    as (y & a & g' & H & Hy & Ha & _ & Hnew);
    try reflexivity.
  - exact Demo_layer_wf.
  - lia.
  - intros b i j _ _ _. left. reflexivity.
  - intros b i j _ _ _. left. reflexivity.
  - exists y, a, g'. repeat split; try assumption.
    exact (Hnew 0%nat 0%nat 1%nat).
Defined.

(** *** Padding flags that are not 0 or 1 *)

(** X20.  The mask is computed in unsigned 8-bit arithmetic, which is the
    logical OR only for 0/1 flags: for byte-valued padding flags, an entry
    is left unmasked exactly when the key is not in the future and its flag
    is 0, or when the key is in the future and its flag is 255, whose sum
    with the causal 1 wraps around to 0. *)
Theorem Decoder_self_attention_mask_wraps (dec : Decoder.t) (tgt_pad : T2 Z) :
  Decoder.upper_triangle dec = triu_ones 1000 ->
  (cols tgt_pad <= 1000)%nat ->
  entries2 (fun v => 0 <= v < 256)%Z tgt_pad ->
  exists m,
    Decoder.self_attention_mask dec (cols tgt_pad) tgt_pad = Ok m /\
    forall b q k,
      (b < rows tgt_pad)%nat -> (q < cols tgt_pad)%nat ->
      (k < cols tgt_pad)%nat ->
      (at3 m b q k = 0%Z \/ at3 m b q k = 1%Z) /\
      (at3 m b q k = 0%Z <->
       ((k <= q)%nat /\ at2 tgt_pad b k = 0%Z) \/
       ((q < k)%nat /\ at2 tgt_pad b k = 255%Z)).
Proof.
  intros Hut HL Hpad.
  unfold Decoder.self_attention_mask, byte_add3_2.
  rewrite Hut.
  cbn [unsqueeze1_repeat top_left triu_ones dim0 dim1 dim2 rows cols at2 at3].
  rewrite (Nat.min_l _ _ HL), broadcast_dim_same. cbn [bind].
  eexists. split; [reflexivity|].
  intros b q k Hb Hq Hk. cbn [gt0 at3 dim0 dim1 dim2].
  rewrite !bidx_in_range by assumption.
  unfold byte_add. specialize (Hpad b k Hb Hk). cbv beta in Hpad.
  destruct (Nat.ltb_spec q k) as [Hlt|Hge].
  - destruct (Z.eq_dec (at2 tgt_pad b k) 255) as [->|Hne].
    + cbn. split; [left; reflexivity|]. split; [intros _; right; lia | reflexivity].
    + rewrite Z.mod_small by lia.
      destruct (Z.ltb_spec 0 (at2 tgt_pad b k + 1)); [|lia].
      split; [right; reflexivity|]. split; [discriminate | lia].
  - rewrite Z.add_0_r, Z.mod_small by lia.
    destruct (Z.ltb_spec 0 (at2 tgt_pad b k)).
    + split; [right; reflexivity|]. split; [discriminate | lia].
    + split; [left; reflexivity|]. split; [intros _; left; lia | reflexivity].
Qed.

Lemma Decoder_self_attention_mask_wraps_witness :
  exists m,
    Decoder.self_attention_mask Demo.decoder 3 (full2 1 3 255) = Ok m /\
    at3 m 0 0 2 = 0%Z /\ at3 m 0 2 0 = 1%Z.
Proof.
  destruct (Decoder_self_attention_mask_wraps Demo.decoder (full2 1 3 255))
    as (m & Hm & Hall).
  - reflexivity.
  - cbn. lia.
  - intros b l _ _. cbn. lia.
  - exists m. split; [exact Hm|].
    destruct (Hall 0%nat 0%nat 2%nat) as [_ H02]; try (cbn; lia).
    destruct (Hall 0%nat 2%nat 0%nat) as [[H0|H1] H20]; try (cbn; lia).
    + apply H20 in H0. cbn in H0. lia.
    + split; [apply H02; right; cbn; lia | exact H1].
Defined.

(** ** Stepwise use of the embedding and of the cache *)

Lemma Embedding_forward_eval_value (e : Embedding.t) (x : T2 Z) (t : Z)
    (g : rng) :
  EmbeddingInv.wf e -> nn.Dropout.training (Embedding.dropout e) = false ->
  EmbeddingInv.ids_in_vocab e x ->
  (0 <= t)%Z -> (t + Z.of_nat (cols x) <= default_max_len)%Z ->
  exists y,
    Embedding.forward e x t g = Ok (y, g) /\
    shape3 y = (rows x, cols x, Z.to_nat (Embedding.embedding_dim e)) /\
    forall b l c,
      (l < cols x)%nat -> (c < Z.to_nat (Embedding.embedding_dim e))%nat ->
      at3 y b l c
      = (at2 (nn.Embedding.weight (Embedding.embedding e))
             (Z.to_nat (at2 x b l)) c
         * sqrt (IZR (Embedding.embedding_dim e))
         + at2 (Embedding.pe e) (Z.to_nat t + l) c)
        * sqrt (IZR (Embedding.embedding_dim e)).
Proof.
  intros Hwf Heval Hids Ht Hcap.
  rewrite (Embedding_forward_unfold e x t g Hwf Hids).
  destruct (slice_len_nonneg_start (Z.of_nat (rows (Embedding.pe e))) t
              (Z.of_nat (cols x))) as [Hlen Hstart]; try lia.
  rewrite (EmbeddingInv.pe_rows Hwf) in Hlen, Hstart.
  cbn [slice_rows rows]. rewrite (EmbeddingInv.pe_rows Hwf).
  replace (slice_len default_max_len t (t + Z.of_nat (cols x))) with (cols x)
    by lia.
  rewrite broadcast_dim_same.
  unfold nn.Dropout.forward3. rewrite Heval.
  eexists. split; [reflexivity|]. split; [reflexivity|].
  intros b l c Hl Hc. cbn [at3 at2 slice_rows].
  rewrite !bidx_in_range by assumption.
  rewrite (EmbeddingInv.pe_rows Hwf), Hstart, Z.min_l by lia. reflexivity.
Qed.

(** X21.  With dropout disabled, embedding the tokens of position [l] alone
    at [timestep = l] gives the same vectors as position [l] of the
    embedding of the whole sequence at time step 0: the embedding of an
    incremental step agrees with the full-sequence embedding. *)
Theorem Embedding_forward_step_agrees (e : Embedding.t) (x : T2 Z) (l : nat)
    (g : rng) :
  EmbeddingInv.wf e -> nn.Dropout.training (Embedding.dropout e) = false ->
  EmbeddingInv.ids_in_vocab e x ->
  (l < cols x)%nat -> (Z.of_nat (cols x) <= default_max_len)%Z ->
  exists y y1,
    Embedding.forward e x 0 g = Ok (y, g) /\
    Embedding.forward e (column x l) (Z.of_nat l) g = Ok (y1, g) /\
    shape3 y1 = (rows x, 1%nat, Z.to_nat (Embedding.embedding_dim e)) /\
    forall b c, (c < Z.to_nat (Embedding.embedding_dim e))%nat ->
                at3 y1 b 0 c = at3 y b l c.
Proof.
  intros Hwf Heval Hids Hl Hcap.
  assert (Hids1 : EmbeddingInv.ids_in_vocab e (column x l)).
  { intros b j Hb _. cbn. apply Hids; [exact Hb | exact Hl]. }
  destruct (Embedding_forward_eval_value e x 0 g Hwf Heval Hids)
    as (y & Hy & _ & Hval); try lia.
  destruct (Embedding_forward_eval_value e (column x l) (Z.of_nat l) g Hwf
              Heval Hids1) as (y1 & Hy1 & Hs1 & Hval1);
    try (cbn [column cols]; lia).
  exists y, y1. split; [exact Hy|]. split; [exact Hy1|].
  split; [exact Hs1|].
  intros b c Hc.
  rewrite (Hval1 b 0%nat c) by (cbn [column cols]; lia || assumption).
  rewrite (Hval b l c Hl Hc). cbn [column at2].
  rewrite Nat2Z.id, Nat.add_0_r. reflexivity.
Qed.

Lemma Embedding_forward_step_agrees_witness :
  exists y y1,
    Embedding.forward Demo.embedding (full2 1 3 1) 0 rng0 = Ok (y, rng0) /\
    Embedding.forward Demo.embedding (column (full2 1 3 1) 2) 2 rng0
    = Ok (y1, rng0) /\
    at3 y1 0 0 3 = at3 y 0 2 3.
Proof.
  destruct (Embedding_forward_step_agrees Demo.embedding (full2 1 3 1) 2 rng0)
    as (y & y1 & Hy & Hy1 & _ & Hval).
  - exact Demo_embedding_wf.
  - reflexivity.
  - apply Demo_ids_in_vocab. lia.
  - cbn. lia.
  - unfold default_max_len. cbn. lia.
  - exists y, y1. split; [exact Hy|]. split; [exact Hy1|].
    apply Hval. cbn. lia.
Defined.

(** X22.  The cache returned by the decoder is read back layer by layer:
    selecting layer [i] of the stack of saved inputs ([previous[:, i]])
    returns the input saved for layer [i], and selecting past the last layer
    raises [IndexError]. *)
Theorem select1_stack1 (ts : list (T3 R)) (B L D : nat) :
  ts <> [] -> Forall (fun t => shape3 t = (B, L, D)) ts ->
  exists st,
    stack1 ts = Ok st /\
    (forall i x, nth_error ts i = Some x ->
       exists x', select1 st i = Ok x' /\ same3 x' x) /\
    (forall i, (length ts <= i)%nat -> select1 st i = Raise IndexError).
Proof.
  intros Hne Hall.
  destruct (stack1_shape ts B L D Hne Hall) as (st & Hst & Hss & Hval).
  exists st. split; [exact Hst|]. shapes. split.
  - intros i x Hi. unfold select1.
    assert (Hlt : (i < size1 st)%nat).
    { assert (Hs : nth_error ts i <> None) by congruence.
      apply nth_error_Some in Hs. lia. }
    destruct (Nat.ltb_spec i (size1 st)) as [_|]; [|lia].
    eexists. split; [reflexivity|].
    rewrite Forall_forall in Hall.
    pose proof (Hall x (nth_error_In _ _ Hi)) as Hx. shapes.
    split; [unfold shape3; cbn; congruence|].
    cbn [at3]. intros b l c _ _ _. apply Hval. exact Hi.
  - intros i Hi. unfold select1.
    destruct (Nat.ltb_spec i (size1 st)) as [|_]; [lia | reflexivity].
Qed.

Lemma select1_stack1_witness :
  exists st x',
    stack1 [Demo.history; Demo.enc_out] = Ok st /\
    select1 st 1 = Ok x' /\ same3 x' Demo.enc_out /\
    select1 st 2 = Raise IndexError.
Proof.
  destruct (select1_stack1 [Demo.history; Demo.enc_out] 1 2 4)
    as (st & Hst & Hsel & Hout).
  - discriminate.
  - repeat constructor.
  - destruct (Hsel 1%nat Demo.enc_out eq_refl) as (x' & Hx' & Hsame).
    exists st, x'. repeat split; try assumption; try apply Hsame.
    apply Hout. cbn. lia.
Defined.

(** ** The encoder's constructor establishes its shape invariants *)

Lemma EncoderLayer_init_wf (D : Z) (p : R) (h ff_size : Z)
    (w : EncoderLayer.draws) (layer : EncoderLayer.t) :
  (0 < h)%Z -> (0 < D)%Z -> (D mod h = 0)%Z ->
  EncoderLayer.init D p h ff_size w = Ok layer ->
  EncoderInv.encoder_layer (Z.to_nat D) layer.
Proof.
  intros Hh HD Hdiv H. unfold EncoderLayer.init in H.
  bind_split H as sa Hsa. bind_split H as ff Hff.
  bind_split H as drop Hdrop. bind_split H as norms Hnorms.
  injection H as <-.
  destruct (collect_Forall (fun _ => nn.LayerNorm.init D)
              (fun n => nn.LayerNorm.normalized_shape n = Z.to_nat D)
              (fun _ n Hn => LayerNorm_init_dims D n Hn) 2 0%nat _ Hnorms)
    as [Hall Hlen].
  constructor; cbn.
  - exact (MultiHeadedAttention_init_wf _ _ _ _ _ Hh HD Hdiv Hsa).
  - exact (FeedForward_init_wf _ _ _ _ _ Hff).
  - exact Hlen.
  - exact Hall.
Qed.

Lemma Encoder_init_wf (num_layers num_heads hidden_size : Z) (p : R)
    (ff_size : Z) (e : Embedding.t) (w : nat -> EncoderLayer.draws)
    (enc : Encoder.t) :
  (0 < num_heads)%Z -> (hidden_size mod num_heads = 0)%Z ->
  EmbeddingInv.wf e -> Embedding.embedding_dim e = hidden_size ->
  Encoder.init num_layers num_heads hidden_size p ff_size e w = Ok enc ->
  EncoderInv.encoder enc.
Proof.
  intros Hh Hdiv He Hdim H. unfold Encoder.init in H.
  bind_split H as ls Hls. injection H as <-.
  assert (HD : (0 < hidden_size)%Z)
    by (rewrite <- Hdim; exact (EmbeddingInv.dim_pos He)).
  destruct (collect_Forall
              (fun i => EncoderLayer.init hidden_size p num_heads ff_size (w i))
              (EncoderInv.encoder_layer (Z.to_nat hidden_size))
              (fun i l Hl => EncoderLayer_init_wf _ _ _ _ _ _ Hh HD Hdiv Hl)
              _ _ _ Hls) as [Hall _].
  constructor; cbn.
  - exact He.
  - unfold EncoderInv.model_dim. cbn. rewrite Hdim. exact Hall.
Qed.
